(** * Stripe samples scaffolding: a shallow embedding of [pkg/samples/samples.go]

    The Go package is modelled function by function.  Pure helpers become
    Rocq functions; methods of [*Samples] that talk to the prompt, the
    version-control client, the file system, the HTTP executor or the
    profile store become computations of a small state-and-error monad
    whose state carries the [Samples] struct and the chronological log of
    every collaborator call. *)

From Stdlib Require Import Ascii.
From stdpp Require Import base option list strings gmap.

(** ** Go values *)

(** A Go [error] is inspected by the package only through [err.Error()],
    so an error value is represented by its message. *)
Definition error := string.

(** A Go slice is either [nil] or a (possibly empty) backing sequence. *)
Inductive slice (A : Type) : Type :=
| nil_slice
| Slice (l : list A).
Arguments nil_slice {A}.
Arguments Slice {A} l.

(** What [range] iterates over and [len] counts. *)
Definition elems {A} (s : slice A) : list A :=
  match s with
  | nil_slice => []
  | Slice l => l
  end.

Definition len {A} (s : slice A) : nat := length (elems s).

(** ** The manifest ([.cli.json]) *)

Record requiredResourceSampleConfig := {
  rrc_Name : string;
  rrc_EnvVar : string
}.

Record sampleConfigIntegration := {
  sci_Name : string;
  sci_Clients : list string;
  sci_Servers : list string
}.

Record sampleConfig := {
  sc_Name : string;
  sc_ConfigureDotEnv : bool;
  sc_PostInstall : gmap string string;
  sc_Integrations : list sampleConfigIntegration;
  sc_RequiredResources : list requiredResourceSampleConfig
}.

Definition hasIntegrations (sc : sampleConfig) : bool :=
  bool_decide (1 < length (sc_Integrations sc)).

Definition integrationNames (sc : sampleConfig) : list string :=
  foldl (fun names integration => names ++ [sci_Name integration]) []
        (sc_Integrations sc).

Fixpoint serversOf (integrations : list sampleConfigIntegration) (n : string)
  : list string :=
  match integrations with
  | [] => []
  | integration :: rest =>
      if decide (sci_Name integration = n) then sci_Servers integration
      else serversOf rest n
  end.

Definition integrationServers (sc : sampleConfig) (n : string) : list string :=
  serversOf (sc_Integrations sc) n.

Definition hasClients (i : sampleConfigIntegration) : bool :=
  bool_decide (0 < length (sci_Clients i)).

Definition hasServers (i : sampleConfigIntegration) : bool :=
  bool_decide (0 < length (sci_Servers i)).

Definition hasMultipleClients (i : sampleConfigIntegration) : bool :=
  bool_decide (1 < length (sci_Clients i)).

Definition hasMultipleServers (i : sampleConfigIntegration) : bool :=
  bool_decide (1 < length (sci_Servers i)).

Definition name (i : sampleConfigIntegration) : string :=
  if decide (sci_Name i = "main") then "" else sci_Name i.

(** ** The static catalog of required resources *)

Record RequiredResource := {
  rr_name : string;
  rr_description : string;
  rr_httpPath : string;
  rr_data : list string
}.

Definition requiredResources : list RequiredResource :=
  [ {| rr_name := "stripe_samples_price_recurring_basic_id";
       rr_description := "recurring price for a 'basic' plan";
       rr_httpPath := "/v1/prices";
       rr_data := [ "currency=usd";
                    "unit_amount=1000";
                    "product_data[name]=Stripe Sample Basic";
                    "recurring[interval]=month" ] |};
    {| rr_name := "stripe_samples_price_recurring_pro_id";
       rr_description := "recurring price for a 'pro' plan";
       rr_httpPath := "/v1/prices";
       rr_data := [ "currency=usd";
                    "unit_amount=1000";
                    "product_data[name]=Stripe Sample Pro";
                    "recurring[interval]=month" ] |} ].

(** The loop of [getRequiredResource] over an arbitrary table; [None] is
    the [nil] pointer. *)
Fixpoint lookupRequiredResource (table : list RequiredResource) (n : string)
  : option RequiredResource :=
  match table with
  | [] => None
  | rr :: rest =>
      if decide (rr_name rr = n) then Some rr
      else lookupRequiredResource rest n
  end.

Definition getRequiredResource (n : string) : option RequiredResource :=
  lookupRequiredResource requiredResources n.

(** ** The profile store ([config.Profile]) *)

(** Modelled from the spec: [pkg/config] is not part of the sources at
    hand.  The profile offers "get/set a named sample-resource identifier"
    and "write an arbitrary config field"; the resource record is a
    "persistent mapping, catalog name -> created external identifier".
    [p_SampleResourceIDs] is the settable in-memory representation,
    [p_ConfigFields] the durable configuration written field by field. *)
Record Profile := {
  p_SampleResourceIDs : gmap string string;
  p_ConfigFields : gmap string string
}.

(** Modelled from the spec: an absent entry reads as the empty string, the
    zero value [MissingRequiredResources] compares against. *)
Definition GetStripeSampleResourceID (p : Profile) (n : string) : string :=
  default "" (p_SampleResourceIDs p !! n).

Definition SetStripeSampleResourceID (p : Profile) (n id : string) : Profile :=
  {| p_SampleResourceIDs := <[n := id]> (p_SampleResourceIDs p);
     p_ConfigFields := p_ConfigFields p |}.

Definition WriteConfigField (p : Profile) (n v : string) : Profile :=
  {| p_SampleResourceIDs := p_SampleResourceIDs p;
     p_ConfigFields := <[n := v]> (p_ConfigFields p) |}.

(** ** The [Samples] struct *)

(** [s_integration] is a pointer into [sc_Integrations (s_sampleConfig s)].
    [SelectOptions] assigns it, [Copy] and [ConfigureDotEnv] read through
    it, and none of the three writes through it or touches the manifest;
    from its assignment on it is therefore represented by [None] for
    [nil] and by its pointee otherwise.  The decode in [Initialize]
    rewrites the manifest in place and with it, possibly, the pointee: the
    field carries no information about the pointee across an
    [Initialize], and nothing below relies on it there. *)
Record Samples := {
  s_Profile : Profile;
  s_name : string;
  s_repo : string;
  s_sampleConfig : sampleConfig;
  s_integration : option sampleConfigIntegration;
  s_client : string;
  s_server : string
}.

(** ** The gap check *)

(** The body of the [for ... range s.sampleConfig.RequiredResources] loop
    of [MissingRequiredResources]; [ret] is the slice built so far. *)
Fixpoint missingLoop (p : Profile) (rrConfigs : list requiredResourceSampleConfig)
    (ret : list RequiredResource) : slice RequiredResource :=
  match rrConfigs with
  | [] => Slice ret
  | rrConfig :: rest =>
      match getRequiredResource (rrc_Name rrConfig) with
      | None => nil_slice
      | Some rr =>
          let id := GetStripeSampleResourceID p (rr_name rr) in
          if decide (id = "") then missingLoop p rest (ret ++ [rr])
          else missingLoop p rest ret
      end
  end.

Definition MissingRequiredResources (s : Samples) : slice RequiredResource :=
  missingLoop (s_Profile s) (sc_RequiredResources (s_sampleConfig s)) [].

(** ** JSON values ([encoding/json]) *)

(** The syntax tree of a JSON document.  An object keeps its members in
    document order, duplicates included. *)
#[local] Unset Elimination Schemes.
Inductive json : Type :=
| JNull
| JBool (b : bool)
| JNumber (literal : string)
| JString (s : string)
| JArray (items : list json)
| JObject (members : list (string * json)).
#[local] Set Elimination Schemes.

(** [json.Unmarshal(data, &fields)] for a nil [fields map[string]interface{}],
    after the document has been scanned into a tree: an object fills the
    map, a later duplicate key replacing an earlier one; [null] leaves the
    map nil and reports no error; any other value is an
    [UnmarshalTypeError].  A nil map reads like an empty one. *)
Definition unmarshalFields (v : json) : gmap string json + error :=
  match v with
  | JObject members =>
      inl (foldl (fun (m : gmap string json) kv => <[kv.1 := kv.2]> m) ∅ members)
  | JNull => inl ∅
  | _ => inr "json: cannot unmarshal value into Go value of type map[string]interface {}"
  end.

(** The type assertion [fields["id"].(string)]. *)
Definition assertString (v : option json) : option string :=
  match v with
  | Some (JString s) => Some s
  | _ => None
  end.

(** ** Paths ([path/filepath], Unix flavour) *)

(** [strings.Join]. *)
Fixpoint strings_Join (elems : list string) (sep : string) : string :=
  match elems with
  | [] => ""
  | [e] => e
  | e :: rest => e +:+ sep +:+ strings_Join rest sep
  end.

(** The components of a path between separators; never empty. *)
Fixpoint splitPath (p : string) : list string :=
  match p with
  | EmptyString => [""]
  | String c rest =>
      if decide (c = "/"%char) then "" :: splitPath rest
      else match splitPath rest with
           | [] => [String c ""]
           | h :: t => String c h :: t
           end
  end.

(** One step of [filepath.Clean] on the components kept so far: empty and
    [.] components are dropped; [..] removes the component before it, is
    kept when there is none to remove in a relative path, and is dropped
    at the root. *)
Definition cleanStep (rooted : bool) (out : list string) (c : string) : list string :=
  if decide (c = "") then out
  else if decide (c = ".") then out
  else if decide (c = "..") then
    match last out with
    | Some l =>
        if decide (l = "..") then out ++ [c] else removelast out
    | None => if rooted then out else out ++ [c]
    end
  else out ++ [c].

Definition isRooted (p : string) : bool :=
  match p with
  | String c _ => bool_decide (c = "/"%char)
  | EmptyString => false
  end.

(** [filepath.Clean]: the shortest path equivalent to [p] by purely
    lexical processing. *)
Definition Clean (p : string) : string :=
  let rooted := isRooted p in
  let out := foldl (cleanStep rooted) [] (splitPath p) in
  match out with
  | [] => if rooted then "/" else "."
  | _ => (if rooted then "/" else "") +:+ strings_Join out "/"
  end.

(** [filepath.Join]: leading empty elements are skipped, the rest is
    joined with the separator and cleaned; all empty gives the empty
    string. *)
Fixpoint filepath_Join (elem : list string) : string :=
  match elem with
  | [] => ""
  | e :: rest =>
      if decide (e = "") then filepath_Join rest
      else Clean (strings_Join elem "/")
  end.
#[global] Arguments filepath_Join : simpl never.

(** ** Collaborator calls *)

(** Every call that leaves the package is logged, in order, with the
    arguments it was made with. *)
Inductive Event : Type :=
| EvAppCacheFolder (app : string)
| EvGetSamples (mode : string)
| EvStat (path : string)
| EvClone (path repo : string)
| EvPull (path : string)
| EvReadFile (path : string)
| EvUnmarshalConfig (data : string)
| EvPrompt (template label : string) (items : list string)
| EvPrint (text : string)
| EvGetAPIKey (livemode : bool)
| EvMakeRequest (apiKey path : string) (data : list string)
| EvSetStripeSampleResourceID (n id : string)
| EvWriteConfigField (n v : string)
| EvCopy (src dst : string)
| EvGetFiles (dir : string)
| EvOpen (path : string)
| EvDotenvParse (path : string)
| EvGetPublishableKey
| EvGetDeviceName
| EvAuthorize (apiKey deviceName capability : string)
| EvDotenvWrite (env : gmap string string) (path : string).

Definition Trace := list Event.

(** The collaborators.  Each answers from the calls made so far, which
    makes it a deterministic but otherwise arbitrary stateful party. *)
Record Env := {
  (** [s.appCacheFolder], defined in another file of the package *)
  env_appCacheFolder : Trace -> string -> string + error;
  (** [s.GetSamples("create")[app].GitRepo()], the declared source URL *)
  env_gitRepo : Trace -> string -> string;
  (** [os.IsNotExist] of the error of [s.Fs.Stat] *)
  env_statNotExist : Trace -> string -> bool;
  env_gitClone : Trace -> string -> string -> option error;
  env_gitPull : Trace -> string -> option error;
  env_readFile : Trace -> string -> string + error;
  (** [json.Unmarshal(configFile, &s.sampleConfig)]: the struct after the
      call and the error, if any *)
  env_unmarshalConfig : string -> sampleConfig -> sampleConfig * option error;
  (** [promptui.Select.Run] on a label and its items *)
  env_promptRun : Trace -> string -> list string -> string + error;
  env_getAPIKey : Trace -> bool -> string + error;
  (** [requests.Base.MakeRequest] on key, path and form data *)
  env_makeRequest : Trace -> string -> string -> list string -> string + error;
  (** the scanner of [encoding/json] *)
  env_jsonParse : string -> json + error;
  env_copy : Trace -> string -> string -> option error;
  (** [s.GetFiles], defined in another file of the package *)
  env_getFiles : Trace -> string -> list string + error;
  (** [s.Fs.Open], then [godotenv.Parse] on the opened file *)
  env_open : Trace -> string -> option error;
  env_dotenvParse : Trace -> string -> gmap string string + error;
  env_getPublishableKey : Trace -> string;
  env_getDeviceName : Trace -> string + error;
  (** [stripeauth.Client.Authorize], returning the session secret *)
  env_authorize : Trace -> string -> string -> string -> string + error;
  env_dotenvWrite : Trace -> gmap string string -> string -> option error
}.

(** [git.NoErrAlreadyUpToDate.Error()] of go-git. *)
Definition NoErrAlreadyUpToDate : error := "already up-to-date".

(** ** The monad of methods *)

Record State := {
  st_samples : Samples;
  st_trace : Trace
}.

(** How a call ends: a value with a nil error, a non-nil error, or a
    run-time panic. *)
Inductive result (A : Type) : Type :=
| Ok (a : A)
| Err (e : error)
| Panic (msg : string).
Arguments Ok {A} a.
Arguments Err {A} e.
Arguments Panic {A} msg.

Definition M (A : Type) : Type := State -> result A * State.

Definition ret {A} (a : A) : M A := fun st => (Ok a, st).

Definition bind {A B} (m : M A) (k : A -> M B) : M B :=
  fun st =>
    match m st with
    | (Ok a, st') => k a st'
    | (Err e, st') => (Err e, st')
    | (Panic msg, st') => (Panic msg, st')
    end.

#[global] Instance M_ret : MRet M := @ret.
#[global] Instance M_bind : MBind M := fun A B k m => bind m k.

(** [return ..., err] with a non-nil error. *)
Definition fail {A} (e : error) : M A := fun st => (Err e, st).

Definition panic {A} (msg : string) : M A := fun st => (Panic msg, st).

(** Keeps the error of [m] as a value, for callers that inspect [err]
    themselves instead of returning it. *)
Definition recover {A} (m : M A) : M (A + error) :=
  fun st =>
    match m st with
    | (Ok a, st') => (Ok (inl a), st')
    | (Err e, st') => (Ok (inr e), st')
    | (Panic msg, st') => (Panic msg, st')
    end.

Definition getSamples : M Samples := fun st => (Ok (st_samples st), st).

Definition withSamples (f : Samples -> Samples) (st : State) : State :=
  {| st_samples := f (st_samples st); st_trace := st_trace st |}.

Definition logEvent (ev : Event) (st : State) : State :=
  {| st_samples := st_samples st; st_trace := st_trace st ++ [ev] |}.

Definition modifySamples (f : Samples -> Samples) : M unit :=
  fun st => (Ok tt, withSamples f st).

(** Logs call [ev] and hands back what the collaborator answers to the
    calls made before it. *)
Definition call {A} (ev : Event) (answer : Trace -> A) : M A :=
  fun st => (Ok (answer (st_trace st)), logEvent ev st).

(** Turns a [(T, error)] pair into the monad's outcome. *)
Definition orFail {A} (r : A + error) : M A :=
  match r with
  | inl a => ret a
  | inr e => fail e
  end.

(** Turns a lone [error] return into the monad's outcome. *)
Definition orFail_ (r : option error) : M unit :=
  match r with
  | None => ret tt
  | Some e => fail e
  end.

(** Field assignments on the [Samples] struct. *)
Definition set_Profile (p : Profile) (s : Samples) : Samples :=
  {| s_Profile := p; s_name := s_name s; s_repo := s_repo s;
     s_sampleConfig := s_sampleConfig s; s_integration := s_integration s;
     s_client := s_client s; s_server := s_server s |}.

Definition set_name (n : string) (s : Samples) : Samples :=
  {| s_Profile := s_Profile s; s_name := n; s_repo := s_repo s;
     s_sampleConfig := s_sampleConfig s; s_integration := s_integration s;
     s_client := s_client s; s_server := s_server s |}.

Definition set_repo (r : string) (s : Samples) : Samples :=
  {| s_Profile := s_Profile s; s_name := s_name s; s_repo := r;
     s_sampleConfig := s_sampleConfig s; s_integration := s_integration s;
     s_client := s_client s; s_server := s_server s |}.

Definition set_sampleConfig (sc : sampleConfig) (s : Samples) : Samples :=
  {| s_Profile := s_Profile s; s_name := s_name s; s_repo := s_repo s;
     s_sampleConfig := sc; s_integration := s_integration s;
     s_client := s_client s; s_server := s_server s |}.

Definition set_integration (i : option sampleConfigIntegration) (s : Samples) : Samples :=
  {| s_Profile := s_Profile s; s_name := s_name s; s_repo := s_repo s;
     s_sampleConfig := s_sampleConfig s; s_integration := i;
     s_client := s_client s; s_server := s_server s |}.

Definition set_client (c : string) (s : Samples) : Samples :=
  {| s_Profile := s_Profile s; s_name := s_name s; s_repo := s_repo s;
     s_sampleConfig := s_sampleConfig s; s_integration := s_integration s;
     s_client := c; s_server := s_server s |}.

Definition set_server (c : string) (s : Samples) : Samples :=
  {| s_Profile := s_Profile s; s_name := s_name s; s_repo := s_repo s;
     s_sampleConfig := s_sampleConfig s; s_integration := s_integration s;
     s_client := s_client s; s_server := c |}.

Definition newline : string := String (ascii_of_nat 10) "".

Definition nilDereference : string :=
  "runtime error: invalid memory address or nil pointer dereference".

Definition indexOutOfRange : string :=
  "runtime error: index out of range [0] with length 0".

(** ** The methods of [*Samples] *)

Section Methods.
Context (E : Env).

(** *** Initialize *)

(** Lines 155-165: read [.cli.json] from the working copy and decode it
    into [s.sampleConfig]. *)
Definition readSampleConfig (appPath : string) : M unit :=
  let path := filepath_Join [appPath; ".cli.json"] in
  configFile ← call (EvReadFile path) (fun tr => env_readFile E tr path) ≫= orFail;
  s ← getSamples;
  decoded ← call (EvUnmarshalConfig configFile)
                 (fun _ => env_unmarshalConfig E configFile (s_sampleConfig s));
  modifySamples (set_sampleConfig decoded.1);;
  orFail_ decoded.2.

Definition Initialize (app : string) : M unit :=
  modifySamples (set_name app);;
  appPath ← call (EvAppCacheFolder app) (fun tr => env_appCacheFolder E tr app) ≫= orFail;
  modifySamples (set_repo appPath);;
  list ← call (EvGetSamples "create") (fun tr => env_gitRepo E tr);
  notExist ← call (EvStat appPath) (fun tr => env_statNotExist E tr appPath);
  (if notExist : bool then
     call (EvClone appPath (list app))
          (fun tr => env_gitClone E tr appPath (list app)) ≫= orFail_
   else
     err ← call (EvPull appPath) (fun tr => env_gitPull E tr appPath);
     match err with
     | None => mret tt
     | Some e =>
         if decide (e = NoErrAlreadyUpToDate) then mret tt else fail e
     end);;
  readSampleConfig appPath.

(** *** Prompts *)

Definition selectOptions (template label : string) (options : list string)
  : M string :=
  call (EvPrompt template label options)
       (fun tr => env_promptRun E tr label options) ≫= orFail.

Definition clientSelectPrompt (clients : list string) : M string :=
  selectOptions "client" "Which client would you like to use" clients.

Definition serverSelectPrompt (servers : list string) : M string :=
  selectOptions "server" "What server would you like to use" servers.

(** The loop keeps the last integration whose name matches. *)
Definition integrationSelectPrompt (sc : sampleConfig)
  : M (option sampleConfigIntegration) :=
  selected ← selectOptions "integration"
               "What type of integration would you like to use"
               (integrationNames sc);
  mret (foldl (fun selectedIntegration integration =>
                 if decide (sci_Name integration = selected)
                 then Some integration else selectedIntegration)
              None (sc_Integrations sc)).

(** What [fmt.Printf] writes before the auto-create prompt. *)
Definition requiredResourcesNotice (descriptions : list string) : string :=
  let descriptionList := strings_Join descriptions (newline +:+ "  * ") in
  "This Stripe Sample requires a few pre-existing resources to exist in test mode on your Stripe Account:"
  +:+ newline +:+ "  * " +:+ descriptionList +:+ newline.

Definition shouldCreateRequiredResourcesPrompt (descriptions : list string)
  : M bool :=
  call (EvPrint (requiredResourcesNotice descriptions)) (fun _ => tt);;
  selected ← selectOptions "auto-create behavior"
               "Would you like us to automatically create these and configure their IDs?"
               ["yes"; "no"];
  mret (bool_decide (selected = "yes")).

(** *** Provisioning *)

Definition CreateRequiredResource (requiredResourceName : string) : M string :=
  match getRequiredResource requiredResourceName with
  | None =>
      fail ("Unexpected: tried to create unknown required resource "
            +:+ requiredResourceName)
  | Some rr =>
      apiKey ← call (EvGetAPIKey false) (fun tr => env_getAPIKey E tr false) ≫= orFail;
      bytes ← call (EvMakeRequest apiKey (rr_httpPath rr) (rr_data rr))
                   (fun tr => env_makeRequest E tr apiKey (rr_httpPath rr) (rr_data rr))
                ≫= orFail;
      document ← orFail (env_jsonParse E bytes);
      fields ← orFail (unmarshalFields document);
      match assertString (fields !! "id") with
      | Some id => mret id
      | None =>
          fail ("Unexpected response from stripe API when creating "
                +:+ requiredResourceName +:+ ", did not contain ID: " +:+ bytes)
      end
  end.

(** The profile is told twice, in memory and on disk; whatever the two
    calls return is dropped and the method returns nil. *)
Definition PersistRequiredResourceID (resourceName id : string) : M unit :=
  call (EvSetStripeSampleResourceID resourceName id) (fun _ => tt);;
  modifySamples (fun s =>
    set_Profile (SetStripeSampleResourceID (s_Profile s) resourceName id) s);;
  call (EvWriteConfigField resourceName id) (fun _ => tt);;
  modifySamples (fun s =>
    set_Profile (WriteConfigField (s_Profile s) resourceName id) s).

(** Lines 212-218: create and persist, one missing resource at a time. *)
Fixpoint createMissing (missingResources : list RequiredResource) : M unit :=
  match missingResources with
  | [] => mret tt
  | r :: rest =>
      id ← CreateRequiredResource (rr_name r);
      PersistRequiredResourceID (rr_name r) id;;
      createMissing rest
  end.

(** *** SelectOptions *)

(** Lines 203-206: the descriptions shown to the user. *)
Definition descriptionsOf (missingResources : list RequiredResource) : list string :=
  foldl (fun descs r => descs ++ [rr_description r]) [] missingResources.

(** Lines 200-222. *)
Definition selectOptions_resources : M unit :=
  s ← getSamples;
  let missingResources := MissingRequiredResources s in
  if bool_decide (0 < len missingResources) then
    let descs := descriptionsOf (elems missingResources) in
    shouldCreate ← shouldCreateRequiredResourcesPrompt descs;
    if shouldCreate : bool then createMissing (elems missingResources)
    else mret tt
  else mret tt.

(** Lines 191-222. *)
Definition selectOptions_server : M unit :=
  s ← getSamples;
  match s_integration s with
  | None => panic nilDereference
  | Some i =>
      (if hasMultipleServers i then
         r ← recover (serverSelectPrompt (sci_Servers i));
         match r with
         | inl server => modifySamples (set_server server)
         | inr err => modifySamples (set_server "");; fail err
         end
       else modifySamples (set_server ""));;
      selectOptions_resources
  end.

(** Lines 182-222.  A failed client prompt ends the method with
    [return nil]. *)
Definition selectOptions_client : M unit :=
  s ← getSamples;
  match s_integration s with
  | None => panic nilDereference
  | Some i =>
      if hasMultipleClients i then
        r ← recover (clientSelectPrompt (sci_Clients i));
        match r with
        | inl client => modifySamples (set_client client);; selectOptions_server
        | inr _ => modifySamples (set_client "")
        end
      else modifySamples (set_client "");; selectOptions_server
  end.

(** Lines 173-180. *)
Definition selectOptions_integration : M unit :=
  s ← getSamples;
  let sc := s_sampleConfig s in
  if hasIntegrations sc then
    r ← recover (integrationSelectPrompt sc);
    match r with
    | inl integration => modifySamples (set_integration integration)
    | inr err => modifySamples (set_integration None);; fail err
    end
  else
    match sc_Integrations sc with
    | [] => panic indexOutOfRange
    | i :: _ => modifySamples (set_integration (Some i))
    end.

Definition SelectOptions : M unit :=
  selectOptions_integration;; selectOptions_client.

(** *** Copy *)

(** The two [for ... range filesSource] loops; [source] builds the path
    an entry is copied from. *)
Fixpoint copyFiles (source : string -> string) (target : string)
    (filesSource : list string) : M unit :=
  match filesSource with
  | [] => mret tt
  | file :: rest =>
      let src := source file in
      let dst := filepath_Join [target; file] in
      call (EvCopy src dst) (fun tr => env_copy E tr src dst) ≫= orFail_;;
      copyFiles source target rest
  end.

(** Lines 246-291, for the receiver [s], its integration [i] and the
    path component [integration]. *)
Definition copyIntegration (s : Samples) (i : sampleConfigIntegration)
    (integration target : string) : M unit :=
  (if hasServers i then
     let serverSource := filepath_Join [s_repo s; integration; "server"; s_server s] in
     let serverDestination := filepath_Join [target; "server"] in
     call (EvCopy serverSource serverDestination)
          (fun tr => env_copy E tr serverSource serverDestination) ≫= orFail_
   else mret tt);;
  (if hasClients i then
     let clientSource := filepath_Join [s_repo s; integration; "client"; s_client s] in
     let clientDestination := filepath_Join [target; "client"] in
     call (EvCopy clientSource clientDestination)
          (fun tr => env_copy E tr clientSource clientDestination) ≫= orFail_
   else mret tt);;
  let dir := filepath_Join [s_repo s; integration] in
  filesSource ← call (EvGetFiles dir) (fun tr => env_getFiles E tr dir) ≫= orFail;
  copyFiles (fun file => filepath_Join [s_repo s; integration; file]) target filesSource;;
  filesSource ← call (EvGetFiles (s_repo s)) (fun tr => env_getFiles E tr (s_repo s)) ≫= orFail;
  copyFiles (fun file => filepath_Join [s_repo s; file]) target filesSource.

Definition Copy (target : string) : M unit :=
  s ← getSamples;
  match s_integration s with
  | None => panic nilDereference
  | Some i => copyIntegration s i (name i) target
  end.

(** *** ConfigureDotEnv *)

(** Lines 459-464: the identifiers on record are written under the
    variable each reference names. *)
Definition injectResourceIDs (p : Profile)
    (rrConfigs : list requiredResourceSampleConfig)
    (dotenv : gmap string string) : gmap string string :=
  foldl (fun (dotenv : gmap string string) rrConfig =>
           let id := GetStripeSampleResourceID p (rrc_Name rrConfig) in
           if decide (id = "") then dotenv
           else <[rrc_EnvVar rrConfig := id]> dotenv)
        dotenv rrConfigs.

Definition ConfigureDotEnv (sampleLocation : string) : M unit :=
  s ← getSamples;
  match s_integration s with
  | None => panic nilDereference
  | Some i =>
      if hasServers i then
        if negb (sc_ConfigureDotEnv (s_sampleConfig s)) then mret tt
        else
          let exFile := filepath_Join [sampleLocation; ".env.example"] in
          call (EvOpen exFile) (fun tr => env_open E tr exFile) ≫= orFail_;;
          dotenv ← call (EvDotenvParse exFile)
                        (fun tr => env_dotenvParse E tr exFile) ≫= orFail;
          publishableKey ← call EvGetPublishableKey (env_getPublishableKey E);
          if decide (publishableKey = "") then
            fail "we could not set the publishable key in the .env file; please set this manually or login again to set it automatically next time"
          else
            apiKey ← call (EvGetAPIKey false) (fun tr => env_getAPIKey E tr false) ≫= orFail;
            deviceName ← call EvGetDeviceName (env_getDeviceName E) ≫= orFail;
            secret ← call (EvAuthorize apiKey deviceName "webhooks")
                          (fun tr => env_authorize E tr apiKey deviceName "webhooks")
                       ≫= orFail;
            let dotenv :=
              <["STATIC_DIR" := "../client"]>
                (<["STRIPE_WEBHOOK_SECRET" := secret]>
                   (<["STRIPE_SECRET_KEY" := apiKey]>
                      (<["STRIPE_PUBLISHABLE_KEY" := publishableKey]> dotenv))) in
            let dotenv :=
              injectResourceIDs (s_Profile s)
                (sc_RequiredResources (s_sampleConfig s)) dotenv in
            let envFile := filepath_Join [sampleLocation; "server"; ".env"] in
            call (EvDotenvWrite dotenv envFile)
                 (fun tr => env_dotenvWrite E tr dotenv envFile) ≫= orFail_
      else mret tt
  end.

(** *** PostInstall *)

Definition PostInstall (s : Samples) : string :=
  default "" (sc_PostInstall (s_sampleConfig s) !! "message").
End Methods.

(** The references of a manifest that the gap check reports when every
    name resolves: those without an identifier on record, as catalog
    templates, in manifest order. *)
Definition unrecorded (p : Profile) (rrConfigs : list requiredResourceSampleConfig)
  : list RequiredResource :=
  omap (fun rrConfig => getRequiredResource (rrc_Name rrConfig))
       (filter (fun rrConfig => GetStripeSampleResourceID p (rrc_Name rrConfig) = "")
               rrConfigs).

(** ** Relating the state before and after a call *)

(** [steps R m]: running [m] takes every state to one related to it by
    [R], however [m] ends. *)
Definition steps (R : State -> State -> Prop) {A} (m : M A) : Prop :=
  forall st, R st (m st).2.

(** The log only grows, and only by events satisfying [P]. *)
Definition onlyEmits (P : Event -> Prop) (st st' : State) : Prop :=
  exists evs, st_trace st' = st_trace st ++ evs /\ Forall P evs.

(** Projection [f] of the [Samples] struct is left as it was. *)
Definition keeps {X} (f : Samples -> X) (st st' : State) : Prop :=
  f (st_samples st') = f (st_samples st).

Definition both (R1 R2 : State -> State -> Prop) (st st' : State) : Prop :=
  R1 st st' /\ R2 st st'.

(** [ev] is a run of the selection prompt built for [template]. *)
Definition isPrompt (template : string) (ev : Event) : Prop :=
  exists label items, ev = EvPrompt template label items.

Definition isIntegrationPrompt : Event -> Prop := isPrompt "integration".

(** Neither shows the prompt for [template] nor touches projection [f]. *)
Definition unprompted (template : string) {X} (f : Samples -> X)
  : State -> State -> Prop :=
  both (onlyEmits (fun ev => ~ isPrompt template ev)) (keeps f).

(** ** Sample inputs *)

Definition basicRef : requiredResourceSampleConfig :=
  {| rrc_Name := "stripe_samples_price_recurring_basic_id"; rrc_EnvVar := "BASIC" |}.

Definition proRef : requiredResourceSampleConfig :=
  {| rrc_Name := "stripe_samples_price_recurring_pro_id"; rrc_EnvVar := "PRO" |}.

Definition unknownRef : requiredResourceSampleConfig :=
  {| rrc_Name := "stripe_samples_product_id"; rrc_EnvVar := "PRODUCT" |}.

Definition emptyProfile : Profile :=
  {| p_SampleResourceIDs := ∅; p_ConfigFields := ∅ |}.

Definition basicRecorded : Profile :=
  SetStripeSampleResourceID emptyProfile
    "stripe_samples_price_recurring_basic_id" "price_123".

Definition mainIntegration : sampleConfigIntegration :=
  {| sci_Name := "main"; sci_Clients := []; sci_Servers := ["node"] |}.

Definition manifestOf (integrations : list sampleConfigIntegration)
    (refs : list requiredResourceSampleConfig) : sampleConfig :=
  {| sc_Name := "sample"; sc_ConfigureDotEnv := true; sc_PostInstall := ∅;
     sc_Integrations := integrations; sc_RequiredResources := refs |}.

(** A freshly built [Samples] holding manifest [sc] and profile [p]. *)
Definition samplesOf (p : Profile) (sc : sampleConfig) : Samples :=
  {| s_Profile := p; s_name := ""; s_repo := ""; s_sampleConfig := sc;
     s_integration := None; s_client := ""; s_server := "" |}.

(** A scripted set of collaborators: the knobs are the prompt, the API,
    the JSON scanner, the answer of [git pull] and the directory
    listing; everything else succeeds with fixed answers. *)
Definition scriptedEnv
    (prompt : Trace -> string -> list string -> string + error)
    (request : Trace -> string + error)
    (parse : string -> json + error)
    (pull : option error)
    (files : string -> list string + error) : Env :=
  {| env_appCacheFolder := fun _ app => inl ("/cache/" +:+ app);
     env_gitRepo := fun _ app => "https://github.com/stripe-samples/" +:+ app;
     env_statNotExist := fun _ _ => false;
     env_gitClone := fun _ _ _ => None;
     env_gitPull := fun _ _ => pull;
     env_readFile := fun _ _ => inl "{}";
     env_unmarshalConfig := fun _ sc => (sc, None);
     env_promptRun := prompt;
     env_getAPIKey := fun _ _ => inl "sk_test_123";
     env_makeRequest := fun tr _ _ _ => request tr;
     env_jsonParse := parse;
     env_copy := fun _ _ _ => None;
     env_getFiles := fun _ dir => files dir;
     env_open := fun _ _ => None;
     env_dotenvParse := fun _ _ => inl ∅;
     env_getPublishableKey := fun _ => "pk_test_123";
     env_getDeviceName := fun _ => inl "laptop";
     env_authorize := fun _ _ _ _ => inl "whsec_123";
     env_dotenvWrite := fun _ _ _ => None |}.

(** The user aborts every prompt. *)
Definition promptAborted : Trace -> string -> list string -> string + error :=
  fun _ _ _ => inr "^C".

(** The user takes the first item of every prompt. *)
Definition promptFirst : Trace -> string -> list string -> string + error :=
  fun _ _ items => inl (default "" (head items)).

(** A scanner that knows two documents: [id=<s>], an object whose only
    member is the string [s] under [id], and [id#<s>], the same with a
    number. *)
Definition parseToy (data : string) : json + error :=
  match data with
  | String "i" (String "d" (String "=" s)) => inl (JObject [("id", JString s)])
  | String "i" (String "d" (String "#" s)) => inl (JObject [("id", JNumber s)])
  | _ => inr "invalid character looking for beginning of value"
  end.

Definition abortingEnv : Env :=
  scriptedEnv promptAborted (fun _ => inr "connection refused") parseToy None
              (fun _ => inl []).

Definition startState (p : Profile) (sc : sampleConfig) : State :=
  {| st_samples := samplesOf p sc; st_trace := [] |}.

Definition webNode : sampleConfigIntegration :=
  {| sci_Name := "main"; sci_Clients := ["web"]; sci_Servers := ["node"] |}.

Definition manyVariants : sampleConfigIntegration :=
  {| sci_Name := "checkout";
     sci_Clients := ["html"; "react"];
     sci_Servers := ["node"; "ruby"] |}.

(** The events logged by the client and server prompts. *)
Definition clientPromptEvent (clients : list string) : Event :=
  EvPrompt "client" "Which client would you like to use" clients.

Definition serverPromptEvent (servers : list string) : Event :=
  EvPrompt "server" "What server would you like to use" servers.

(** The user takes the first item everywhere and the API answers every
    request with the document [id=price_1]. *)
Definition agreeingEnv : Env :=
  scriptedEnv promptFirst (fun _ => inl "id=price_1") parseToy None
              (fun _ => inl []).

(** The state [SelectOptions] is in once integration [i] is chosen. *)
Definition chosenState (p : Profile) (sc : sampleConfig)
    (i : sampleConfigIntegration) : State :=
  withSamples (set_integration (Some i)) (startState p sc).

(** A manifest that does not opt into environment configuration. *)
Definition manifestWithoutDotEnv (integrations : list sampleConfigIntegration)
    (refs : list requiredResourceSampleConfig) : sampleConfig :=
  {| sc_Name := "sample"; sc_ConfigureDotEnv := false; sc_PostInstall := ∅;
     sc_Integrations := integrations; sc_RequiredResources := refs |}.

(** The state [Initialize] is in after a pull on the existing working
    copy [appPath]: name and repository path are set, and the cache-path,
    sample-list, stat and pull calls are on the log. *)
Definition pulledState (app appPath : string) (st : State) : State :=
  {| st_samples := set_repo appPath (set_name app (st_samples st));
     st_trace := st_trace st ++ [ EvAppCacheFolder app; EvGetSamples "create";
                                  EvStat appPath; EvPull appPath ] |}.

(** [git pull] reports that there is nothing new. *)
Definition upToDateEnv : Env :=
  scriptedEnv promptFirst (fun _ => inl "id=price_1") parseToy
              (Some NoErrAlreadyUpToDate) (fun _ => inl []).

(** [git pull] fails for another reason. *)
Definition offlineEnv : Env :=
  scriptedEnv promptFirst (fun _ => inl "id=price_1") parseToy
              (Some "authentication required") (fun _ => inl []).

(** ** The calls of a copy *)

(** The calls a successful [Copy] makes when the selected variants and the
    integration's own entries live under the path elements [base]:
    [files1] is the listing of that folder, [files2] the listing of the
    repository. *)
Definition copyCallsFrom (i : sampleConfigIntegration) (base : list string)
    (s : Samples) (target : string) (files1 files2 : list string) : list Event :=
  (if hasServers i
   then [EvCopy (filepath_Join (base ++ ["server"; s_server s]))
                (filepath_Join [target; "server"])]
   else [])
  ++ (if hasClients i
      then [EvCopy (filepath_Join (base ++ ["client"; s_client s]))
                   (filepath_Join [target; "client"])]
      else [])
  ++ EvGetFiles (filepath_Join base)
     :: map (fun file => EvCopy (filepath_Join (base ++ [file]))
                                (filepath_Join [target; file])) files1
  ++ EvGetFiles (s_repo s)
     :: map (fun file => EvCopy (filepath_Join [s_repo s; file])
                                (filepath_Join [target; file])) files2.

(** [ev] reads from the repository root: the server or client variant
    under [<repo>/server] or [<repo>/client], a top-level entry, or a
    listing of the root. *)
Definition readsFromRoot (s : Samples) (target : string) (ev : Event) : Prop :=
  ev = EvCopy (filepath_Join [s_repo s; "server"; s_server s])
              (filepath_Join [target; "server"])
  \/ ev = EvCopy (filepath_Join [s_repo s; "client"; s_client s])
                 (filepath_Join [target; "client"])
  \/ (exists file, ev = EvCopy (filepath_Join [s_repo s; file])
                               (filepath_Join [target; file]))
  \/ ev = EvGetFiles (filepath_Join [s_repo s])
  \/ ev = EvGetFiles (s_repo s).

(** A working copy whose every folder lists a readme and a package
    file. *)
Definition listingEnv : Env :=
  scriptedEnv promptFirst (fun _ => inl "id=price_1") parseToy None
              (fun _ => inl ["README.md"; "package.json"]).

(** The receiver once the working copy is at [repo] and the options
    [i], [client] and [server] are selected. *)
Definition selectedState (repo : string) (sc : sampleConfig)
    (i : sampleConfigIntegration) (client server : string) : State :=
  {| st_samples :=
       {| s_Profile := emptyProfile; s_name := sc_Name sc; s_repo := repo;
          s_sampleConfig := sc; s_integration := Some i;
          s_client := client; s_server := server |};
     st_trace := [] |}.

Definition nodeAndRuby : sampleConfigIntegration :=
  {| sci_Name := "main"; sci_Clients := []; sci_Servers := ["node"; "ruby"] |}.

(** ** Provisioning, as seen from outside *)


(** One successful creation: the catalog template it was made from, the
    key the request was signed with and the identifier that came back. *)
Record Creation := {
  cr_resource : RequiredResource;
  cr_apiKey : string;
  cr_id : string
}.

(** The calls of one successful pass through the creation loop. *)
Definition creationCalls (c : Creation) : list Event :=
  [ EvGetAPIKey false;
    EvMakeRequest (cr_apiKey c) (rr_httpPath (cr_resource c)) (rr_data (cr_resource c));
    EvSetStripeSampleResourceID (rr_name (cr_resource c)) (cr_id c);
    EvWriteConfigField (rr_name (cr_resource c)) (cr_id c) ].

(** The profile after the identifiers of [created] have been persisted,
    one after the other. *)
Definition persistAll (p : Profile) (created : list Creation) : Profile :=
  foldl (fun p c =>
           WriteConfigField
             (SetStripeSampleResourceID p (rr_name (cr_resource c)) (cr_id c))
             (rr_name (cr_resource c)) (cr_id c))
        p created.

(** The calls [CreateRequiredResource] can make. *)
Definition isCreationCall (ev : Event) : Prop :=
  ev = EvGetAPIKey false
  \/ exists apiKey path data, ev = EvMakeRequest apiKey path data.

Definition isMakeRequest (ev : Event) : bool :=
  match ev with
  | EvMakeRequest _ _ _ => true
  | _ => false
  end.

(** The API answers the first request with [id=price_1] and refuses every
    later one. *)
Definition oneShotEnv : Env :=
  scriptedEnv promptFirst
    (fun tr =>
       if existsb isMakeRequest tr then inr "rate limited"
       else inl "id=price_1")
    parseToy None (fun _ => inl []).


(** The catalog template named [n] (a blank one when there is none). *)
Definition templateOf (n : string) : RequiredResource :=
  default {| rr_name := n; rr_description := ""; rr_httpPath := ""; rr_data := [] |}
          (getRequiredResource n).

Definition basicTemplate : RequiredResource :=
  templateOf "stripe_samples_price_recurring_basic_id".

Definition proTemplate : RequiredResource :=
  templateOf "stripe_samples_price_recurring_pro_id".

(** Where the creation loop stands, under [oneShotEnv], after the basic
    price has been created and persisted. *)
Definition basicCreated : State :=
  (createMissing oneShotEnv [basicTemplate]
     (chosenState emptyProfile (manifestOf [webNode] [basicRef; proRef]) webNode)).2.

(** ... and after the request for the pro price has been refused. *)
Definition proRefused : State :=
  (CreateRequiredResource oneShotEnv (rr_name proTemplate) basicCreated).2.

(** ** More sample inputs *)

Definition checkoutIntegration : sampleConfigIntegration :=
  {| sci_Name := "checkout"; sci_Clients := ["html"]; sci_Servers := ["node"; "go"] |}.

Definition elementsIntegration : sampleConfigIntegration :=
  {| sci_Name := "elements"; sci_Clients := ["react"]; sci_Servers := ["ruby"] |}.

(** The user picks [answer] at every prompt. *)
Definition promptAnswers (answer : string) : Trace -> string -> list string -> string + error :=
  fun _ _ _ => inl answer.

Definition answeringEnv (answer : string) : Env :=
  scriptedEnv (promptAnswers answer) (fun _ => inl "id=price_1") parseToy None
              (fun _ => inl []).

(** The event logged by the integration prompt of manifest [sc]. *)
Definition integrationPromptEvent (sc : sampleConfig) : Event :=
  EvPrompt "integration" "What type of integration would you like to use"
           (integrationNames sc).

(** The event logged by the auto-create prompt. *)
Definition autoCreatePromptEvent : Event :=
  EvPrompt "auto-create behavior"
           "Would you like us to automatically create these and configure their IDs?"
           ["yes"; "no"].

(** The notice printed for the resources missing in [s]. *)
Definition missingNoticeEvent (s : Samples) : Event :=
  EvPrint (requiredResourcesNotice
             (descriptionsOf (elems (MissingRequiredResources s)))).

(** The API answers every request with the document [id=price_1]; the
    user says yes to everything. *)
Definition providingEnv : Env := answeringEnv "yes".


(** No working copy yet; the clone fails or succeeds as [clone] says. *)
Definition freshEnv (clone : option error) : Env :=
  {| env_appCacheFolder := fun _ app => inl ("/cache/" +:+ app);
     env_gitRepo := fun _ app => "https://github.com/stripe-samples/" +:+ app;
     env_statNotExist := fun _ _ => true;
     env_gitClone := fun _ _ _ => clone;
     env_gitPull := fun _ _ => None;
     env_readFile := fun _ _ => inr "file does not exist";
     env_unmarshalConfig := fun _ sc => (sc, None);
     env_promptRun := promptFirst;
     env_getAPIKey := fun _ _ => inl "sk_test_123";
     env_makeRequest := fun _ _ _ _ => inl "id=price_1";
     env_jsonParse := parseToy;
     env_copy := fun _ _ _ => None;
     env_getFiles := fun _ _ => inl [];
     env_open := fun _ _ => None;
     env_dotenvParse := fun _ _ => inl ∅;
     env_getPublishableKey := fun _ => "";
     env_getDeviceName := fun _ => inl "laptop";
     env_authorize := fun _ _ _ _ => inl "whsec_123";
     env_dotenvWrite := fun _ _ _ => None |}.

(** The cache folder cannot be determined. *)
Definition homelessEnv : Env :=
  {| env_appCacheFolder := fun _ _ => inr "$HOME is not defined";
     env_gitRepo := fun _ app => "https://github.com/stripe-samples/" +:+ app;
     env_statNotExist := fun _ _ => true;
     env_gitClone := fun _ _ _ => None;
     env_gitPull := fun _ _ => None;
     env_readFile := fun _ _ => inl "{}";
     env_unmarshalConfig := fun _ sc => (sc, None);
     env_promptRun := promptFirst;
     env_getAPIKey := fun _ _ => inl "sk_test_123";
     env_makeRequest := fun _ _ _ _ => inl "id=price_1";
     env_jsonParse := parseToy;
     env_copy := fun _ _ _ => None;
     env_getFiles := fun _ _ => inl [];
     env_open := fun _ _ => None;
     env_dotenvParse := fun _ _ => inl ∅;
     env_getPublishableKey := fun _ => "pk_test_123";
     env_getDeviceName := fun _ => inl "laptop";
     env_authorize := fun _ _ _ _ => inl "whsec_123";
     env_dotenvWrite := fun _ _ _ => None |}.

(** Lines 133-165 of [Initialize]: what follows once the cache path
    [appPath] is stored as the repository. *)
Definition syncAndParse (E : Env) (app appPath : string) : M unit :=
  list ← call (EvGetSamples "create") (fun tr => env_gitRepo E tr);
  notExist ← call (EvStat appPath) (fun tr => env_statNotExist E tr appPath);
  (if notExist : bool then
     call (EvClone appPath (list app))
          (fun tr => env_gitClone E tr appPath (list app)) ≫= orFail_
   else
     err ← call (EvPull appPath) (fun tr => env_gitPull E tr appPath);
     match err with
     | None => mret tt
     | Some e =>
         if decide (e = NoErrAlreadyUpToDate) then mret tt else fail e
     end);;
  readSampleConfig E appPath.

(** [ev] is a recursive copy or a directory listing. *)
Definition isCopyOrListing (ev : Event) : Prop :=
  (exists src dst, ev = EvCopy src dst) \/ (exists dir, ev = EvGetFiles dir).

(** Copies out of [/cache/sample/README.md] and [/cache/sample/server]
    fail; the others succeed. *)
Definition lockedEnv : Env :=
  {| env_appCacheFolder := fun _ app => inl ("/cache/" +:+ app);
     env_gitRepo := fun _ app => "https://github.com/stripe-samples/" +:+ app;
     env_statNotExist := fun _ _ => false;
     env_gitClone := fun _ _ _ => None;
     env_gitPull := fun _ _ => None;
     env_readFile := fun _ _ => inl "{}";
     env_unmarshalConfig := fun _ sc => (sc, None);
     env_promptRun := promptFirst;
     env_getAPIKey := fun _ _ => inl "sk_test_123";
     env_makeRequest := fun _ _ _ _ => inl "id=price_1";
     env_jsonParse := parseToy;
     env_copy := fun _ src _ =>
       if decide (src = "/cache/sample/README.md")
       then Some "permission denied"
       else if decide (src = "/cache/sample/server")
            then Some "permission denied" else None;
     env_getFiles := fun _ _ => inl ["LICENSE"; "README.md"; "package.json"];
     env_open := fun _ _ => None;
     env_dotenvParse := fun _ _ => inl ∅;
     env_getPublishableKey := fun _ => "pk_test_123";
     env_getDeviceName := fun _ => inl "laptop";
     env_authorize := fun _ _ _ _ => inl "whsec_123";
     env_dotenvWrite := fun _ _ _ => None |}.

(** ** Composing the environment file *)

(** The example mapping with the four keys [ConfigureDotEnv] sets itself. *)
Definition withReservedKeys (publishableKey apiKey secret : string)
    (example : gmap string string) : gmap string string :=
  <["STATIC_DIR" := "../client"]>
    (<["STRIPE_WEBHOOK_SECRET" := secret]>
       (<["STRIPE_SECRET_KEY" := apiKey]>
          (<["STRIPE_PUBLISHABLE_KEY" := publishableKey]> example))).

(** Reference [rrConfig] does not write variable [k]: it has no
    identifier on record or names another variable. *)
Definition leavesAlone (p : Profile) (k : string)
    (rrConfig : requiredResourceSampleConfig) : Prop :=
  GetStripeSampleResourceID p (rrc_Name rrConfig) = "" \/ rrc_EnvVar rrConfig ≠ k.

(** The calls of a [ConfigureDotEnv] that writes [written]. *)
Definition dotenvCalls (sampleLocation apiKey deviceName : string)
    (written : gmap string string) : list Event :=
  [ EvOpen (filepath_Join [sampleLocation; ".env.example"]);
    EvDotenvParse (filepath_Join [sampleLocation; ".env.example"]);
    EvGetPublishableKey;
    EvGetAPIKey false;
    EvGetDeviceName;
    EvAuthorize apiKey deviceName "webhooks";
    EvDotenvWrite written (filepath_Join [sampleLocation; "server"; ".env"]) ].

(** The example file sets a port and a stale secret key. *)
Definition exampleEnv : Env :=
  {| env_appCacheFolder := fun _ app => inl ("/cache/" +:+ app);
     env_gitRepo := fun _ app => "https://github.com/stripe-samples/" +:+ app;
     env_statNotExist := fun _ _ => false;
     env_gitClone := fun _ _ _ => None;
     env_gitPull := fun _ _ => None;
     env_readFile := fun _ _ => inl "{}";
     env_unmarshalConfig := fun _ sc => (sc, None);
     env_promptRun := promptFirst;
     env_getAPIKey := fun _ _ => inl "sk_test_123";
     env_makeRequest := fun _ _ _ _ => inl "id=price_1";
     env_jsonParse := parseToy;
     env_copy := fun _ _ _ => None;
     env_getFiles := fun _ _ => inl [];
     env_open := fun _ _ => None;
     env_dotenvParse := fun _ _ =>
       inl (<["PORT" := "4242"]> (<["STRIPE_SECRET_KEY" := "sk_12345"]> ∅));
     env_getPublishableKey := fun _ => "pk_test_123";
     env_getDeviceName := fun _ => inl "laptop";
     env_authorize := fun _ _ _ _ => inl "whsec_123";
     env_dotenvWrite := fun _ _ _ => None |}.

(** The sample has no example file. *)
Definition noExampleEnv : Env :=
  {| env_appCacheFolder := fun _ app => inl ("/cache/" +:+ app);
     env_gitRepo := fun _ app => "https://github.com/stripe-samples/" +:+ app;
     env_statNotExist := fun _ _ => false;
     env_gitClone := fun _ _ _ => None;
     env_gitPull := fun _ _ => None;
     env_readFile := fun _ _ => inl "{}";
     env_unmarshalConfig := fun _ sc => (sc, None);
     env_promptRun := promptFirst;
     env_getAPIKey := fun _ _ => inl "sk_test_123";
     env_makeRequest := fun _ _ _ _ => inl "id=price_1";
     env_jsonParse := parseToy;
     env_copy := fun _ _ _ => None;
     env_getFiles := fun _ _ => inl [];
     env_open := fun _ _ => Some "file does not exist";
     env_dotenvParse := fun _ _ => inl ∅;
     env_getPublishableKey := fun _ => "pk_test_123";
     env_getDeviceName := fun _ => inl "laptop";
     env_authorize := fun _ _ _ _ => inl "whsec_123";
     env_dotenvWrite := fun _ _ _ => None |}.

(** * The gRPC middleware ([pkg/rpcservice/middleware.go]) *)

Definition requiredHeader : string := "sec-x-stripe-cli".

(** The status codes the middleware answers with. *)
Inductive Code : Type :=
| InvalidArgument
| Unauthenticated.

(** An error travelling through an interceptor: one made by
    [status.Errorf], or whatever a handler returned. *)
Inductive rpcError : Type :=
| StatusError (code : Code) (message : string)
| HandlerError (e : error).

(** How an interceptor ends: it returns, or a type assertion panics. *)
Inductive rpcOutcome (A : Type) : Type :=
| Returned (a : A)
| Panicked (msg : string).
Arguments Returned {A} a.
Arguments Panicked {A} msg.

(** A line handed to the logger at debug level. *)
Record LogEntry := {
  log_prefix : string;
  log_message : string
}.

Definition interfaceConversion : string :=
  "interface conversion: interface {} is not *rpcservice.RPCService".

Section Middleware.
(** The telemetry client and the event metadata belong to [pkg/stripe];
    only [NewEventMetadata], [SetMerchant] and the assignment of
    [CommandPath] are used here.  [Stream] stands for the methods of a
    [grpc.ServerStream] other than [Context]. *)
Context {TelemetryClient EventMetadata Stream Req Resp : Type}.
Context (NewEventMetadata : EventMetadata).
Context (SetMerchant : string -> EventMetadata -> EventMetadata).
Context (setCommandPath : string -> EventMetadata -> EventMetadata).
Context (showReq : Req -> string).

(** A [context.Context], by the three values this file reads or adds:
    the incoming gRPC metadata, the telemetry client and the event
    metadata. *)
Record rpcContext := {
  ctx_incoming : option (gmap string (list string));
  ctx_telemetryClient : option TelemetryClient;
  ctx_eventMetadata : option EventMetadata
}.

(** [stripe.WithTelemetryClient] and [stripe.WithEventMetadata]. *)
Definition WithTelemetryClient (ctx : rpcContext) (client : TelemetryClient)
  : rpcContext :=
  {| ctx_incoming := ctx_incoming ctx;
     ctx_telemetryClient := Some client;
     ctx_eventMetadata := ctx_eventMetadata ctx |}.

Definition WithEventMetadata (ctx : rpcContext) (md : EventMetadata) : rpcContext :=
  {| ctx_incoming := ctx_incoming ctx;
     ctx_telemetryClient := ctx_telemetryClient ctx;
     ctx_eventMetadata := Some md |}.

(** A [*RPCService], by what the middleware asks of it: the answer of
    [cfg.UserCfg.Profile.GetAccountID()] and the telemetry client. *)
Record RPCService := {
  rpc_GetAccountID : string * option error;
  rpc_TelemetryClient : TelemetryClient
}.

(** An [interface{}] that may or may not hold a [*RPCService]. *)
Inductive anyServer : Type :=
| IsRPCService (server : RPCService)
| NotRPCService.

(** A [grpc.ServerStream] as seen through the interface. *)
Record ServerStream := {
  stream_Context : rpcContext;
  stream_transport : Stream
}.

Record WrappedServerStream := {
  wss_ServerStream : ServerStream;
  wss_ctx : rpcContext
}.

Definition WrappedServerStream_Context (w : WrappedServerStream) : rpcContext :=
  wss_ctx w.

(** The method set of a [*WrappedServerStream]: [Context] is its own,
    the rest is promoted from the embedded stream. *)
Definition asServerStream (w : WrappedServerStream) : ServerStream :=
  {| stream_Context := WrappedServerStream_Context w;
     stream_transport := stream_transport (wss_ServerStream w) |}.

Record UnaryServerInfo := {
  usi_Server : anyServer;
  usi_FullMethod : string
}.

Record StreamServerInfo := {
  ssi_FullMethod : string
}.

Definition authorize (ctx : rpcContext) : option rpcError :=
  match ctx_incoming ctx with
  | None => Some (StatusError InvalidArgument "Retrieving metadata failed")
  | Some md =>
      match md !! requiredHeader with
      | None =>
          Some (StatusError Unauthenticated
                            (requiredHeader +:+ " header is not supplied"))
      | Some _ => None
      end
  end.

Definition initializeTelemetryContext (ctx : rpcContext) (methodName : string)
    (server : RPCService) : rpcContext :=
  let merchant := (rpc_GetAccountID server).1 in
  let telemetryMetadata := NewEventMetadata in
  let telemetryMetadata := SetMerchant merchant telemetryMetadata in
  let telemetryMetadata := setCommandPath methodName telemetryMetadata in
  WithEventMetadata (WithTelemetryClient ctx (rpc_TelemetryClient server))
                    telemetryMetadata.

Definition newWrappedStream (server : RPCService) (stream : ServerStream)
    (methodName : string) : ServerStream :=
  let newCtx := initializeTelemetryContext (stream_Context stream) methodName server in
  asServerStream {| wss_ServerStream := stream; wss_ctx := newCtx |}.

Definition serverStreamInterceptor (srv : anyServer) (stream : ServerStream)
    (info : StreamServerInfo)
    (handler : anyServer -> ServerStream -> option rpcError)
  : LogEntry * rpcOutcome (option rpcError) :=
  ({| log_prefix := "gRPC";
      log_message := "Streaming method invoked: " +:+ ssi_FullMethod info |},
   match authorize (stream_Context stream) with
   | Some err => Returned (Some err)
   | None =>
       match srv with
       | NotRPCService => Panicked interfaceConversion
       | IsRPCService server =>
           let wrappedStream := newWrappedStream server stream (ssi_FullMethod info) in
           Returned (handler srv wrappedStream)
       end
   end).

Definition serverUnaryInterceptor (ctx : rpcContext) (req : Req)
    (info : UnaryServerInfo)
    (handler : rpcContext -> Req -> option Resp * option rpcError)
  : LogEntry * rpcOutcome (option Resp * option rpcError) :=
  ({| log_prefix := "gRPC";
      log_message := "Unary method invoked: " +:+ usi_FullMethod info
                     +:+ ", req: " +:+ showReq req |},
   match authorize ctx with
   | Some err => Returned (None, Some err)
   | None =>
       match usi_Server info with
       | NotRPCService => Panicked interfaceConversion
       | IsRPCService server =>
           let newCtx := initializeTelemetryContext ctx (usi_FullMethod info) server in
           Returned (handler newCtx req)
       end
   end).
End Middleware.

(** A request context carrying the given metadata and nothing else. *)
Definition incomingContext (md : option (gmap string (list string)))
  : @rpcContext string (list string) :=
  {| ctx_incoming := md; ctx_telemetryClient := None; ctx_eventMetadata := None |}.

(** A service whose account identifier cannot be read. *)
Definition anonymousService : @RPCService string :=
  {| rpc_GetAccountID := ("", Some "profile not configured");
     rpc_TelemetryClient := "telemetry" |}.

(** The first calls of a [Copy]: the server variant and the client
    variant, for the integrations that have them. *)
Definition variantCalls (i : sampleConfigIntegration) (base : list string)
    (s : Samples) (target : string) : list Event :=
  (if hasServers i
   then [EvCopy (filepath_Join (base ++ ["server"; s_server s]))
                (filepath_Join [target; "server"])]
   else [])
  ++ (if hasClients i
      then [EvCopy (filepath_Join (base ++ ["client"; s_client s]))
                   (filepath_Join [target; "client"])]
      else []).

(** The copies of the entries [files] of the folder [base]. *)
Definition entryCopies (base : list string) (target : string)
    (files : list string) : list Event :=
  map (fun file => EvCopy (filepath_Join (base ++ [file]))
                          (filepath_Join [target; file])) files.

(** [files1] and [files2] are what the directory-listing collaborator
    answers when [Copy], started in [st], lists the folder [base] after
    the variant copies and then the repository after the copies of the
    first listing. *)
Definition listedBy (E : Env) (i : sampleConfigIntegration) (base : list string)
    (st : State) (target : string) (files1 files2 : list string) : Prop :=
  env_getFiles E (st_trace st ++ variantCalls i base (st_samples st) target)
               (filepath_Join base) = inl files1
  /\ env_getFiles E
       (st_trace st ++ variantCalls i base (st_samples st) target
        ++ EvGetFiles (filepath_Join base) :: entryCopies base target files1)
       (s_repo (st_samples st)) = inl files2.

(** Collaborators under which no copy and no listing fails. *)
Definition copiesSucceed (E : Env) : Prop :=
  (forall tr src dst, env_copy E tr src dst = None)
  /\ (forall tr dir, exists files, env_getFiles E tr dir = inl files).

(** [m] returns a value with a nil error from every state. *)
Definition returnsOk {A} (m : M A) : Prop :=
  forall st, exists a st1, m st = (Ok a, st1).

Definition checkoutAgain : sampleConfigIntegration :=
  {| sci_Name := "checkout"; sci_Clients := []; sci_Servers := ["php"] |}.

(** What the collaborators answer while [ConfigureDotEnv], started in
    [st], composes the file: the parsed example, the publishable key, the
    secret key, the device name and the secret of the webhooks
    authorization, each asked after the calls before it. *)
Definition dotenvAnswers (E : Env) (sampleLocation : string) (st : State)
    (example : gmap string string)
    (publishableKey apiKey deviceName secret : string) : Prop :=
  let exFile := filepath_Join [sampleLocation; ".env.example"] in
  env_open E (st_trace st) exFile = None
  /\ env_dotenvParse E (st_trace st ++ [EvOpen exFile]) exFile = inl example
  /\ env_getPublishableKey E (st_trace st ++ [EvOpen exFile; EvDotenvParse exFile])
     = publishableKey
  /\ env_getAPIKey E
       (st_trace st ++ [EvOpen exFile; EvDotenvParse exFile; EvGetPublishableKey])
       false = inl apiKey
  /\ env_getDeviceName E
       (st_trace st ++ [EvOpen exFile; EvDotenvParse exFile; EvGetPublishableKey;
                        EvGetAPIKey false]) = inl deviceName
  /\ env_authorize E
       (st_trace st ++ [EvOpen exFile; EvDotenvParse exFile; EvGetPublishableKey;
                        EvGetAPIKey false; EvGetDeviceName])
       apiKey deviceName "webhooks" = inl secret.

(** * Properties *)

(** ** The catalog and the gap check *)

Lemma lookupRequiredResource_name table n rr :
  lookupRequiredResource table n = Some rr → rr_name rr = n.
Proof.
  induction table as [|r table IH]; simpl; [done|].
  case_decide; [|done]. by intros [= <-].
Qed.

Lemma getRequiredResource_name n rr :
  getRequiredResource n = Some rr → rr_name rr = n.
Proof. apply lookupRequiredResource_name. Qed.

Lemma missingLoop_resolved p rrConfigs ret :
  (∀ rrConfig, rrConfig ∈ rrConfigs →
     is_Some (getRequiredResource (rrc_Name rrConfig))) →
  missingLoop p rrConfigs ret = Slice (ret ++ unrecorded p rrConfigs).
Proof.
  revert ret. induction rrConfigs as [|rc rest IH]; intros ret Hall.
  - unfold unrecorded; simpl. by rewrite app_nil_r.
  - destruct (Hall rc) as [rr Hrr]; [by left|].
    assert (Hrest : ∀ rrConfig, rrConfig ∈ rest →
              is_Some (getRequiredResource (rrc_Name rrConfig)))
      by (intros ??; apply Hall; by right).
    simpl. rewrite Hrr, (getRequiredResource_name _ _ Hrr).
    unfold unrecorded. rewrite filter_cons.
    destruct (decide (GetStripeSampleResourceID p (rrc_Name rc) = "")) as [Hid|Hid].
    + rewrite IH by done. simpl. rewrite Hrr. by rewrite <- app_assoc.
    + by rewrite IH.
Qed.

Lemma missingLoop_unknown p rrConfigs ret :
  (∃ rrConfig, rrConfig ∈ rrConfigs ∧
     getRequiredResource (rrc_Name rrConfig) = None) →
  missingLoop p rrConfigs ret = nil_slice.
Proof.
  revert ret. induction rrConfigs as [|rc rest IH]; intros ret [x [Hin Hx]].
  - by apply elem_of_nil in Hin.
  - simpl. destruct (getRequiredResource (rrc_Name rc)) as [rr|] eqn:Hrc; [|done].
    apply elem_of_cons in Hin as [->|Hin]; [congruence|].
    case_decide; apply IH; eauto.
Qed.

Lemma missing_names_unrecorded p rrConfigs ret rr :
  (∀ r, r ∈ ret → GetStripeSampleResourceID p (rr_name r) = "") →
  rr ∈ elems (missingLoop p rrConfigs ret) →
  GetStripeSampleResourceID p (rr_name rr) = "".
Proof.
  revert ret. induction rrConfigs as [|rc rest IH]; intros ret Hret; simpl.
  - apply Hret.
  - destruct (getRequiredResource (rrc_Name rc)) as [r|]; simpl.
    + case_decide as Hid; apply IH; [|done].
      intros r' [Hr'| ->%list_elem_of_singleton]%elem_of_app; auto.
    + by intros ?%elem_of_nil.
Qed.

(** C1: when every declared required-resource name resolves against the
    catalog, [MissingRequiredResources] returns exactly the declared
    resources whose stored identifier is empty (as catalog templates, in
    manifest order); and a profile holding
    [stripe_samples_price_recurring_basic_id -> "price_123"] keeps that
    name out of the result. *)
Theorem MissingRequiredResources_exact (s : Samples) :
  (∀ rrConfig, rrConfig ∈ sc_RequiredResources (s_sampleConfig s) →
     is_Some (getRequiredResource (rrc_Name rrConfig))) →
  MissingRequiredResources s
    = Slice (unrecorded (s_Profile s) (sc_RequiredResources (s_sampleConfig s)))
  ∧ (∀ rr, rr ∈ elems (MissingRequiredResources s) ↔
       ∃ rrConfig, rrConfig ∈ sc_RequiredResources (s_sampleConfig s)
         ∧ getRequiredResource (rrc_Name rrConfig) = Some rr
         ∧ GetStripeSampleResourceID (s_Profile s) (rrc_Name rrConfig) = "")
  ∧ (p_SampleResourceIDs (s_Profile s) !! "stripe_samples_price_recurring_basic_id"
       = Some "price_123" →
     ∀ rr, rr ∈ elems (MissingRequiredResources s) →
       rr_name rr ≠ "stripe_samples_price_recurring_basic_id").
Proof.
  intros Hall.
  assert (Heq : MissingRequiredResources s
    = Slice (unrecorded (s_Profile s) (sc_RequiredResources (s_sampleConfig s))))
    by (unfold MissingRequiredResources; by rewrite missingLoop_resolved).
  split; [done|]. split.
  - intros rr. rewrite Heq. simpl. unfold unrecorded. rewrite list_elem_of_omap.
    split.
    + intros [rc [[Hid Hin]%list_elem_of_filter Hrr]]. eauto.
    + intros [rc (Hin & Hrr & Hid)]. exists rc. split; [|done].
      by apply list_elem_of_filter.
  - intros Hledger rr Hin Hname.
    apply missing_names_unrecorded in Hin; [|by intros ? ?%elem_of_nil].
    unfold GetStripeSampleResourceID in Hin. rewrite Hname, Hledger in Hin. done.
Qed.

Lemma MissingRequiredResources_exact_witness :
  MissingRequiredResources
    (samplesOf basicRecorded (manifestOf [mainIntegration] [basicRef; proRef]))
  = Slice [ {| rr_name := "stripe_samples_price_recurring_pro_id";
               rr_description := "recurring price for a 'pro' plan";
               rr_httpPath := "/v1/prices";
               rr_data := [ "currency=usd"; "unit_amount=1000";
                            "product_data[name]=Stripe Sample Pro";
                            "recurring[interval]=month" ] |} ].
Proof.
  refine (proj1 (MissingRequiredResources_exact
    (samplesOf basicRecorded (manifestOf [mainIntegration] [basicRef; proRef])) _)).
  simpl. intros rrConfig Hin.
  repeat (apply elem_of_cons in Hin as [->|Hin]); [vm_compute; eauto ..|].
  by apply elem_of_nil in Hin.
Defined.

(** C3: when some declared required-resource name is absent from the
    catalog, [MissingRequiredResources] returns the nil slice: whatever
    was found missing before the unknown name is discarded, whichever
    profile is in use. *)
Theorem MissingRequiredResources_unknown_nil (s : Samples) :
  (∃ rrConfig, rrConfig ∈ sc_RequiredResources (s_sampleConfig s)
     ∧ getRequiredResource (rrc_Name rrConfig) = None) →
  MissingRequiredResources s = nil_slice
  ∧ len (MissingRequiredResources s) = 0
  ∧ ∀ before rrConfig after found,
      sc_RequiredResources (s_sampleConfig s) = before ++ rrConfig :: after →
      getRequiredResource (rrc_Name rrConfig) = None →
      missingLoop (s_Profile s) before [] = Slice found →
      missingLoop (s_Profile s) (rrConfig :: after) found = nil_slice.
Proof.
  intros Hunknown.
  assert (Hnil : MissingRequiredResources s = nil_slice)
    by by apply missingLoop_unknown.
  split; [done|]. split; [by rewrite Hnil|].
  intros before rc after found _ Hrc _. simpl. by rewrite Hrc.
Qed.

Lemma MissingRequiredResources_unknown_nil_witness :
  MissingRequiredResources
    (samplesOf emptyProfile (manifestOf [mainIntegration] [proRef; unknownRef; basicRef]))
  = nil_slice
  ∧ missingLoop emptyProfile [proRef] [] <> Slice [].
Proof.
  split; [|by vm_compute].
  refine (proj1 (MissingRequiredResources_unknown_nil
    (samplesOf emptyProfile (manifestOf [mainIntegration] [proRef; unknownRef; basicRef])) _)).
  exists unknownRef. split; [|by vm_compute].
  simpl. apply elem_of_cons; right. apply elem_of_cons; by left.
Defined.

(** ** Rules for [steps] *)

Section Steps.
Context (R : State → State → Prop) `{!PreOrder R}.

Lemma steps_ret {A} (a : A) : steps R (mret a).
Proof. intros st. simpl. reflexivity. Qed.

Lemma steps_fail {A} e : steps R (@fail A e).
Proof. intros st. simpl. reflexivity. Qed.

Lemma steps_panic {A} msg : steps R (@panic A msg).
Proof. intros st. simpl. reflexivity. Qed.

Lemma steps_getSamples : steps R getSamples.
Proof. intros st. simpl. reflexivity. Qed.

Lemma steps_orFail {A} (r : A + error) : steps R (orFail r).
Proof. destruct r; [apply (steps_ret a) | apply steps_fail]. Qed.

Lemma steps_orFail_ (r : option error) : steps R (orFail_ r).
Proof. destruct r; [apply steps_fail | apply (steps_ret tt)]. Qed.

Lemma steps_bind {A B} (m : M A) (k : A → M B) :
  steps R m → (∀ a, steps R (k a)) → steps R (m ≫= k).
Proof.
  intros Hm Hk st. specialize (Hm st).
  unfold mbind, M_bind, bind.
  destruct (m st) as [[a|e|msg] st1]; simpl in *; [|done..].
  etransitivity; [exact Hm | apply Hk].
Qed.

Lemma steps_recover {A} (m : M A) : steps R m → steps R (recover m).
Proof.
  intros Hm st. specialize (Hm st). unfold recover.
  by destruct (m st) as [[a|e|msg] st1].
Qed.

Lemma steps_call {A} ev (answer : Trace → A) :
  (∀ st, R st (logEvent ev st)) → steps R (call ev answer).
Proof. intros H st. apply H. Qed.

Lemma steps_modifySamples f :
  (∀ st, R st (withSamples f st)) → steps R (modifySamples f).
Proof. intros H st. apply H. Qed.
End Steps.

#[global] Instance onlyEmits_preorder P : PreOrder (onlyEmits P).
Proof.
  split.
  - intros st. exists []. by rewrite app_nil_r.
  - intros st1 st2 st3 (evs1 & H1 & HP1) (evs2 & H2 & HP2).
    exists (evs1 ++ evs2). split.
    + by rewrite H2, H1, app_assoc.
    + by apply Forall_app.
Qed.

#[global] Instance keeps_preorder {X} (f : Samples → X) : PreOrder (keeps f).
Proof.
  split.
  - by intros st.
  - intros st1 st2 st3 H1 H2. unfold keeps in *. congruence.
Qed.

#[global] Instance both_preorder R1 R2 :
  PreOrder R1 → PreOrder R2 → PreOrder (both R1 R2).
Proof.
  intros H1 H2. split.
  - intros st. split; reflexivity.
  - intros st1 st2 st3 [??] [??]. split; etransitivity; eauto.
Qed.

Lemma onlyEmits_logEvent (P : Event → Prop) ev st :
  P ev → onlyEmits P st (logEvent ev st).
Proof. intros HP. exists [ev]. split; [done|]. by apply Forall_singleton. Qed.

Lemma onlyEmits_withSamples P f st : onlyEmits P st (withSamples f st).
Proof. exists []. simpl. by rewrite app_nil_r. Qed.

Lemma keeps_logEvent {X} (f : Samples → X) ev st : keeps f st (logEvent ev st).
Proof. done. Qed.

Lemma keeps_withSamples {X} (f : Samples → X) g st :
  (∀ s, f (g s) = f s) → keeps f st (withSamples g st).
Proof. intros H. apply H. Qed.

(** Walks through a method body, leaving the obligations of its
    collaborator calls and field assignments. *)
Ltac steps_walk :=
  repeat first
    [ match goal with |- PreOrder _ => typeclasses eauto end
    | apply steps_getSamples
    | apply steps_ret
    | apply steps_fail
    | apply steps_panic
    | apply steps_orFail
    | apply steps_orFail_
    | apply steps_recover
    | apply steps_bind; [..|intros ?]
    | apply steps_call; [..|intros ?]
    | apply steps_modifySamples; [..|intros ?]
    | match goal with
      | |- steps _ (match ?x with _ => _ end) => destruct x
      | |- steps _ (let _ := _ in _) => cbv zeta
      end ].

(** ** The integration axis *)

Ltac steps_leaf :=
  lazymatch goal with
  | |- unprompted _ _ _ _ => unfold unprompted; steps_leaf
  | |- both _ _ _ _ => split; steps_leaf
  | |- onlyEmits _ _ (logEvent _ _) =>
      apply onlyEmits_logEvent; try (intros (? & ? & ?); discriminate)
  | |- onlyEmits _ _ (withSamples _ _) => apply onlyEmits_withSamples
  | |- keeps _ _ (logEvent _ _) => exact eq_refl
  | |- keeps _ _ (withSamples _ _) => by apply keeps_withSamples
  end.

#[global] Instance unprompted_preorder template {X} (f : Samples → X) :
  PreOrder (unprompted template f).
Proof. unfold unprompted. typeclasses eauto. Qed.

Section IntegrationAxis.
Context (E : Env).

Lemma createMissing_unprompted template {X} (f : Samples → X) rs :
  template ≠ "auto-create behavior" →
  (∀ p s, f (set_Profile p s) = f s) →
  steps (unprompted template f) (createMissing E rs).
Proof.
  intros Htemplate Hf. induction rs as [|r rs IH]; simpl.
  - apply steps_ret; typeclasses eauto.
  - unfold CreateRequiredResource, PersistRequiredResourceID.
    steps_walk; try steps_leaf; try apply IH.
Qed.

Lemma selectOptions_resources_unprompted template {X} (f : Samples → X) :
  template ≠ "auto-create behavior" →
  (∀ p s, f (set_Profile p s) = f s) →
  steps (unprompted template f) (selectOptions_resources E).
Proof.
  intros Htemplate Hf.
  unfold selectOptions_resources, shouldCreateRequiredResourcesPrompt, selectOptions.
  steps_walk; try steps_leaf; try by apply createMissing_unprompted.
  all: intros (? & ? & [= <-]); done.
Qed.

Lemma selectOptions_server_unprompted template {X} (f : Samples → X) :
  template ≠ "auto-create behavior" → template ≠ "server" →
  (∀ p s, f (set_Profile p s) = f s) →
  (∀ c s, f (set_server c s) = f s) →
  steps (unprompted template f) (selectOptions_server E).
Proof.
  intros Htemplate Hserver Hf Hf'.
  unfold selectOptions_server, serverSelectPrompt, selectOptions.
  steps_walk; try steps_leaf; try by apply createMissing_unprompted.
  all: intros (? & ? & [= <-]); done.
Qed.

Lemma selectOptions_client_quietly :
  steps (unprompted "integration" s_integration) (selectOptions_client E).
Proof.
  unfold selectOptions_client, clientSelectPrompt, selectOptions.
  steps_walk; try steps_leaf; by apply createMissing_unprompted.
Qed.

Lemma SelectOptions_no_integration st :
  sc_Integrations (s_sampleConfig (st_samples st)) = [] →
  SelectOptions E st = (Panic indexOutOfRange, st).
Proof.
  intros Hnone. unfold SelectOptions, selectOptions_integration.
  unfold mbind, M_bind, bind, hasIntegrations. simpl. rewrite Hnone. simpl. done.
Qed.

Lemma SelectOptions_one_integration st i :
  sc_Integrations (s_sampleConfig (st_samples st)) = [i] →
  SelectOptions E st
  = selectOptions_client E (withSamples (set_integration (Some i)) st).
Proof.
  intros Hone. unfold SelectOptions, selectOptions_integration.
  unfold mbind, M_bind, bind, hasIntegrations. simpl. rewrite Hone. simpl. done.
Qed.

(** C4: with exactly one integration, [SelectOptions] selects it and never
    shows the integration prompt; an integration prompt in the log of a
    run means the manifest has more than one integration. *)
Theorem SelectOptions_sole_integration st :
  (∀ i, sc_Integrations (s_sampleConfig (st_samples st)) = [i] →
     s_integration (st_samples (SelectOptions E st).2) = Some i
     ∧ onlyEmits (fun ev => ¬ isIntegrationPrompt ev) st (SelectOptions E st).2)
  ∧ (∀ evs ev,
       st_trace (SelectOptions E st).2 = st_trace st ++ evs →
       ev ∈ evs → isIntegrationPrompt ev →
       1 < length (sc_Integrations (s_sampleConfig (st_samples st)))).
Proof.
  split.
  - intros i Hone. rewrite (SelectOptions_one_integration _ _ Hone).
    destruct (selectOptions_client_quietly
                (withSamples (set_integration (Some i)) st)) as [Hlog Hkeep].
    split; [exact Hkeep | exact Hlog].
  - intros evs ev Hlog Hin Hprompt.
    destruct (sc_Integrations (s_sampleConfig (st_samples st)))
      as [|i [|j rest]] eqn:Hlist; simpl; [| |lia].
    + rewrite (SelectOptions_no_integration _ Hlist) in Hlog. simpl in Hlog.
      rewrite <- (app_nil_r (st_trace st)) in Hlog at 1.
      apply app_inv_head in Hlog. subst evs. by apply elem_of_nil in Hin.
    + rewrite (SelectOptions_one_integration _ _ Hlist) in Hlog.
      destruct (selectOptions_client_quietly
                  (withSamples (set_integration (Some i)) st))
        as [(evs' & Hlog' & Hquiet) _].
      rewrite Hlog' in Hlog. simpl in Hlog. apply app_inv_head in Hlog. subst evs'.
      exfalso. eapply Forall_forall in Hquiet; eauto.
Qed.
End IntegrationAxis.

Lemma SelectOptions_sole_integration_witness :
  s_integration
    (st_samples (SelectOptions abortingEnv
       (startState emptyProfile (manifestOf [manyVariants] [basicRef]))).2)
  = Some manyVariants.
Proof.
  apply (proj1 (SelectOptions_sole_integration abortingEnv
    (startState emptyProfile (manifestOf [manyVariants] [basicRef])))).
  reflexivity.
Defined.

(** ** A manifest without integrations *)

(** C9: on a manifest with zero integrations [SelectOptions] does not
    return an error: it indexes the first entry of the empty list and
    panics, before any collaborator is called or any field assigned. *)
Theorem SelectOptions_zero_integrations_panics (E : Env) (st : State) :
  sc_Integrations (s_sampleConfig (st_samples st)) = [] →
  SelectOptions E st = (Panic indexOutOfRange, st)
  ∧ ∀ e, (SelectOptions E st).1 ≠ Err e.
Proof.
  intros Hnone. rewrite (SelectOptions_no_integration E st Hnone). done.
Qed.

Lemma SelectOptions_zero_integrations_panics_witness :
  SelectOptions abortingEnv (startState emptyProfile (manifestOf [] []))
  = (Panic indexOutOfRange, startState emptyProfile (manifestOf [] [])).
Proof.
  apply (proj1 (SelectOptions_zero_integrations_panics abortingEnv
    (startState emptyProfile (manifestOf [] [])) eq_refl)).
Defined.

(** ** The client axis: a failed prompt *)

Section ClientPromptFails.
Context (E : Env).

Lemma selectOptions_integration_keeps {X} (f : Samples → X) :
  (∀ x s, f (set_integration x s) = f s) →
  steps (both (onlyEmits isIntegrationPrompt) (keeps f))
        (selectOptions_integration E).
Proof.
  intros Hf.
  unfold selectOptions_integration, integrationSelectPrompt, selectOptions.
  steps_walk; try steps_leaf. all: by eexists _, _.
Qed.

(** C10: when the chosen integration has more than one client and the
    client prompt fails, [SelectOptions] returns nil: the error is
    dropped, the only calls of the invocation are the integration prompt
    (if any) and the client prompt, and the server selection and the
    profile are what they were before the call. *)
Theorem SelectOptions_client_prompt_error_dropped (st st1 : State)
    (i : sampleConfigIntegration) (e : error) :
  selectOptions_integration E st = (Ok tt, st1) →
  s_integration (st_samples st1) = Some i →
  1 < length (sci_Clients i) →
  env_promptRun E (st_trace st1) "Which client would you like to use"
                (sci_Clients i) = inr e →
  SelectOptions E st
  = (Ok tt, withSamples (set_client "")
              (logEvent (clientPromptEvent (sci_Clients i)) st1))
  ∧ (∃ evs, st_trace st1 = st_trace st ++ evs ∧ Forall isIntegrationPrompt evs
       ∧ st_trace (SelectOptions E st).2
         = st_trace st ++ evs ++ [clientPromptEvent (sci_Clients i)])
  ∧ s_server (st_samples (SelectOptions E st).2) = s_server (st_samples st)
  ∧ s_Profile (st_samples (SelectOptions E st).2) = s_Profile (st_samples st).
Proof.
  intros Hphase Hchosen Hmany Hprompt.
  assert (Hrun : SelectOptions E st
    = (Ok tt, withSamples (set_client "")
                (logEvent (clientPromptEvent (sci_Clients i)) st1))).
  { unfold SelectOptions, mbind, M_bind, bind. rewrite Hphase.
    unfold selectOptions_client, mbind, M_bind, bind. simpl. rewrite Hchosen.
    unfold hasMultipleClients. rewrite bool_decide_eq_true_2 by done.
    unfold recover, clientSelectPrompt, selectOptions, mbind, M_bind, bind, call.
    rewrite Hprompt. done. }
  rewrite Hrun. split; [done|]. simpl.
  pose proof (selectOptions_integration_keeps s_server (fun _ _ => eq_refl) st)
    as [(evs & Hlog & Hevs) Hserver].
  pose proof (selectOptions_integration_keeps s_Profile (fun _ _ => eq_refl) st)
    as [_ Hprofile].
  rewrite Hphase in Hlog, Hserver, Hprofile. simpl in *.
  split; [|done].
  exists evs. rewrite Hlog, app_assoc. done.
Qed.
End ClientPromptFails.

Lemma SelectOptions_client_prompt_error_dropped_witness :
  SelectOptions abortingEnv
    (startState emptyProfile (manifestOf [manyVariants] [basicRef]))
  = (Ok tt,
     {| st_samples :=
          set_integration (Some manyVariants)
            (samplesOf emptyProfile (manifestOf [manyVariants] [basicRef]));
        st_trace := [clientPromptEvent ["html"; "react"]] |}).
Proof.
  refine (proj1 (SelectOptions_client_prompt_error_dropped abortingEnv
    (startState emptyProfile (manifestOf [manyVariants] [basicRef]))
    (withSamples (set_integration (Some manyVariants))
       (startState emptyProfile (manifestOf [manyVariants] [basicRef])))
    manyVariants "^C" eq_refl eq_refl _ eq_refl)).
  simpl. lia.
Defined.

(** ** The client and server axes *)

Section VariantAxes.
Context (E : Env).

Lemma selectOptions_client_few st i :
  s_integration (st_samples st) = Some i →
  length (sci_Clients i) ≤ 1 →
  selectOptions_client E st
  = selectOptions_server E (withSamples (set_client "") st).
Proof.
  intros Hchosen Hfew.
  unfold selectOptions_client at 1. unfold mbind, M_bind, bind. simpl.
  rewrite Hchosen. unfold hasMultipleClients.
  rewrite bool_decide_eq_false_2 by lia. done.
Qed.

Lemma selectOptions_client_answered st i client :
  s_integration (st_samples st) = Some i →
  1 < length (sci_Clients i) →
  env_promptRun E (st_trace st) "Which client would you like to use"
                (sci_Clients i) = inl client →
  selectOptions_client E st
  = selectOptions_server E
      (withSamples (set_client client)
         (logEvent (clientPromptEvent (sci_Clients i)) st)).
Proof.
  intros Hchosen Hmany Hanswer.
  unfold selectOptions_client at 1. unfold mbind, M_bind, bind. simpl.
  rewrite Hchosen. unfold hasMultipleClients.
  rewrite bool_decide_eq_true_2 by done.
  unfold recover, clientSelectPrompt, selectOptions, mbind, M_bind, bind, call.
  rewrite Hanswer. done.
Qed.

Lemma selectOptions_client_prompts st i :
  s_integration (st_samples st) = Some i →
  1 < length (sci_Clients i) →
  ∃ rest, st_trace (selectOptions_client E st).2
          = st_trace st ++ clientPromptEvent (sci_Clients i) :: rest.
Proof.
  intros Hchosen Hmany.
  destruct (env_promptRun E (st_trace st) "Which client would you like to use"
              (sci_Clients i)) as [client|e] eqn:Hanswer.
  - rewrite (selectOptions_client_answered _ _ _ Hchosen Hmany Hanswer).
    destruct (selectOptions_server_unprompted E "client" s_client
                ltac:(done) ltac:(done) ltac:(done) ltac:(done)
                (withSamples (set_client client)
                   (logEvent (clientPromptEvent (sci_Clients i)) st)))
      as [(rest & Hlog & _) _].
    exists rest. rewrite Hlog. simpl. by rewrite <- app_assoc.
  - exists []. unfold selectOptions_client, mbind, M_bind, bind. simpl.
    rewrite Hchosen. unfold hasMultipleClients.
    rewrite bool_decide_eq_true_2 by done.
    unfold recover, clientSelectPrompt, selectOptions, mbind, M_bind, bind, call.
    rewrite Hanswer. done.
Qed.

Lemma selectOptions_server_few st i :
  s_integration (st_samples st) = Some i →
  length (sci_Servers i) ≤ 1 →
  selectOptions_server E st
  = selectOptions_resources E (withSamples (set_server "") st).
Proof.
  intros Hchosen Hfew.
  unfold selectOptions_server at 1. unfold mbind, M_bind, bind. simpl.
  rewrite Hchosen. unfold hasMultipleServers.
  rewrite bool_decide_eq_false_2 by lia. done.
Qed.

Lemma selectOptions_server_answered st i server :
  s_integration (st_samples st) = Some i →
  1 < length (sci_Servers i) →
  env_promptRun E (st_trace st) "What server would you like to use"
                (sci_Servers i) = inl server →
  selectOptions_server E st
  = selectOptions_resources E
      (withSamples (set_server server)
         (logEvent (serverPromptEvent (sci_Servers i)) st)).
Proof.
  intros Hchosen Hmany Hanswer.
  unfold selectOptions_server at 1. unfold mbind, M_bind, bind. simpl.
  rewrite Hchosen. unfold hasMultipleServers.
  rewrite bool_decide_eq_true_2 by done.
  unfold recover, serverSelectPrompt, selectOptions, mbind, M_bind, bind, call.
  rewrite Hanswer. done.
Qed.

Lemma selectOptions_server_prompts st i :
  s_integration (st_samples st) = Some i →
  1 < length (sci_Servers i) →
  ∃ rest, st_trace (selectOptions_server E st).2
          = st_trace st ++ serverPromptEvent (sci_Servers i) :: rest.
Proof.
  intros Hchosen Hmany.
  destruct (env_promptRun E (st_trace st) "What server would you like to use"
              (sci_Servers i)) as [server|e] eqn:Hanswer.
  - rewrite (selectOptions_server_answered _ _ _ Hchosen Hmany Hanswer).
    destruct (selectOptions_resources_unprompted E "server" s_server
                ltac:(done) ltac:(done)
                (withSamples (set_server server)
                   (logEvent (serverPromptEvent (sci_Servers i)) st)))
      as [(rest & Hlog & _) _].
    exists rest. rewrite Hlog. simpl. by rewrite <- app_assoc.
  - exists []. unfold selectOptions_server, mbind, M_bind, bind. simpl.
    rewrite Hchosen. unfold hasMultipleServers.
    rewrite bool_decide_eq_true_2 by done.
    unfold recover, serverSelectPrompt, selectOptions, mbind, M_bind, bind, call.
    rewrite Hanswer. done.
Qed.

(** C5, amended: from the client axis on, [SelectOptions] prompts for the
    client exactly when the chosen integration has more than one client
    and takes the answer; with one client or none it does not prompt and
    the client selection is the empty string.  From the server axis on the
    same holds for servers: a prompt and its answer with more than one
    server, no prompt and the empty string with one server or none. *)
Theorem variant_axes_by_cardinality (st : State) (i : sampleConfigIntegration) :
  s_integration (st_samples st) = Some i →
  (1 < length (sci_Clients i) →
     (∃ rest, st_trace (selectOptions_client E st).2
              = st_trace st ++ clientPromptEvent (sci_Clients i) :: rest)
     ∧ ∀ client,
         env_promptRun E (st_trace st) "Which client would you like to use"
                       (sci_Clients i) = inl client →
         s_client (st_samples (selectOptions_client E st).2) = client)
  ∧ (length (sci_Clients i) ≤ 1 →
       s_client (st_samples (selectOptions_client E st).2) = ""
       ∧ onlyEmits (fun ev => ¬ isPrompt "client" ev) st
                   (selectOptions_client E st).2)
  ∧ (1 < length (sci_Servers i) →
       (∃ rest, st_trace (selectOptions_server E st).2
                = st_trace st ++ serverPromptEvent (sci_Servers i) :: rest)
       ∧ ∀ server,
           env_promptRun E (st_trace st) "What server would you like to use"
                         (sci_Servers i) = inl server →
           s_server (st_samples (selectOptions_server E st).2) = server)
  ∧ (length (sci_Servers i) ≤ 1 →
       s_server (st_samples (selectOptions_server E st).2) = ""
       ∧ onlyEmits (fun ev => ¬ isPrompt "server" ev) st
                   (selectOptions_server E st).2).
Proof.
  intros Hchosen.
  pose proof (selectOptions_server_unprompted E "client" s_client
                ltac:(done) ltac:(done) ltac:(done) ltac:(done)) as Hserver.
  pose proof (selectOptions_resources_unprompted E "server" s_server
                ltac:(done) ltac:(done)) as Hresources.
  split; [|split; [|split]].
  - intros Hmany. split; [by apply selectOptions_client_prompts|].
    intros client Hanswer.
    rewrite (selectOptions_client_answered _ _ _ Hchosen Hmany Hanswer).
    by destruct (Hserver (withSamples (set_client client)
                   (logEvent (clientPromptEvent (sci_Clients i)) st))) as [_ ->].
  - intros Hfew. rewrite (selectOptions_client_few _ _ Hchosen Hfew).
    destruct (Hserver (withSamples (set_client "") st)) as [Hlog ->]. done.
  - intros Hmany. split; [by apply selectOptions_server_prompts|].
    intros server Hanswer.
    rewrite (selectOptions_server_answered _ _ _ Hchosen Hmany Hanswer).
    by destruct (Hresources (withSamples (set_server server)
                   (logEvent (serverPromptEvent (sci_Servers i)) st))) as [_ ->].
  - intros Hfew. rewrite (selectOptions_server_few _ _ Hchosen Hfew).
    destruct (Hresources (withSamples (set_server "") st)) as [Hlog ->]. done.
Qed.
End VariantAxes.

Lemma variant_axes_by_cardinality_witness :
  s_client (st_samples (selectOptions_client agreeingEnv
     (chosenState emptyProfile (manifestOf [manyVariants] []) manyVariants)).2)
  = "html"
  ∧ s_server (st_samples (selectOptions_server agreeingEnv
       (chosenState emptyProfile (manifestOf [webNode] []) webNode)).2)
    = "".
Proof.
  split.
  - refine (proj2 (proj1 (variant_axes_by_cardinality agreeingEnv
      (chosenState emptyProfile (manifestOf [manyVariants] []) manyVariants)
      manyVariants eq_refl) _) "html" eq_refl).
    simpl. lia.
  - refine (proj1 (proj2 (proj2 (proj2 (variant_axes_by_cardinality agreeingEnv
      (chosenState emptyProfile (manifestOf [webNode] []) webNode)
      webNode eq_refl))) _)).
    simpl. lia.
Defined.

(** With exactly one client and exactly one server on offer, the run ends
    with both selections empty: the single options are not selected. *)
Lemma single_option_not_selected :
  let final := SelectOptions agreeingEnv
                 (startState emptyProfile (manifestOf [webNode] [])) in
  final.1 = Ok tt
  ∧ s_integration (st_samples final.2) = Some webNode
  ∧ sci_Clients webNode = ["web"]
  ∧ sci_Servers webNode = ["node"]
  ∧ s_client (st_samples final.2) = ""
  ∧ s_server (st_samples final.2) = ""
  ∧ s_client (st_samples final.2) ≠ "web"
  ∧ s_server (st_samples final.2) ≠ "node".
Proof. vm_compute. repeat split; done. Qed.

(** ** Environment composition *)

(** A run that does compose the environment file: the example is read,
    the keys and the webhook secret are fetched, and the merged mapping,
    with the identifier on record under its variable, is written. *)
Example ConfigureDotEnv_composes :
  ConfigureDotEnv agreeingEnv "/tmp/sample"
    (chosenState basicRecorded (manifestOf [webNode] [basicRef; proRef]) webNode)
  = (Ok tt,
     {| st_samples :=
          st_samples (chosenState basicRecorded
                        (manifestOf [webNode] [basicRef; proRef]) webNode);
        st_trace :=
          [ EvOpen "/tmp/sample/.env.example";
            EvDotenvParse "/tmp/sample/.env.example";
            EvGetPublishableKey;
            EvGetAPIKey false;
            EvGetDeviceName;
            EvAuthorize "sk_test_123" "laptop" "webhooks";
            EvDotenvWrite
              (<["BASIC" := "price_123"]>
                 (<["STATIC_DIR" := "../client"]>
                    (<["STRIPE_WEBHOOK_SECRET" := "whsec_123"]>
                       (<["STRIPE_SECRET_KEY" := "sk_test_123"]>
                          (<["STRIPE_PUBLISHABLE_KEY" := "pk_test_123"]> ∅)))))
              "/tmp/sample/server/.env" ] |}).
Proof. vm_compute. reflexivity. Qed.

(** C8: with the manifest's [configureDotEnv] flag false, [ConfigureDotEnv]
    returns nil and leaves the state and the log of collaborator calls
    untouched, servers or not; and likewise when the chosen integration
    has no servers. *)
Theorem ConfigureDotEnv_noop (E : Env) (sampleLocation : string)
    (st : State) (i : sampleConfigIntegration) :
  s_integration (st_samples st) = Some i →
  sc_ConfigureDotEnv (s_sampleConfig (st_samples st)) = false
    ∨ length (sci_Servers i) = 0 →
  ConfigureDotEnv E sampleLocation st = (Ok tt, st).
Proof.
  intros Hchosen Hguard.
  unfold ConfigureDotEnv, mbind, M_bind, bind. simpl. rewrite Hchosen.
  unfold hasServers. destruct Hguard as [Hflag|Hnone].
  - rewrite Hflag. simpl. by case_bool_decide.
  - rewrite bool_decide_eq_false_2 by lia. done.
Qed.

Lemma ConfigureDotEnv_noop_witness :
  0 < length (sci_Servers webNode)
  ∧ ConfigureDotEnv agreeingEnv "/tmp/sample"
      (chosenState basicRecorded (manifestWithoutDotEnv [webNode] [basicRef]) webNode)
    = (Ok tt,
       chosenState basicRecorded (manifestWithoutDotEnv [webNode] [basicRef]) webNode).
Proof.
  split; [simpl; lia|].
  apply (ConfigureDotEnv_noop agreeingEnv "/tmp/sample"
    (chosenState basicRecorded (manifestWithoutDotEnv [webNode] [basicRef]) webNode)
    webNode eq_refl).
  left. reflexivity.
Defined.

(** ** Synchronising the working copy *)

Section Sync.
Context (E : Env).

Lemma Initialize_pulled app st appPath e :
  env_appCacheFolder E (st_trace st) app = inl appPath →
  env_statNotExist E
    (st_trace st ++ [EvAppCacheFolder app; EvGetSamples "create"]) appPath
  = false →
  env_gitPull E
    (st_trace st ++ [EvAppCacheFolder app; EvGetSamples "create"; EvStat appPath])
    appPath
  = Some e →
  Initialize E app st
  = if decide (e = NoErrAlreadyUpToDate)
    then readSampleConfig E appPath (pulledState app appPath st)
    else (Err e, pulledState app appPath st).
Proof.
  intros Hpath Hstat Hpull.
  unfold Initialize, mbind, M_bind, bind, call, modifySamples, logEvent,
    withSamples.
  simpl. rewrite Hpath. simpl. rewrite <- !app_assoc. simpl.
  rewrite Hstat. simpl. rewrite <- !app_assoc. simpl.
  rewrite Hpull. unfold pulledState.
  destruct (decide (e = NoErrAlreadyUpToDate)); simpl;
    rewrite <- ?app_assoc; done.
Qed.

Lemma readSampleConfig_reads appPath st :
  ∃ rest, st_trace (readSampleConfig E appPath st).2
          = st_trace st ++ EvReadFile (filepath_Join [appPath; ".cli.json"]) :: rest.
Proof.
  unfold readSampleConfig, mbind, M_bind, bind, call, modifySamples, logEvent,
    withSamples, getSamples.
  simpl.
  destruct (env_readFile E (st_trace st) _) as [configFile|err]; simpl.
  - destruct (env_unmarshalConfig E configFile _) as [decoded [err|]]; simpl;
      rewrite <- app_assoc; eauto.
  - eauto.
Qed.

Lemma readSampleConfig_parsed appPath st configFile decoded :
  env_readFile E (st_trace st) (filepath_Join [appPath; ".cli.json"])
  = inl configFile →
  env_unmarshalConfig E configFile (s_sampleConfig (st_samples st))
  = (decoded, None) →
  readSampleConfig E appPath st
  = (Ok tt,
     {| st_samples := set_sampleConfig decoded (st_samples st);
        st_trace := st_trace st
                    ++ [ EvReadFile (filepath_Join [appPath; ".cli.json"]);
                         EvUnmarshalConfig configFile ] |}).
Proof.
  intros Hread Hdecode.
  unfold readSampleConfig, mbind, M_bind, bind, call, modifySamples, logEvent,
    withSamples, getSamples.
  simpl. rewrite Hread. simpl. rewrite Hdecode. simpl.
  by rewrite <- app_assoc.
Qed.

(** C6: when the working copy exists and [git pull] answers with the
    already-up-to-date error, [Initialize] goes on to read and decode
    [.cli.json] and succeeds when both succeed; with any other pull error
    it returns that error, having neither read nor decoded the
    descriptor. *)
Theorem Initialize_pull_outcomes (app : string) (st : State)
    (appPath : string) (e : error) :
  env_appCacheFolder E (st_trace st) app = inl appPath →
  env_statNotExist E
    (st_trace st ++ [EvAppCacheFolder app; EvGetSamples "create"]) appPath
  = false →
  env_gitPull E
    (st_trace st ++ [EvAppCacheFolder app; EvGetSamples "create"; EvStat appPath])
    appPath
  = Some e →
  (e = NoErrAlreadyUpToDate →
     Initialize E app st = readSampleConfig E appPath (pulledState app appPath st)
     ∧ (∃ rest, st_trace (Initialize E app st).2
                = st_trace (pulledState app appPath st)
                  ++ EvReadFile (filepath_Join [appPath; ".cli.json"]) :: rest)
     ∧ ∀ configFile decoded,
         env_readFile E (st_trace (pulledState app appPath st))
                      (filepath_Join [appPath; ".cli.json"]) = inl configFile →
         env_unmarshalConfig E configFile (s_sampleConfig (st_samples st))
         = (decoded, None) →
         (Initialize E app st).1 = Ok tt
         ∧ s_sampleConfig (st_samples (Initialize E app st).2) = decoded)
  ∧ (e ≠ NoErrAlreadyUpToDate →
       Initialize E app st = (Err e, pulledState app appPath st)
       ∧ s_sampleConfig (st_samples (Initialize E app st).2)
         = s_sampleConfig (st_samples st)
       ∧ ∀ ev, ev ∈ st_trace (Initialize E app st).2 →
           (∃ path, ev = EvReadFile path) ∨ (∃ data, ev = EvUnmarshalConfig data) →
           ev ∈ st_trace st).
Proof.
  intros Hpath Hstat Hpull.
  rewrite (Initialize_pulled _ _ _ _ Hpath Hstat Hpull). split.
  - intros ->. rewrite decide_True by done. split; [done|]. split.
    + apply readSampleConfig_reads.
    + intros configFile decoded Hread Hdecode.
      by rewrite (readSampleConfig_parsed _ _ _ _ Hread Hdecode).
  - intros Hother. rewrite decide_False by done. split; [done|]. split; [done|].
    simpl. intros ev Hin Hkind.
    apply elem_of_app in Hin as [Hin|Hin]; [done|].
    exfalso.
    repeat (apply elem_of_cons in Hin as [->|Hin];
            [by destruct Hkind as [[? ?]|[? ?]]|]).
    by apply elem_of_nil in Hin.
Qed.
End Sync.

Lemma Initialize_pull_outcomes_witness :
  (Initialize upToDateEnv "accept-a-payment"
     {| st_samples := samplesOf emptyProfile (manifestOf [] []); st_trace := [] |}).1
  = Ok tt
  ∧ Initialize offlineEnv "accept-a-payment"
      {| st_samples := samplesOf emptyProfile (manifestOf [] []); st_trace := [] |}
    = (Err "authentication required",
       pulledState "accept-a-payment" "/cache/accept-a-payment"
         {| st_samples := samplesOf emptyProfile (manifestOf [] []);
            st_trace := [] |}).
Proof.
  split.
  - refine (proj1 (proj2 (proj2 (proj1 (Initialize_pull_outcomes upToDateEnv
      "accept-a-payment"
      {| st_samples := samplesOf emptyProfile (manifestOf [] []); st_trace := [] |}
      "/cache/accept-a-payment" NoErrAlreadyUpToDate eq_refl eq_refl eq_refl)
      eq_refl)) "{}" (manifestOf [] []) eq_refl eq_refl)).
  - refine (proj1 (proj2 (Initialize_pull_outcomes offlineEnv
      "accept-a-payment"
      {| st_samples := samplesOf emptyProfile (manifestOf [] []); st_trace := [] |}
      "/cache/accept-a-payment" "authentication required"
      eq_refl eq_refl eq_refl) _)).
    discriminate.
Defined.

(** ** Paths *)

Example Clean_samples :
  Clean "" = "." ∧ Clean "/" = "/" ∧ Clean "a//b/./c/.." = "a/b"
  ∧ Clean "/../a" = "/a" ∧ Clean "../a/../.." = "../.." ∧ Clean "a/" = "a".
Proof. vm_compute. done. Qed.

Example filepath_Join_samples :
  filepath_Join ["/cache/sample"; ""; "server"; "node"] = "/cache/sample/server/node"
  ∧ filepath_Join ["/cache/sample"; "checkout"; "client"; ""]
    = "/cache/sample/checkout/client"
  ∧ filepath_Join [""; ""; "server"] = "server"
  ∧ filepath_Join [""; ""] = "".
Proof. vm_compute. done. Qed.

Lemma splitPath_nonempty p : splitPath p ≠ [].
Proof.
  destruct p as [|c p]; simpl; [done|].
  destruct (decide (c = "/"%char)); [done|]. by destruct (splitPath p).
Qed.

Lemma splitPath_app a b :
  splitPath (a +:+ String "/" b) = splitPath a ++ splitPath b.
Proof.
  induction a as [|c a IH]; simpl.
  - done.
  - rewrite IH. destruct (decide (c = "/"%char)); [done|].
    pose proof (splitPath_nonempty a). by destruct (splitPath a).
Qed.

Lemma foldl_cleanStep_empty rooted out comps :
  foldl (cleanStep rooted) out ("" :: comps)
  = foldl (cleanStep rooted) out comps.
Proof. done. Qed.

Lemma isRooted_app a b : a ≠ "" → isRooted (a +:+ b) = isRooted a.
Proof. by destruct a. Qed.

(** An empty element after a non-empty first one leaves no mark on the
    joined and cleaned path. *)
Lemma Clean_join_skip_empty a rest :
  a ≠ "" →
  Clean (strings_Join (a :: "" :: rest) "/") = Clean (strings_Join (a :: rest) "/").
Proof.
  intros Ha. unfold Clean.
  assert (Hsplit :
    ∀ rooted, foldl (cleanStep rooted) [] (splitPath (strings_Join (a :: "" :: rest) "/"))
              = foldl (cleanStep rooted) [] (splitPath (strings_Join (a :: rest) "/"))).
  { intros rooted. destruct rest as [|b rest].
    - change (strings_Join [a; ""] "/") with (a +:+ String "/" "").
      change (strings_Join [a] "/") with a.
      rewrite splitPath_app, foldl_app. done.
    - change (strings_Join (a :: "" :: b :: rest) "/")
        with (a +:+ String "/" (String "/" (strings_Join (b :: rest) "/"))).
      change (strings_Join (a :: b :: rest) "/")
        with (a +:+ String "/" (strings_Join (b :: rest) "/")).
      rewrite !splitPath_app, !foldl_app. done. }
  assert (Hrooted : isRooted (strings_Join (a :: "" :: rest) "/")
                    = isRooted (strings_Join (a :: rest) "/")).
  { destruct rest as [|b rest].
    - change (strings_Join [a; ""] "/") with (a +:+ String "/" "").
      by rewrite isRooted_app.
    - change (strings_Join (a :: "" :: b :: rest) "/")
        with (a +:+ String "/" (String "/" (strings_Join (b :: rest) "/"))).
      change (strings_Join (a :: b :: rest) "/")
        with (a +:+ String "/" (strings_Join (b :: rest) "/")).
      by rewrite !isRooted_app. }
  rewrite Hrooted, Hsplit. done.
Qed.

Lemma filepath_Join_skip_empty a rest :
  filepath_Join (a :: "" :: rest) = filepath_Join (a :: rest).
Proof.
  unfold filepath_Join; fold filepath_Join.
  destruct (decide (a = "")) as [->|Ha].
  - done.
  - by apply Clean_join_skip_empty.
Qed.

(** ** Inverting successful runs *)

Lemma bind_Ok_inv {A B} (m : M A) (k : A → M B) st b st2 :
  (m ≫= k) st = (Ok b, st2) →
  ∃ a st1, m st = (Ok a, st1) ∧ k a st1 = (Ok b, st2).
Proof.
  unfold mbind, M_bind, bind.
  destruct (m st) as [[a|e|msg] st1]; [eauto|done..].
Qed.

Lemma call_orFail_Ok_inv {A} ev (answer : Trace → A + error) st a st1 :
  (call ev answer ≫= orFail) st = (Ok a, st1) →
  answer (st_trace st) = inl a ∧ st1 = logEvent ev st.
Proof.
  unfold mbind, M_bind, bind, call. simpl.
  destruct (answer (st_trace st)); simpl; [|done]. by intros [= -> ->].
Qed.

Lemma call_orFail__Ok_inv ev (answer : Trace → option error) st u st1 :
  (call ev answer ≫= orFail_) st = (Ok u, st1) →
  answer (st_trace st) = None ∧ st1 = logEvent ev st.
Proof.
  unfold mbind, M_bind, bind, call. simpl.
  destruct (answer (st_trace st)); simpl; [done|]. by intros [= _ ->].
Qed.

(** ** Copy *)

Section Copying.
Context (E : Env).

Lemma copyFiles_Ok source target files st u st1 :
  copyFiles E source target files st = (Ok u, st1) →
  st1 = {| st_samples := st_samples st;
           st_trace := st_trace st
             ++ map (fun file => EvCopy (source file) (filepath_Join [target; file]))
                    files |}.
Proof.
  revert st. induction files as [|file files IH]; intros st; simpl.
  - intros [= _ <-]. rewrite app_nil_r. by destruct st.
  - intros (_ & st2 & [_ ->]%call_orFail__Ok_inv & Hrest)%bind_Ok_inv.
    rewrite (IH _ Hrest). simpl. by rewrite <- app_assoc.
Qed.

Lemma copyIntegration_Ok s i integration target st u st1 :
  copyIntegration E s i integration target st = (Ok u, st1) →
  ∃ files1 files2,
    st1 = {| st_samples := st_samples st;
             st_trace := st_trace st
               ++ copyCallsFrom i [s_repo s; integration] s target files1 files2 |}.
Proof.
  unfold copyIntegration, copyCallsFrom.
  intros (? & sa & Hserver & Hrest)%bind_Ok_inv.
  apply bind_Ok_inv in Hrest as (? & sb & Hclient & Hrest).
  apply bind_Ok_inv in Hrest as (files1 & sc & [_ Hsc]%call_orFail_Ok_inv & Hrest).
  apply bind_Ok_inv in Hrest as (? & sd & Hsd%copyFiles_Ok & Hrest).
  apply bind_Ok_inv in Hrest as (files2 & se & [_ Hse]%call_orFail_Ok_inv & Hrest).
  apply copyFiles_Ok in Hrest.
  exists files1, files2.
  assert (Hsa : sa = {| st_samples := st_samples st;
                        st_trace := st_trace st ++
                          (if hasServers i
                           then [EvCopy (filepath_Join ([s_repo s; integration] ++ ["server"; s_server s]))
                                        (filepath_Join [target; "server"])]
                           else []) |}).
  { destruct (hasServers i).
    - by apply call_orFail__Ok_inv in Hserver as [_ ->].
    - injection Hserver as <-. rewrite app_nil_r. by destruct st. }
  assert (Hsb : sb = {| st_samples := st_samples sa;
                        st_trace := st_trace sa ++
                          (if hasClients i
                           then [EvCopy (filepath_Join ([s_repo s; integration] ++ ["client"; s_client s]))
                                        (filepath_Join [target; "client"])]
                           else []) |}).
  { destruct (hasClients i).
    - by apply call_orFail__Ok_inv in Hclient as [_ ->].
    - injection Hclient as <-. rewrite app_nil_r. by destruct sa. }
  rewrite Hrest, Hse, Hsd, Hsc, Hsb, Hsa. simpl.
  rewrite <- !app_assoc. simpl. done.
Qed.

Lemma copyCallsFrom_root i s target files1 files2 :
  copyCallsFrom i [s_repo s; ""] s target files1 files2
  = copyCallsFrom i [s_repo s] s target files1 files2.
Proof.
  unfold copyCallsFrom. simpl.
  rewrite (map_ext
    (fun file => EvCopy (filepath_Join [s_repo s; ""; file])
                        (filepath_Join [target; file]))
    (fun file => EvCopy (filepath_Join [s_repo s; file])
                        (filepath_Join [target; file])))
    by (intros file; by rewrite filepath_Join_skip_empty).
  by rewrite !filepath_Join_skip_empty.
Qed.

Lemma copyFiles_readsFromRoot s source target files :
  (∀ file, source file = filepath_Join [s_repo s; file]) →
  steps (onlyEmits (readsFromRoot s target)) (copyFiles E source target files).
Proof.
  intros Hsource. induction files as [|file files IH]; simpl.
  - apply steps_ret; typeclasses eauto.
  - steps_walk; try apply IH.
    apply onlyEmits_logEvent. right; right; left. rewrite Hsource. eauto.
Qed.

Lemma copyIntegration_readsFromRoot s i target :
  steps (onlyEmits (readsFromRoot s target)) (copyIntegration E s i "" target).
Proof.
  unfold copyIntegration.
  rewrite !filepath_Join_skip_empty.
  steps_walk;
    try (apply copyFiles_readsFromRoot; intros file;
         by rewrite ?filepath_Join_skip_empty);
    apply onlyEmits_logEvent; unfold readsFromRoot; auto 6.
Qed.
End Copying.

(** ** Copy: the listings and the copies they lead to *)

Lemma copyCallsFrom_split i base s target files1 files2 :
  copyCallsFrom i base s target files1 files2
  = variantCalls i base s target
    ++ EvGetFiles (filepath_Join base) :: entryCopies base target files1
    ++ EvGetFiles (s_repo s) :: entryCopies [s_repo s] target files2.
Proof. unfold copyCallsFrom, variantCalls, entryCopies. by rewrite <- app_assoc. Qed.

Lemma variantCalls_root i s target :
  variantCalls i [s_repo s; ""] s target = variantCalls i [s_repo s] s target.
Proof. unfold variantCalls. simpl. by rewrite !filepath_Join_skip_empty. Qed.

Lemma entryCopies_root repo target files :
  entryCopies [repo; ""] target files = entryCopies [repo] target files.
Proof.
  unfold entryCopies. apply map_ext. intros file. simpl.
  by rewrite filepath_Join_skip_empty.
Qed.

Lemma listedBy_root E i st target files1 files2 :
  listedBy E i [s_repo (st_samples st); ""] st target files1 files2 →
  listedBy E i [s_repo (st_samples st)] st target files1 files2.
Proof.
  unfold listedBy.
  by rewrite variantCalls_root, entryCopies_root, filepath_Join_skip_empty.
Qed.

Section CopyListings.
Context (E : Env).

Lemma copyVariants_run (i : sampleConfigIntegration) (integration target : string)
    (s : Samples) (has : bool) (kind selection : string) st u st1 :
  (if has then
     call (EvCopy (filepath_Join [s_repo s; integration; kind; selection])
                  (filepath_Join [target; kind]))
          (fun tr => env_copy E tr
                       (filepath_Join [s_repo s; integration; kind; selection])
                       (filepath_Join [target; kind])) ≫= orFail_
   else mret tt) st = (Ok u, st1) →
  st1 = {| st_samples := st_samples st;
           st_trace := st_trace st
             ++ (if has
                 then [EvCopy (filepath_Join [s_repo s; integration; kind; selection])
                              (filepath_Join [target; kind])]
                 else []) |}.
Proof.
  destruct has.
  - by intros [_ ->]%call_orFail__Ok_inv.
  - intros [= _ <-]. rewrite app_nil_r. by destruct st.
Qed.

(** A successful pass through lines 246-291 has copied the variants,
    listed the integration's folder and copied every entry the listing
    named, then listed the repository and copied every entry of that
    listing. *)
Lemma copyIntegration_Ok_listed i integration target st u st1 :
  copyIntegration E (st_samples st) i integration target st = (Ok u, st1) →
  ∃ files1 files2,
    listedBy E i [s_repo (st_samples st); integration] st target files1 files2
    ∧ st1 = {| st_samples := st_samples st;
               st_trace := st_trace st
                 ++ copyCallsFrom i [s_repo (st_samples st); integration]
                                  (st_samples st) target files1 files2 |}.
Proof.
  unfold copyIntegration.
  intros (? & sa & Hserver & Hrest)%bind_Ok_inv.
  apply bind_Ok_inv in Hrest as (? & sb & Hclient & Hrest).
  apply bind_Ok_inv in Hrest as (files1 & sc & [Hfiles1 Hsc]%call_orFail_Ok_inv & Hrest).
  apply bind_Ok_inv in Hrest as (? & sd & Hsd%copyFiles_Ok & Hrest).
  apply bind_Ok_inv in Hrest as (files2 & se & [Hfiles2 Hse]%call_orFail_Ok_inv & Hrest).
  apply copyFiles_Ok in Hrest.
  apply (copyVariants_run i) in Hserver. apply (copyVariants_run i) in Hclient.
  exists files1, files2.
  subst sa sb sc sd se. simpl in *. rewrite <- !app_assoc in *. simpl in *.
  split.
  - unfold listedBy, variantCalls, entryCopies. simpl.
    rewrite <- !app_assoc. simpl. split; [exact Hfiles1 | exact Hfiles2].
  - rewrite Hrest. unfold copyCallsFrom. simpl. by rewrite <- ?app_assoc.
Qed.

Lemma returnsOk_ret {A} (a : A) : returnsOk (mret a).
Proof. intros st. by exists a, st. Qed.

Lemma returnsOk_bind {A B} (m : M A) (k : A → M B) :
  returnsOk m → (∀ a, returnsOk (k a)) → returnsOk (m ≫= k).
Proof.
  intros Hm Hk st. destruct (Hm st) as (a & st1 & Hrun).
  destruct (Hk a st1) as (b & st2 & Hrest). exists b, st2.
  unfold mbind, M_bind, bind. by rewrite Hrun.
Qed.

Lemma returnsOk_call_orFail {A} ev (answer : Trace → A + error) :
  (∀ tr, ∃ a, answer tr = inl a) → returnsOk (call ev answer ≫= orFail).
Proof.
  intros Hanswer st. destruct (Hanswer (st_trace st)) as [a Ha].
  exists a, (logEvent ev st). unfold mbind, M_bind, bind, call. by rewrite Ha.
Qed.

Lemma returnsOk_call_orFail_ ev (answer : Trace → option error) :
  (∀ tr, answer tr = None) → returnsOk (call ev answer ≫= orFail_).
Proof.
  intros Hanswer st. exists tt, (logEvent ev st).
  unfold mbind, M_bind, bind, call. by rewrite Hanswer.
Qed.

Lemma copyFiles_returnsOk source target files :
  (∀ tr src dst, env_copy E tr src dst = None) →
  returnsOk (copyFiles E source target files).
Proof.
  intros Hcopy. induction files as [|file files IH]; simpl.
  - apply returnsOk_ret.
  - apply returnsOk_bind; [|by intros _].
    apply returnsOk_call_orFail_. intros tr. apply Hcopy.
Qed.

Lemma copyIntegration_returnsOk s i integration target :
  copiesSucceed E → returnsOk (copyIntegration E s i integration target).
Proof.
  intros [Hcopy Hlist]. unfold copyIntegration.
  apply returnsOk_bind.
  { destruct (hasServers i); [|apply returnsOk_ret].
    apply returnsOk_call_orFail_. intros tr. apply Hcopy. }
  intros _. apply returnsOk_bind.
  { destruct (hasClients i); [|apply returnsOk_ret].
    apply returnsOk_call_orFail_. intros tr. apply Hcopy. }
  intros _. apply returnsOk_bind.
  { apply returnsOk_call_orFail. intros tr. apply Hlist. }
  intros files1. apply returnsOk_bind; [by apply copyFiles_returnsOk|].
  intros _. apply returnsOk_bind.
  { apply returnsOk_call_orFail. intros tr. apply Hlist. }
  intros files2. by apply copyFiles_returnsOk.
Qed.

(** Under collaborators that do not fail, lines 246-291 run to the end:
    the method returns nil after exactly the calls above, for the
    listings the collaborator gives. *)
Lemma copyIntegration_succeeds i integration target st :
  copiesSucceed E →
  ∃ files1 files2,
    listedBy E i [s_repo (st_samples st); integration] st target files1 files2
    ∧ copyIntegration E (st_samples st) i integration target st
      = (Ok tt,
         {| st_samples := st_samples st;
            st_trace := st_trace st
              ++ copyCallsFrom i [s_repo (st_samples st); integration]
                               (st_samples st) target files1 files2 |}).
Proof.
  intros Hgood.
  destruct (copyIntegration_returnsOk (st_samples st) i integration target Hgood st)
    as ([] & st1 & Hrun).
  destruct (copyIntegration_Ok_listed _ _ _ _ _ _ Hrun)
    as (files1 & files2 & Hlisted & ->).
  by exists files1, files2.
Qed.
End CopyListings.

(** C7: for the integration named [main] the path component is empty, so
    every call of [Copy] reads from the repository root: the server
    variant from [<repo>/server/<server>], the client variant from
    [<repo>/client/<client>], the remaining entries from [<repo>].  A
    successful [Copy] has made exactly these calls, copying every entry
    the two listings of [<repo>] named, with no [main] folder in any
    path; and under collaborators that do not fail [Copy] does succeed. *)
Theorem Copy_main_from_root (E : Env) (target : string) (st : State)
    (i : sampleConfigIntegration) :
  s_integration (st_samples st) = Some i →
  sci_Name i = "main" →
  name i = ""
  ∧ onlyEmits (readsFromRoot (st_samples st) target) st (Copy E target st).2
  ∧ (∀ u st1, Copy E target st = (Ok u, st1) →
       ∃ files1 files2,
         listedBy E i [s_repo (st_samples st)] st target files1 files2
         ∧ st1 = {| st_samples := st_samples st;
                    st_trace := st_trace st
                      ++ copyCallsFrom i [s_repo (st_samples st)] (st_samples st)
                                       target files1 files2 |})
  ∧ (copiesSucceed E →
     ∃ files1 files2,
       listedBy E i [s_repo (st_samples st)] st target files1 files2
       ∧ Copy E target st
         = (Ok tt,
            {| st_samples := st_samples st;
               st_trace := st_trace st
                 ++ copyCallsFrom i [s_repo (st_samples st)] (st_samples st)
                                  target files1 files2 |})).
Proof.
  intros Hchosen Hmain.
  assert (Hname : name i = "") by (unfold name; by rewrite decide_True).
  assert (Hrun : Copy E target st
                 = copyIntegration E (st_samples st) i "" target st).
  { unfold Copy, mbind, M_bind, bind. simpl. by rewrite Hchosen, Hname. }
  split; [done|]. rewrite Hrun. split; [|split].
  - apply copyIntegration_readsFromRoot.
  - intros u st1 Hok.
    apply copyIntegration_Ok_listed in Hok as (files1 & files2 & Hlisted & ->).
    exists files1, files2. split; [by apply listedBy_root|].
    by rewrite copyCallsFrom_root.
  - intros Hgood.
    destruct (copyIntegration_succeeds E i "" target st Hgood)
      as (files1 & files2 & Hlisted & Hok).
    exists files1, files2. split; [by apply listedBy_root|].
    by rewrite Hok, copyCallsFrom_root.
Qed.

Lemma Copy_main_from_root_witness :
  name nodeAndRuby = ""
  ∧ onlyEmits
      (readsFromRoot
         (st_samples (selectedState "/cache/sample" (manifestOf [nodeAndRuby] [])
                                    nodeAndRuby "" "ruby"))
         "/home/me/app")
      (selectedState "/cache/sample" (manifestOf [nodeAndRuby] []) nodeAndRuby "" "ruby")
      (Copy listingEnv "/home/me/app"
         (selectedState "/cache/sample" (manifestOf [nodeAndRuby] [])
                        nodeAndRuby "" "ruby")).2
  ∧ Copy listingEnv "/home/me/app"
      (selectedState "/cache/sample" (manifestOf [nodeAndRuby] []) nodeAndRuby "" "ruby")
    = (Ok tt,
       {| st_samples :=
            st_samples (selectedState "/cache/sample" (manifestOf [nodeAndRuby] [])
                                      nodeAndRuby "" "ruby");
          st_trace := []
            ++ copyCallsFrom nodeAndRuby ["/cache/sample"]
                 (st_samples (selectedState "/cache/sample"
                                (manifestOf [nodeAndRuby] []) nodeAndRuby "" "ruby"))
                 "/home/me/app"
                 ["README.md"; "package.json"] ["README.md"; "package.json"] |}).
Proof.
  pose proof (Copy_main_from_root listingEnv "/home/me/app"
    (selectedState "/cache/sample" (manifestOf [nodeAndRuby] []) nodeAndRuby "" "ruby")
    nodeAndRuby eq_refl eq_refl) as (Hname & Hcalls & _ & Hsucceeds).
  split; [exact Hname|]. split; [exact Hcalls|].
  destruct Hsucceeds as (files1 & files2 & [Hfiles1 Hfiles2] & Hrun).
  - split; [reflexivity|]. intros tr dir. eexists. reflexivity.
  - injection Hfiles1 as <-. injection Hfiles2 as <-. exact Hrun.
Defined.

(** The calls of that run: the [ruby] server variant comes from
    [<repo>/server/ruby], the entries from [<repo>], twice. *)
Example Copy_main_run :
  Copy listingEnv "/home/me/app"
    (selectedState "/cache/sample" (manifestOf [nodeAndRuby] []) nodeAndRuby "" "ruby")
  = (Ok tt,
     {| st_samples :=
          st_samples (selectedState "/cache/sample" (manifestOf [nodeAndRuby] [])
                                    nodeAndRuby "" "ruby");
        st_trace :=
          [ EvCopy "/cache/sample/server/ruby" "/home/me/app/server";
            EvGetFiles "/cache/sample";
            EvCopy "/cache/sample/README.md" "/home/me/app/README.md";
            EvCopy "/cache/sample/package.json" "/home/me/app/package.json";
            EvGetFiles "/cache/sample";
            EvCopy "/cache/sample/README.md" "/home/me/app/README.md";
            EvCopy "/cache/sample/package.json" "/home/me/app/package.json" ] |}).
Proof. vm_compute. reflexivity. Qed.

(** ** Provisioning *)



Lemma persistAll_snoc p created c :
  persistAll p (created ++ [c])
  = WriteConfigField
      (SetStripeSampleResourceID (persistAll p created)
         (rr_name (cr_resource c)) (cr_id c))
      (rr_name (cr_resource c)) (cr_id c).
Proof. unfold persistAll. by rewrite foldl_app. Qed.


Section Provisioning.
Context (E : Env).

Lemma CreateRequiredResource_steps n :
  steps (both (onlyEmits isCreationCall) (keeps id)) (CreateRequiredResource E n).
Proof.
  unfold CreateRequiredResource.
  steps_walk; split; try done; apply onlyEmits_logEvent; unfold isCreationCall;
    eauto 6.
Qed.

Lemma CreateRequiredResource_run n st rr apiKey bytes :
  getRequiredResource n = Some rr →
  env_getAPIKey E (st_trace st) false = inl apiKey →
  env_makeRequest E (st_trace st ++ [EvGetAPIKey false]) apiKey
                  (rr_httpPath rr) (rr_data rr) = inl bytes →
  CreateRequiredResource E n st
  = (match env_jsonParse E bytes with
     | inl document =>
         match unmarshalFields document with
         | inl fields =>
             match assertString (fields !! "id") with
             | Some id => Ok id
             | None =>
                 Err ("Unexpected response from stripe API when creating "
                      +:+ n +:+ ", did not contain ID: " +:+ bytes)
             end
         | inr e => Err e
         end
     | inr e => Err e
     end,
     {| st_samples := st_samples st;
        st_trace := st_trace st
          ++ [EvGetAPIKey false;
              EvMakeRequest apiKey (rr_httpPath rr) (rr_data rr)] |}).
Proof.
  intros Hrr Hkey Hrequest.
  unfold CreateRequiredResource, mbind, M_bind, bind, call, logEvent.
  rewrite Hrr. simpl. rewrite Hkey. simpl. rewrite Hrequest. simpl.
  rewrite <- app_assoc. simpl.
  destruct (env_jsonParse E bytes) as [document|e]; simpl; [|done].
  destruct (unmarshalFields document) as [fields|e]; simpl; [|done].
  by destruct (assertString (fields !! "id")).
Qed.

Lemma CreateRequiredResource_Ok_inv n st id st1 :
  CreateRequiredResource E n st = (Ok id, st1) →
  ∃ rr apiKey,
    getRequiredResource n = Some rr
    ∧ st1 = {| st_samples := st_samples st;
               st_trace := st_trace st
                 ++ [EvGetAPIKey false;
                     EvMakeRequest apiKey (rr_httpPath rr) (rr_data rr)] |}.
Proof.
  intros Hrun.
  destruct (getRequiredResource n) as [rr|] eqn:Hrr.
  2: { unfold CreateRequiredResource in Hrun. by rewrite Hrr in Hrun. }
  destruct (env_getAPIKey E (st_trace st) false) as [apiKey|e] eqn:Hkey.
  2: { unfold CreateRequiredResource, mbind, M_bind, bind, call in Hrun.
       rewrite Hrr in Hrun. simpl in Hrun. by rewrite Hkey in Hrun. }
  destruct (env_makeRequest E (st_trace st ++ [EvGetAPIKey false]) apiKey
              (rr_httpPath rr) (rr_data rr)) as [bytes|e] eqn:Hrequest.
  2: { unfold CreateRequiredResource, mbind, M_bind, bind, call in Hrun.
       rewrite Hrr in Hrun. simpl in Hrun. rewrite Hkey in Hrun. simpl in Hrun.
       by rewrite Hrequest in Hrun. }
  rewrite (CreateRequiredResource_run _ _ _ _ _ Hrr Hkey Hrequest) in Hrun.
  exists rr, apiKey. split; [done|]. by injection Hrun as _ <-.
Qed.

Lemma PersistRequiredResourceID_run n id st :
  PersistRequiredResourceID n id st
  = (Ok tt,
     {| st_samples :=
          set_Profile
            (WriteConfigField
               (SetStripeSampleResourceID (s_Profile (st_samples st)) n id) n id)
            (st_samples st);
        st_trace := st_trace st
          ++ [EvSetStripeSampleResourceID n id; EvWriteConfigField n id] |}).
Proof.
  unfold PersistRequiredResourceID, mbind, M_bind, bind, call, modifySamples,
    logEvent, withSamples.
  simpl. by rewrite <- app_assoc.
Qed.

Lemma createMissing_Ok_inv missing st u st1 :
  createMissing E missing st = (Ok u, st1) →
  ∃ created,
    Forall2 (fun r c => getRequiredResource (rr_name r) = Some (cr_resource c))
            missing created
    ∧ st1 = {| st_samples :=
                 set_Profile (persistAll (s_Profile (st_samples st)) created)
                             (st_samples st);
               st_trace := st_trace st ++ flat_map creationCalls created |}.
Proof.
  revert st. induction missing as [|r missing IH]; intros st; simpl.
  - intros [= _ <-]. exists []. split; [constructor|].
    simpl. rewrite app_nil_r. by destruct st as [[]].
  - intros (id & sa & Hcreate & Hrest)%bind_Ok_inv.
    apply bind_Ok_inv in Hrest as (? & sb & Hpersist & Hrest).
    apply CreateRequiredResource_Ok_inv in Hcreate as (rr & apiKey & Hrr & ->).
    rewrite PersistRequiredResourceID_run in Hpersist.
    injection Hpersist as _ <-.
    apply IH in Hrest as (created & Hall & ->).
    exists ({| cr_resource := rr; cr_apiKey := apiKey; cr_id := id |} :: created).
    split; [by constructor|].
    simpl. rewrite (getRequiredResource_name _ _ Hrr).
    rewrite <- !app_assoc. done.
Qed.

End Provisioning.

Section ProvisioningLoop.
Context (E : Env).


End ProvisioningLoop.

(** The loop of the theorem is the one [SelectOptions] runs: once the
    user answers yes to the auto-create prompt, what is left of the
    method is [createMissing] on the result of the gap check. *)
Lemma selectOptions_resources_accepted (E : Env) (st : State) :
  0 < len (MissingRequiredResources (st_samples st)) →
  env_promptRun E
    (st_trace st
     ++ [EvPrint (requiredResourcesNotice
           (descriptionsOf (elems (MissingRequiredResources (st_samples st)))))])
    "Would you like us to automatically create these and configure their IDs?"
    ["yes"; "no"]
  = inl "yes" →
  selectOptions_resources E st
  = createMissing E (elems (MissingRequiredResources (st_samples st)))
      {| st_samples := st_samples st;
         st_trace := st_trace st
           ++ [ EvPrint (requiredResourcesNotice
                  (descriptionsOf (elems (MissingRequiredResources (st_samples st)))));
                EvPrompt "auto-create behavior"
                  "Would you like us to automatically create these and configure their IDs?"
                  ["yes"; "no"] ] |}.
Proof.
  intros Hmissing Hyes.
  unfold selectOptions_resources, shouldCreateRequiredResourcesPrompt,
    selectOptions, mbind, M_bind, bind, call, logEvent.
  simpl. rewrite bool_decide_eq_true_2 by done. simpl.
  rewrite Hyes. simpl. by rewrite <- app_assoc.
Qed.


(** The run above, spelled out: one request answered and persisted, one
    refused, none for the third resource. *)
Example provisioning_run :
  st_trace proRefused
  = [ EvGetAPIKey false;
      EvMakeRequest "sk_test_123" "/v1/prices"
        [ "currency=usd"; "unit_amount=1000";
          "product_data[name]=Stripe Sample Basic"; "recurring[interval]=month" ];
      EvSetStripeSampleResourceID "stripe_samples_price_recurring_basic_id" "price_1";
      EvWriteConfigField "stripe_samples_price_recurring_basic_id" "price_1";
      EvGetAPIKey false;
      EvMakeRequest "sk_test_123" "/v1/prices"
        [ "currency=usd"; "unit_amount=1000";
          "product_data[name]=Stripe Sample Pro"; "recurring[interval]=month" ] ]
  ∧ GetStripeSampleResourceID (s_Profile (st_samples proRefused))
      "stripe_samples_price_recurring_basic_id" = "price_1"
  ∧ p_ConfigFields (s_Profile (st_samples proRefused))
      !! "stripe_samples_price_recurring_basic_id" = Some "price_1".
Proof. vm_compute. done. Qed.

(** The same failure seen from [SelectOptions]: the user accepts the
    auto-creation, the loop runs over the two missing resources, and the
    error of the second creation is what [SelectOptions] returns, with the
    first identifier on record. *)
Example SelectOptions_provisioning_run :
  let final := SelectOptions
                 (scriptedEnv (fun _ _ _ => inl "yes")
                    (fun tr => if existsb isMakeRequest tr
                               then inr "rate limited" else inl "id=price_1")
                    parseToy None (fun _ => inl []))
                 (startState emptyProfile (manifestOf [webNode] [basicRef; proRef])) in
  final.1 = Err "rate limited"
  ∧ s_Profile (st_samples final.2)
    = WriteConfigField
        (SetStripeSampleResourceID emptyProfile
           "stripe_samples_price_recurring_basic_id" "price_1")
        "stripe_samples_price_recurring_basic_id" "price_1"
  ∧ length (filter (fun ev => isMakeRequest ev = true) (st_trace final.2)) = 2.
Proof. vm_compute. done. Qed.

(** * Further properties of the package *)

(** ** The catalog *)

Lemma lookupRequiredResource_elem table n rr :
  lookupRequiredResource table n = Some rr → rr ∈ table.
Proof.
  induction table as [|r table IH]; simpl; [done|].
  case_decide.
  - intros [= <-]. by left.
  - intros Hrest. right. by apply IH.
Qed.

(** [getRequiredResource] answers with the catalog entry of that name and
    with nil for every name the catalog does not have. *)
Theorem getRequiredResource_spec (n : string) (rr : RequiredResource) :
  getRequiredResource n = Some rr ↔ rr ∈ requiredResources ∧ rr_name rr = n.
Proof.
  split.
  - intros Hfound. split.
    + by eapply lookupRequiredResource_elem.
    + by apply getRequiredResource_name.
  - intros [Hin <-]. unfold requiredResources in Hin.
    repeat (apply elem_of_cons in Hin as [->|Hin]; [reflexivity|]).
    by apply elem_of_nil in Hin.
Qed.

(** ** Integration names and servers *)

Lemma integrationNames_map sc :
  integrationNames sc = map sci_Name (sc_Integrations sc).
Proof.
  unfold integrationNames.
  assert (Hgen : ∀ l acc,
    foldl (fun names integration => names ++ [sci_Name integration]) acc l
    = acc ++ map sci_Name l).
  { induction l as [|i l IH]; intros acc; simpl.
    - by rewrite app_nil_r.
    - rewrite IH. by rewrite <- app_assoc. }
  apply Hgen.
Qed.

Lemma serversOf_unknown integrations n :
  n ∉ map sci_Name integrations → serversOf integrations n = [].
Proof.
  induction integrations as [|i integrations IH]; simpl; [done|].
  intros Hnot. apply not_elem_of_cons in Hnot as [Hne Hnot].
  rewrite decide_False by done. by apply IH.
Qed.

Lemma serversOf_member integrations i :
  NoDup (map sci_Name integrations) →
  i ∈ integrations →
  serversOf integrations (sci_Name i) = sci_Servers i.
Proof.
  induction integrations as [|j integrations IH]; simpl;
    intros Hnodup Hin; [by apply elem_of_nil in Hin|].
  apply NoDup_cons in Hnodup as [Hfresh Hnodup].
  apply elem_of_cons in Hin as [->|Hin].
  - by rewrite decide_True.
  - rewrite decide_False; [by apply IH|].
    intros Heq. apply Hfresh. rewrite Heq. by apply list_elem_of_fmap_2.
Qed.

Lemma serversOf_first before i after :
  Forall (fun j => sci_Name j ≠ sci_Name i) before →
  serversOf (before ++ i :: after) (sci_Name i) = sci_Servers i.
Proof.
  induction before as [|j before IH]; simpl; intros Hbefore.
  - by rewrite decide_True.
  - apply Forall_cons in Hbefore as [Hj Hbefore].
    rewrite decide_False by done. by apply IH.
Qed.

(** [integrationServers] gives the servers of the first integration of
    that name, whatever comes after it: those of any integration when
    names are not repeated, and the empty list for a name the manifest
    does not have. *)
Theorem integrationServers_lookup (sc : sampleConfig) :
  (∀ before i after,
     sc_Integrations sc = before ++ i :: after →
     Forall (fun j => sci_Name j ≠ sci_Name i) before →
     integrationServers sc (sci_Name i) = sci_Servers i)
  ∧ (∀ i, NoDup (map sci_Name (sc_Integrations sc)) →
          i ∈ sc_Integrations sc →
          integrationServers sc (sci_Name i) = sci_Servers i)
  ∧ (∀ n, n ∉ integrationNames sc → integrationServers sc n = []).
Proof.
  split; [|split].
  - intros before i after Hlist Hbefore. unfold integrationServers.
    rewrite Hlist. by apply serversOf_first.
  - intros i Hnodup Hin. by apply serversOf_member.
  - intros n Hnot. apply serversOf_unknown. by rewrite <- integrationNames_map.
Qed.

Lemma integrationServers_lookup_witness :
  integrationServers
    (manifestOf [elementsIntegration; checkoutIntegration; checkoutAgain] [])
    "checkout" = ["node"; "go"]
  ∧ integrationServers (manifestOf [checkoutIntegration; elementsIntegration] [])
                       "elements" = ["ruby"]
  ∧ integrationServers (manifestOf [checkoutIntegration; elementsIntegration] [])
                       "main" = [].
Proof.
  split; [|split].
  - refine (proj1 (integrationServers_lookup
      (manifestOf [elementsIntegration; checkoutIntegration; checkoutAgain] []))
      [elementsIntegration] checkoutIntegration [checkoutAgain] eq_refl _).
    apply Forall_singleton. discriminate.
  - refine (proj1 (proj2 (integrationServers_lookup
      (manifestOf [checkoutIntegration; elementsIntegration] [])))
      elementsIntegration _ _).
    + simpl. apply NoDup_cons. split.
      * intros Hin. apply elem_of_cons in Hin as [Hin|Hin]; [discriminate|].
        by apply elem_of_nil in Hin.
      * apply NoDup_singleton.
    + simpl. right. by left.
  - refine (proj2 (proj2 (integrationServers_lookup
      (manifestOf [checkoutIntegration; elementsIntegration] []))) "main" _).
    vm_compute. intros Hin.
    repeat (apply elem_of_cons in Hin as [Hin|Hin]; [discriminate|]).
    by apply elem_of_nil in Hin.
Defined.

(** ** The integration prompt *)

Lemma lastMatch_found (selected : string) (l : list sampleConfigIntegration) acc :
  selected ∈ map sci_Name l →
  ∃ i before after,
    foldl (fun selectedIntegration integration =>
             if decide (sci_Name integration = selected)
             then Some integration else selectedIntegration) acc l = Some i
    ∧ l = before ++ i :: after
    ∧ sci_Name i = selected
    ∧ Forall (fun j => sci_Name j ≠ selected) after.
Proof.
  induction l as [|j l IH] using rev_ind; intros Hin.
  - by apply elem_of_nil in Hin.
  - rewrite foldl_app. simpl.
    destruct (decide (sci_Name j = selected)) as [Hj|Hj].
    + exists j, l, []. by repeat split.
    + rewrite map_app in Hin. apply elem_of_app in Hin as [Hin|Hin].
      * destruct (IH Hin) as (i & before & after & Hfold & -> & Hname & Hafter).
        exists i, before, (after ++ [j]). split; [done|].
        split; [by rewrite <- app_assoc|]. split; [done|].
        apply Forall_app. split; [done|]. by apply Forall_singleton.
      * simpl in Hin. apply list_elem_of_singleton in Hin. congruence.
Qed.

(** When the user picks one of the names on offer, [integrationSelectPrompt]
    returns an integration of the manifest with that name, the last one
    if the name is repeated, after a single prompt listing the names in
    manifest order; a failed prompt is returned as the error. *)
Theorem integrationSelectPrompt_picks (E : Env) (sc : sampleConfig) (st : State) :
  (∀ selected,
     env_promptRun E (st_trace st) "What type of integration would you like to use"
                   (integrationNames sc) = inl selected →
     selected ∈ integrationNames sc →
     ∃ i before after,
       integrationSelectPrompt E sc st
       = (Ok (Some i), logEvent (integrationPromptEvent sc) st)
       ∧ sc_Integrations sc = before ++ i :: after
       ∧ sci_Name i = selected
       ∧ Forall (fun j => sci_Name j ≠ selected) after)
  ∧ (∀ e,
       env_promptRun E (st_trace st) "What type of integration would you like to use"
                     (integrationNames sc) = inr e →
       integrationSelectPrompt E sc st
       = (Err e, logEvent (integrationPromptEvent sc) st))
  ∧ integrationNames sc = map sci_Name (sc_Integrations sc).
Proof.
  split; [|split].
  - intros selected Hanswer Hin. rewrite integrationNames_map in Hin.
    destruct (lastMatch_found selected (sc_Integrations sc) None Hin)
      as (i & before & after & Hfold & Hlist & Hname & Hafter).
    exists i, before, after.
    unfold integrationSelectPrompt, selectOptions, mbind, M_bind, bind, call.
    rewrite Hanswer. simpl. unfold mret, M_ret, ret. by rewrite Hfold.
  - intros e Hanswer.
    unfold integrationSelectPrompt, selectOptions, mbind, M_bind, bind, call.
    by rewrite Hanswer.
  - apply integrationNames_map.
Qed.

Lemma integrationSelectPrompt_picks_witness :
  ∃ i before after,
    integrationSelectPrompt (answeringEnv "elements")
      (manifestOf [checkoutIntegration; elementsIntegration] [])
      (startState emptyProfile (manifestOf [checkoutIntegration; elementsIntegration] []))
    = (Ok (Some i),
       logEvent (integrationPromptEvent
                   (manifestOf [checkoutIntegration; elementsIntegration] []))
         (startState emptyProfile
            (manifestOf [checkoutIntegration; elementsIntegration] [])))
    ∧ [checkoutIntegration; elementsIntegration] = before ++ i :: after
    ∧ sci_Name i = "elements"
    ∧ Forall (fun j => sci_Name j ≠ "elements") after.
Proof.
  refine (proj1 (integrationSelectPrompt_picks (answeringEnv "elements")
    (manifestOf [checkoutIntegration; elementsIntegration] [])
    (startState emptyProfile (manifestOf [checkoutIntegration; elementsIntegration] [])))
    "elements" eq_refl _).
  vm_compute. right. by left.
Defined.

(** ** Prompts that fail or are declined *)

(** With more than one integration, a failed integration prompt makes
    [SelectOptions] return that error with [s.integration] nil; no other
    call is made. *)
Theorem SelectOptions_integration_prompt_error (E : Env) (st : State) (e : error) :
  1 < length (sc_Integrations (s_sampleConfig (st_samples st))) →
  env_promptRun E (st_trace st) "What type of integration would you like to use"
                (integrationNames (s_sampleConfig (st_samples st))) = inr e →
  SelectOptions E st
  = (Err e,
     withSamples (set_integration None)
       (logEvent (integrationPromptEvent (s_sampleConfig (st_samples st))) st)).
Proof.
  intros Hmany Hanswer.
  unfold SelectOptions, selectOptions_integration, integrationSelectPrompt,
    selectOptions, recover, mbind, M_bind, bind, call, hasIntegrations.
  simpl. rewrite bool_decide_eq_true_2 by done. by rewrite Hanswer.
Qed.

Lemma SelectOptions_integration_prompt_error_witness :
  SelectOptions abortingEnv
    (startState emptyProfile (manifestOf [checkoutIntegration; elementsIntegration] []))
  = (Err "^C",
     withSamples (set_integration None)
       (logEvent (integrationPromptEvent
                    (manifestOf [checkoutIntegration; elementsIntegration] []))
          (startState emptyProfile
             (manifestOf [checkoutIntegration; elementsIntegration] [])))).
Proof.
  apply (SelectOptions_integration_prompt_error abortingEnv
    (startState emptyProfile (manifestOf [checkoutIntegration; elementsIntegration] []))
    "^C"); [simpl; lia | reflexivity].
Defined.

(** A failed server prompt, unlike a failed client prompt, is returned:
    from the server axis on, the method ends with that error, the server
    selection empty, and neither the gap check's notice nor any creation
    follows. *)
Theorem selectOptions_server_prompt_error (E : Env) (st : State)
    (i : sampleConfigIntegration) (e : error) :
  s_integration (st_samples st) = Some i →
  1 < length (sci_Servers i) →
  env_promptRun E (st_trace st) "What server would you like to use"
                (sci_Servers i) = inr e →
  selectOptions_server E st
  = (Err e,
     withSamples (set_server "") (logEvent (serverPromptEvent (sci_Servers i)) st)).
Proof.
  intros Hchosen Hmany Hanswer.
  unfold selectOptions_server, serverSelectPrompt, selectOptions, recover,
    mbind, M_bind, bind, call, hasMultipleServers.
  simpl. rewrite Hchosen. rewrite bool_decide_eq_true_2 by done.
  by rewrite Hanswer.
Qed.

Lemma selectOptions_server_prompt_error_witness :
  selectOptions_server abortingEnv
    (chosenState emptyProfile (manifestOf [manyVariants] [basicRef]) manyVariants)
  = (Err "^C",
     withSamples (set_server "")
       (logEvent (serverPromptEvent ["node"; "ruby"])
          (chosenState emptyProfile (manifestOf [manyVariants] [basicRef])
                       manyVariants))).
Proof.
  apply (selectOptions_server_prompt_error abortingEnv
    (chosenState emptyProfile (manifestOf [manyVariants] [basicRef]) manyVariants)
    manyVariants "^C" eq_refl); [simpl; lia | reflexivity].
Defined.

(** ** The gap check inside [SelectOptions] *)

(** When resources are missing, only the answer [yes] starts the
    creations: with any other answer the method returns nil after the
    notice and the prompt, without a request and with the profile as it
    was; a failed prompt is returned as the error. *)
Theorem selectOptions_resources_declined (E : Env) (st : State) :
  0 < len (MissingRequiredResources (st_samples st)) →
  (∀ answer,
     env_promptRun E (st_trace st ++ [missingNoticeEvent (st_samples st)])
       "Would you like us to automatically create these and configure their IDs?"
       ["yes"; "no"] = inl answer →
     answer ≠ "yes" →
     selectOptions_resources E st
     = (Ok tt,
        {| st_samples := st_samples st;
           st_trace := st_trace st
             ++ [missingNoticeEvent (st_samples st); autoCreatePromptEvent] |}))
  ∧ (∀ e,
       env_promptRun E (st_trace st ++ [missingNoticeEvent (st_samples st)])
         "Would you like us to automatically create these and configure their IDs?"
         ["yes"; "no"] = inr e →
       selectOptions_resources E st
       = (Err e,
          {| st_samples := st_samples st;
             st_trace := st_trace st
               ++ [missingNoticeEvent (st_samples st); autoCreatePromptEvent] |})).
Proof.
  intros Hmissing. split.
  - intros answer Hanswer Hno.
    unfold selectOptions_resources, shouldCreateRequiredResourcesPrompt,
      selectOptions, mbind, M_bind, bind, call, logEvent.
    simpl. rewrite bool_decide_eq_true_2 by done. simpl.
    unfold missingNoticeEvent in Hanswer. rewrite Hanswer. simpl.
    rewrite bool_decide_eq_false_2 by done. by rewrite <- app_assoc.
  - intros e Hanswer.
    unfold selectOptions_resources, shouldCreateRequiredResourcesPrompt,
      selectOptions, mbind, M_bind, bind, call, logEvent.
    simpl. rewrite bool_decide_eq_true_2 by done. simpl.
    unfold missingNoticeEvent in Hanswer. rewrite Hanswer. simpl.
    by rewrite <- app_assoc.
Qed.

Lemma selectOptions_resources_declined_witness :
  selectOptions_resources (answeringEnv "no")
    (chosenState emptyProfile (manifestOf [webNode] [basicRef]) webNode)
  = (Ok tt,
     {| st_samples :=
          st_samples (chosenState emptyProfile (manifestOf [webNode] [basicRef]) webNode);
        st_trace :=
          [ missingNoticeEvent
              (st_samples (chosenState emptyProfile
                             (manifestOf [webNode] [basicRef]) webNode));
            autoCreatePromptEvent ] |}).
Proof.
  refine (proj1 (selectOptions_resources_declined (answeringEnv "no")
    (chosenState emptyProfile (manifestOf [webNode] [basicRef]) webNode) _)
    "no" eq_refl _).
  - vm_compute. lia.
  - discriminate.
Defined.

(** When the gap check reports nothing, because every declared resource
    has an identifier on record or because the manifest names a resource
    the catalog does not have, [SelectOptions] ends without notice,
    prompt or request. *)
Theorem selectOptions_resources_nothing_missing (E : Env) (st : State) :
  (len (MissingRequiredResources (st_samples st)) = 0 →
   selectOptions_resources E st = (Ok tt, st))
  ∧ ((∃ rrConfig,
        rrConfig ∈ sc_RequiredResources (s_sampleConfig (st_samples st))
        ∧ getRequiredResource (rrc_Name rrConfig) = None) →
     selectOptions_resources E st = (Ok tt, st)).
Proof.
  assert (Hnone : len (MissingRequiredResources (st_samples st)) = 0 →
                  selectOptions_resources E st = (Ok tt, st)).
  { intros Hlen.
    unfold selectOptions_resources, mbind, M_bind, bind. simpl.
    rewrite bool_decide_eq_false_2 by lia. done. }
  split; [done|].
  intros Hunknown. apply Hnone.
  unfold MissingRequiredResources. by rewrite missingLoop_unknown.
Qed.

Lemma selectOptions_resources_nothing_missing_witness :
  selectOptions_resources agreeingEnv
    (chosenState emptyProfile (manifestOf [webNode] [proRef; unknownRef]) webNode)
  = (Ok tt,
     chosenState emptyProfile (manifestOf [webNode] [proRef; unknownRef]) webNode).
Proof.
  refine (proj2 (selectOptions_resources_nothing_missing agreeingEnv
    (chosenState emptyProfile (manifestOf [webNode] [proRef; unknownRef]) webNode)) _).
  exists unknownRef. split; [|reflexivity].
  simpl. right. by left.
Defined.

(** ** Persisting an identifier *)

(** [PersistRequiredResourceID] always returns nil; afterwards the name
    reads back as the identifier, in memory and in the written
    configuration, every other name reads as before, and, unless the
    identifier is empty, the gap check no longer reports the name. *)
Theorem PersistRequiredResourceID_recorded (n id : string) (st : State) :
  (PersistRequiredResourceID n id st).1 = Ok tt
  ∧ st_trace (PersistRequiredResourceID n id st).2
    = st_trace st ++ [EvSetStripeSampleResourceID n id; EvWriteConfigField n id]
  ∧ GetStripeSampleResourceID
      (s_Profile (st_samples (PersistRequiredResourceID n id st).2)) n = id
  ∧ p_ConfigFields (s_Profile (st_samples (PersistRequiredResourceID n id st).2))
      !! n = Some id
  ∧ (∀ n', n' ≠ n →
       GetStripeSampleResourceID
         (s_Profile (st_samples (PersistRequiredResourceID n id st).2)) n'
       = GetStripeSampleResourceID (s_Profile (st_samples st)) n'
       ∧ p_ConfigFields (s_Profile (st_samples (PersistRequiredResourceID n id st).2))
           !! n'
         = p_ConfigFields (s_Profile (st_samples st)) !! n')
  ∧ (id ≠ "" →
     ∀ rr, rr ∈ elems (MissingRequiredResources
                         (st_samples (PersistRequiredResourceID n id st).2)) →
           rr_name rr ≠ n).
Proof.
  rewrite PersistRequiredResourceID_run. simpl.
  unfold GetStripeSampleResourceID. simpl.
  split; [done|]. split; [done|].
  split; [by rewrite lookup_insert_eq|].
  split; [by rewrite lookup_insert_eq|].
  split.
  - intros n' Hne. by rewrite !lookup_insert_ne.
  - intros Hid rr Hin Hname.
    apply missing_names_unrecorded in Hin; [|by intros ? ?%elem_of_nil].
    unfold GetStripeSampleResourceID in Hin. simpl in Hin.
    rewrite Hname, lookup_insert_eq in Hin. done.
Qed.

(** ** One creation *)

Lemma unmarshalFields_last (members : list (string * json))
    (m : gmap string json) k v :
  foldl (fun (m : gmap string json) kv => <[kv.1 := kv.2]> m) m members !! k
  = Some v →
  (∃ before after, members = before ++ (k, v) :: after
                   ∧ Forall (fun kv => kv.1 ≠ k) after)
  ∨ (m !! k = Some v ∧ Forall (fun kv => kv.1 ≠ k) members).
Proof.
  induction members as [|[k' v'] members IH] using rev_ind; simpl.
  - intros Hm. right. by split.
  - rewrite foldl_app. simpl.
    destruct (decide (k' = k)) as [->|Hne].
    + rewrite lookup_insert_eq. intros [= ->].
      left. exists members, []. by split.
    + rewrite lookup_insert_ne by done.
      intros [(before & after & -> & Hafter)|[Hm Hall]]%IH.
      * left. exists before, (after ++ [(k', v')]).
        split; [by rewrite <- app_assoc|].
        apply Forall_app. split; [done|]. by apply Forall_singleton.
      * right. split; [done|].
        apply Forall_app. split; [done|]. by apply Forall_singleton.
Qed.

(** A creation that succeeds has sent one request, and the identifier it
    returns is the string under the last [id] member of the object the
    API answered with; the [Samples] struct is not touched. *)
Theorem CreateRequiredResource_returns_last_id (E : Env) (n : string)
    (st : State) (id : string) (st1 : State) :
  CreateRequiredResource E n st = (Ok id, st1) →
  ∃ rr apiKey bytes before after,
    getRequiredResource n = Some rr
    ∧ env_getAPIKey E (st_trace st) false = inl apiKey
    ∧ env_makeRequest E (st_trace st ++ [EvGetAPIKey false]) apiKey
                      (rr_httpPath rr) (rr_data rr) = inl bytes
    ∧ env_jsonParse E bytes = inl (JObject (before ++ ("id", JString id) :: after))
    ∧ Forall (fun kv => kv.1 ≠ "id") after
    ∧ st1 = {| st_samples := st_samples st;
               st_trace := st_trace st
                 ++ [EvGetAPIKey false;
                     EvMakeRequest apiKey (rr_httpPath rr) (rr_data rr)] |}.
Proof.
  intros Hrun.
  destruct (getRequiredResource n) as [rr|] eqn:Hrr.
  2: { unfold CreateRequiredResource in Hrun. by rewrite Hrr in Hrun. }
  destruct (env_getAPIKey E (st_trace st) false) as [apiKey|e] eqn:Hkey.
  2: { unfold CreateRequiredResource, mbind, M_bind, bind, call in Hrun.
       rewrite Hrr in Hrun. simpl in Hrun. by rewrite Hkey in Hrun. }
  destruct (env_makeRequest E (st_trace st ++ [EvGetAPIKey false]) apiKey
              (rr_httpPath rr) (rr_data rr)) as [bytes|e] eqn:Hrequest.
  2: { unfold CreateRequiredResource, mbind, M_bind, bind, call in Hrun.
       rewrite Hrr in Hrun. simpl in Hrun. rewrite Hkey in Hrun. simpl in Hrun.
       by rewrite Hrequest in Hrun. }
  rewrite (CreateRequiredResource_run _ _ _ _ _ _ Hrr Hkey Hrequest) in Hrun.
  destruct (env_jsonParse E bytes) as [document|e] eqn:Hparse; [|done].
  destruct (unmarshalFields document) as [fields|e] eqn:Hfields; [|done].
  destruct (assertString (fields !! "id")) as [id'|] eqn:Hid; [|done].
  injection Hrun as -> <-.
  destruct document as [| | | | |members]; simpl in Hfields; try done.
  { injection Hfields as <-. by rewrite lookup_empty in Hid. }
  injection Hfields as <-.
  destruct (foldl _ ∅ members !! "id") as [[]|] eqn:Hlookup; try done.
  injection Hid as ->.
  apply unmarshalFields_last in Hlookup
    as [(before & after & -> & Hafter)|[Hempty _]].
  - by exists rr, apiKey, bytes, before, after.
  - by rewrite lookup_empty in Hempty.
Qed.

Lemma CreateRequiredResource_returns_last_id_witness :
  ∃ rr apiKey bytes before after,
    getRequiredResource "stripe_samples_price_recurring_pro_id" = Some rr
    ∧ env_getAPIKey agreeingEnv [] false = inl apiKey
    ∧ env_makeRequest agreeingEnv [EvGetAPIKey false] apiKey
                      (rr_httpPath rr) (rr_data rr) = inl bytes
    ∧ env_jsonParse agreeingEnv bytes
      = inl (JObject (before ++ ("id", JString "price_1") :: after))
    ∧ Forall (fun kv => kv.1 ≠ "id") after
    ∧ {| st_samples := samplesOf emptyProfile (manifestOf [webNode] [proRef]);
         st_trace := [EvGetAPIKey false;
                      EvMakeRequest "sk_test_123" "/v1/prices" (rr_data proTemplate)] |}
      = {| st_samples := samplesOf emptyProfile (manifestOf [webNode] [proRef]);
           st_trace := []
             ++ [EvGetAPIKey false;
                 EvMakeRequest apiKey (rr_httpPath rr) (rr_data rr)] |}.
Proof.
  apply (CreateRequiredResource_returns_last_id agreeingEnv
    "stripe_samples_price_recurring_pro_id"
    (startState emptyProfile (manifestOf [webNode] [proRef]))).
  vm_compute. reflexivity.
Defined.

(** Before there is a body to look at: an unknown name is refused without
    any call, a key that cannot be read means no request is sent, and a
    failed request is returned as it is. *)
Theorem CreateRequiredResource_early_errors (E : Env) (n : string) (st : State) :
  (getRequiredResource n = None →
   CreateRequiredResource E n st
   = (Err ("Unexpected: tried to create unknown required resource " +:+ n), st))
  ∧ (∀ rr e,
       getRequiredResource n = Some rr →
       env_getAPIKey E (st_trace st) false = inr e →
       CreateRequiredResource E n st = (Err e, logEvent (EvGetAPIKey false) st))
  ∧ (∀ rr apiKey e,
       getRequiredResource n = Some rr →
       env_getAPIKey E (st_trace st) false = inl apiKey →
       env_makeRequest E (st_trace st ++ [EvGetAPIKey false]) apiKey
                       (rr_httpPath rr) (rr_data rr) = inr e →
       CreateRequiredResource E n st
       = (Err e,
          {| st_samples := st_samples st;
             st_trace := st_trace st
               ++ [EvGetAPIKey false;
                   EvMakeRequest apiKey (rr_httpPath rr) (rr_data rr)] |})).
Proof.
  split; [|split].
  - intros Hrr. unfold CreateRequiredResource. by rewrite Hrr.
  - intros rr e Hrr Hkey.
    unfold CreateRequiredResource, mbind, M_bind, bind, call.
    rewrite Hrr. simpl. by rewrite Hkey.
  - intros rr apiKey e Hrr Hkey Hrequest.
    unfold CreateRequiredResource, mbind, M_bind, bind, call, logEvent.
    rewrite Hrr. simpl. rewrite Hkey. simpl. rewrite Hrequest. simpl.
    by rewrite <- app_assoc.
Qed.

Lemma CreateRequiredResource_early_errors_witness :
  CreateRequiredResource agreeingEnv "stripe_samples_product_id"
    (startState emptyProfile (manifestOf [webNode] []))
  = (Err "Unexpected: tried to create unknown required resource stripe_samples_product_id",
     startState emptyProfile (manifestOf [webNode] []))
  ∧ CreateRequiredResource abortingEnv "stripe_samples_price_recurring_pro_id"
      (startState emptyProfile (manifestOf [webNode] []))
    = (Err "connection refused",
       {| st_samples := samplesOf emptyProfile (manifestOf [webNode] []);
          st_trace := [EvGetAPIKey false;
                       EvMakeRequest "sk_test_123" "/v1/prices"
                                     (rr_data proTemplate)] |}).
Proof.
  split.
  - apply (proj1 (CreateRequiredResource_early_errors agreeingEnv
      "stripe_samples_product_id"
      (startState emptyProfile (manifestOf [webNode] [])))).
    reflexivity.
  - apply (proj2 (proj2 (CreateRequiredResource_early_errors abortingEnv
      "stripe_samples_price_recurring_pro_id"
      (startState emptyProfile (manifestOf [webNode] []))))
      proTemplate "sk_test_123" "connection refused"); reflexivity.
Defined.

(** ** A creation loop that succeeds *)

Lemma persistAll_frame p created n :
  Forall (fun c => rr_name (cr_resource c) ≠ n) created →
  p_SampleResourceIDs (persistAll p created) !! n = p_SampleResourceIDs p !! n
  ∧ p_ConfigFields (persistAll p created) !! n = p_ConfigFields p !! n.
Proof.
  induction created as [|c created IH] using rev_ind; intros Hall; [done|].
  apply Forall_app in Hall as [Hcreated Hc]. apply Forall_inv in Hc.
  rewrite persistAll_snoc. simpl. rewrite !lookup_insert_ne by done.
  by apply IH.
Qed.

Lemma persistAll_recorded p created c :
  c ∈ created →
  is_Some (p_SampleResourceIDs (persistAll p created) !! rr_name (cr_resource c))
  ∧ is_Some (p_ConfigFields (persistAll p created) !! rr_name (cr_resource c)).
Proof.
  induction created as [|c' created IH] using rev_ind; intros Hin.
  - by apply elem_of_nil in Hin.
  - rewrite persistAll_snoc. simpl.
    destruct (decide (rr_name (cr_resource c') = rr_name (cr_resource c)))
      as [Heq|Hne].
    + rewrite Heq, !lookup_insert_eq. by split.
    + rewrite !lookup_insert_ne by done. apply IH.
      apply elem_of_app in Hin as [Hin|Hin]; [done|].
      apply list_elem_of_singleton in Hin. congruence.
Qed.

Lemma created_names missing created :
  Forall2 (fun r c => getRequiredResource (rr_name r) = Some (cr_resource c))
          missing created →
  (∀ r, r ∈ missing → ∃ c, c ∈ created ∧ rr_name (cr_resource c) = rr_name r)
  ∧ (∀ c, c ∈ created → ∃ r, r ∈ missing ∧ rr_name (cr_resource c) = rr_name r).
Proof.
  induction 1 as [|r c missing created Hrc Hall [IH1 IH2]].
  - split; intros ? ?%elem_of_nil; done.
  - apply getRequiredResource_name in Hrc. split.
    + intros r' [->|Hin]%elem_of_cons.
      * exists c. split; [by left | done].
      * destruct (IH1 _ Hin) as (c' & Hc' & Hname). exists c'. split; [by right|done].
    + intros c' [->|Hin]%elem_of_cons.
      * exists r. split; [by left | done].
      * destruct (IH2 _ Hin) as (r' & Hr' & Hname). exists r'. split; [by right|done].
Qed.

Lemma resolved_or_unknown (rrConfigs : list requiredResourceSampleConfig) :
  (∀ rrConfig, rrConfig ∈ rrConfigs →
     is_Some (getRequiredResource (rrc_Name rrConfig)))
  ∨ (∃ rrConfig, rrConfig ∈ rrConfigs
       ∧ getRequiredResource (rrc_Name rrConfig) = None).
Proof.
  induction rrConfigs as [|rc rest [IH|(x & Hin & Hx)]].
  - left. by intros ? ?%elem_of_nil.
  - destruct (getRequiredResource (rrc_Name rc)) as [rr|] eqn:Hrc.
    + left. intros x [->|Hin]%elem_of_cons; [by rewrite Hrc | by apply IH].
    + right. exists rc. split; [by left | done].
  - right. exists x. split; [by right | done].
Qed.

(** When the creation loop over the reported gaps returns nil, every
    resource that was missing has an identifier on record in both halves
    of the profile, the names that were not missing read as before, the
    manifest and the selections are untouched, and, provided no
    identifier on record is the empty string, a second gap check reports
    nothing. *)
Theorem createMissing_closes_gap (E : Env) (st st1 : State) :
  createMissing E (elems (MissingRequiredResources (st_samples st))) st
  = (Ok tt, st1) →
  (∀ rr, rr ∈ elems (MissingRequiredResources (st_samples st)) →
     is_Some (p_SampleResourceIDs (s_Profile (st_samples st1)) !! rr_name rr)
     ∧ is_Some (p_ConfigFields (s_Profile (st_samples st1)) !! rr_name rr))
  ∧ (∀ n, (∀ rr, rr ∈ elems (MissingRequiredResources (st_samples st)) →
                 rr_name rr ≠ n) →
       p_SampleResourceIDs (s_Profile (st_samples st1)) !! n
       = p_SampleResourceIDs (s_Profile (st_samples st)) !! n
       ∧ p_ConfigFields (s_Profile (st_samples st1)) !! n
         = p_ConfigFields (s_Profile (st_samples st)) !! n)
  ∧ (∃ p, st_samples st1 = set_Profile p (st_samples st))
  ∧ ((∀ n, p_SampleResourceIDs (s_Profile (st_samples st1)) !! n ≠ Some "") →
     len (MissingRequiredResources (st_samples st1)) = 0).
Proof.
  intros Hrun.
  apply createMissing_Ok_inv in Hrun as (created & Hcreated & ->). simpl.
  destruct (created_names _ _ Hcreated) as [Hto Hfrom].
  assert (Hrecorded : ∀ rr,
    rr ∈ elems (MissingRequiredResources (st_samples st)) →
    is_Some (p_SampleResourceIDs
               (persistAll (s_Profile (st_samples st)) created) !! rr_name rr)
    ∧ is_Some (p_ConfigFields
                 (persistAll (s_Profile (st_samples st)) created) !! rr_name rr)).
  { intros rr Hin. destruct (Hto _ Hin) as (c & Hc & <-).
    by apply persistAll_recorded. }
  assert (Hframe : ∀ n,
    (∀ rr, rr ∈ elems (MissingRequiredResources (st_samples st)) →
           rr_name rr ≠ n) →
    p_SampleResourceIDs (persistAll (s_Profile (st_samples st)) created) !! n
    = p_SampleResourceIDs (s_Profile (st_samples st)) !! n
    ∧ p_ConfigFields (persistAll (s_Profile (st_samples st)) created) !! n
      = p_ConfigFields (s_Profile (st_samples st)) !! n).
  { intros n Hn. apply persistAll_frame. apply Forall_forall.
    intros c Hc. destruct (Hfrom _ Hc) as (r & Hr & ->). by apply Hn. }
  split; [done|]. split; [done|]. split; [eauto|].
  intros Hnonempty. unfold len.
  destruct (resolved_or_unknown (sc_RequiredResources (s_sampleConfig (st_samples st))))
    as [Hall|Hunknown].
  2: { unfold MissingRequiredResources. simpl.
       by rewrite missingLoop_unknown. }
  unfold MissingRequiredResources in *. simpl.
  rewrite missingLoop_resolved in * by done. simpl in *.
  destruct (unrecorded (persistAll (s_Profile (st_samples st)) created)
              (sc_RequiredResources (s_sampleConfig (st_samples st))))
    as [|rr rest] eqn:Hleft; [done|].
  exfalso.
  assert (Hin : rr ∈ unrecorded (persistAll (s_Profile (st_samples st)) created)
                  (sc_RequiredResources (s_sampleConfig (st_samples st))))
    by (rewrite Hleft; by left).
  unfold unrecorded in Hin.
  apply list_elem_of_omap in Hin as (rc & [Hempty Hrc]%list_elem_of_filter & Hrr).
  apply getRequiredResource_name in Hrr as Hname.
  unfold GetStripeSampleResourceID in Hempty.
  destruct (p_SampleResourceIDs (persistAll (s_Profile (st_samples st)) created)
              !! rrc_Name rc) as [id|] eqn:Hlookup.
  { simpl in Hempty. subst id. by eapply Hnonempty. }
  assert (Hwas : rr ∈ unrecorded (s_Profile (st_samples st))
                   (sc_RequiredResources (s_sampleConfig (st_samples st)))).
  { unfold unrecorded. apply list_elem_of_omap. exists rc. split; [|done].
    apply list_elem_of_filter. split; [|done].
    unfold GetStripeSampleResourceID.
    destruct (p_SampleResourceIDs (s_Profile (st_samples st)) !! rrc_Name rc)
      as [id|] eqn:Hbefore; [|done].
    exfalso.
    destruct (decide (Exists (fun c => rr_name (cr_resource c) = rrc_Name rc) created))
      as [Hex|Hnex].
    - apply Exists_exists in Hex as (c & Hc & Hcname).
      destruct (persistAll_recorded (s_Profile (st_samples st)) created c Hc)
        as [[? Hsome] _].
      rewrite Hcname, Hlookup in Hsome. done.
    - destruct (persistAll_frame (s_Profile (st_samples st)) created (rrc_Name rc))
        as [Hsame _].
      + apply Forall_forall. intros c Hc Hcname. apply Hnex.
        apply Exists_exists. eauto.
      + rewrite Hlookup, Hbefore in Hsame. done. }
  destruct (Hrecorded rr Hwas) as [[? Hsome] _].
  rewrite Hname, Hlookup in Hsome. done.
Qed.

Lemma createMissing_closes_gap_witness :
  len (MissingRequiredResources
         (st_samples
            (createMissing providingEnv
               (elems (MissingRequiredResources
                         (samplesOf emptyProfile (manifestOf [webNode] [basicRef; proRef]))))
               (startState emptyProfile (manifestOf [webNode] [basicRef; proRef]))).2))
  = 0.
Proof.
  refine (proj2 (proj2 (proj2 (createMissing_closes_gap providingEnv
    (startState emptyProfile (manifestOf [webNode] [basicRef; proRef]))
    (createMissing providingEnv
       (elems (MissingRequiredResources
                 (samplesOf emptyProfile (manifestOf [webNode] [basicRef; proRef]))))
       (startState emptyProfile (manifestOf [webNode] [basicRef; proRef]))).2
    _))) _).
  - vm_compute. reflexivity.
  - assert (Hrecord :
      p_SampleResourceIDs (s_Profile (st_samples
        (createMissing providingEnv
           (elems (MissingRequiredResources
                     (samplesOf emptyProfile (manifestOf [webNode] [basicRef; proRef]))))
           (startState emptyProfile (manifestOf [webNode] [basicRef; proRef]))).2))
      = <["stripe_samples_price_recurring_pro_id" := "price_1"]>
          (<["stripe_samples_price_recurring_basic_id" := "price_1"]> ∅))
      by (vm_compute; reflexivity).
    intros n. rewrite Hrecord. intros Hn.
    apply lookup_insert_Some in Hn as [[_ Hn]|[_ Hn]]; [discriminate|].
    apply lookup_insert_Some in Hn as [[_ Hn]|[_ Hn]]; [discriminate|].
    by rewrite lookup_empty in Hn.
Defined.

(** ** Initialize: the other branches *)

Section InitializeBranches.
Context (E : Env).


(** A pull that reports no error at all continues like the
    already-up-to-date one: the descriptor is read next. *)
Lemma Initialize_pull_clean app st appPath :
  env_appCacheFolder E (st_trace st) app = inl appPath →
  env_statNotExist E
    (st_trace st ++ [EvAppCacheFolder app; EvGetSamples "create"]) appPath
  = false →
  env_gitPull E
    (st_trace st ++ [EvAppCacheFolder app; EvGetSamples "create"; EvStat appPath])
    appPath
  = None →
  Initialize E app st = readSampleConfig E appPath (pulledState app appPath st).
Proof.
  intros Hpath Hstat Hpull.
  unfold Initialize, mbind, M_bind, bind, call, modifySamples, logEvent,
    withSamples.
  simpl. rewrite Hpath. simpl. rewrite <- !app_assoc. simpl.
  rewrite Hstat. simpl. rewrite <- !app_assoc. simpl.
  rewrite Hpull. simpl. unfold pulledState. by rewrite <- ?app_assoc.
Qed.

(** The descriptor step returns what goes wrong: an unreadable
    [.cli.json] leaves [s.sampleConfig] as it was and nothing is decoded;
    a descriptor that does not decode is returned as the decoder's error. *)
Theorem readSampleConfig_errors (appPath : string) (st : State) :
  (∀ e,
     env_readFile E (st_trace st) (filepath_Join [appPath; ".cli.json"]) = inr e →
     readSampleConfig E appPath st
     = (Err e, logEvent (EvReadFile (filepath_Join [appPath; ".cli.json"])) st))
  ∧ (∀ configFile decoded e,
       env_readFile E (st_trace st) (filepath_Join [appPath; ".cli.json"])
       = inl configFile →
       env_unmarshalConfig E configFile (s_sampleConfig (st_samples st))
       = (decoded, Some e) →
       (readSampleConfig E appPath st).1 = Err e
       ∧ st_trace (readSampleConfig E appPath st).2
         = st_trace st ++ [ EvReadFile (filepath_Join [appPath; ".cli.json"]);
                            EvUnmarshalConfig configFile ]).
Proof.
  split.
  - intros e Hread.
    unfold readSampleConfig, mbind, M_bind, bind, call. simpl. by rewrite Hread.
  - intros configFile decoded e Hread Hdecode.
    unfold readSampleConfig, mbind, M_bind, bind, call, modifySamples, logEvent,
      withSamples, getSamples.
    simpl. rewrite Hread. simpl. rewrite Hdecode. simpl.
    by rewrite <- app_assoc.
Qed.

Lemma Initialize_keeps {X} (f : Samples → X) app :
  (∀ n s, f (set_name n s) = f s) →
  (∀ r s, f (set_repo r s) = f s) →
  (∀ sc s, f (set_sampleConfig sc s) = f s) →
  steps (keeps f) (Initialize E app).
Proof.
  intros Hname Hrepo Hconfig.
  unfold Initialize, readSampleConfig. steps_walk; try steps_leaf.
Qed.

(** [Initialize] stores the sample's name whatever happens, and the cache
    path as the repository as soon as that path is known, also when the
    clone, the pull or the descriptor then fails; when the cache path
    cannot be determined it returns that error without any other call
    and with [s.repo] as it was.  It never touches the profile or the
    client and server selections. *)
Theorem Initialize_records_name_and_repo (app : string) (st : State) :
  s_name (st_samples (Initialize E app st).2) = app
  ∧ (∀ appPath,
       env_appCacheFolder E (st_trace st) app = inl appPath →
       s_repo (st_samples (Initialize E app st).2) = appPath)
  ∧ (∀ e,
       env_appCacheFolder E (st_trace st) app = inr e →
       Initialize E app st
       = (Err e, logEvent (EvAppCacheFolder app) (withSamples (set_name app) st)))
  ∧ s_Profile (st_samples (Initialize E app st).2) = s_Profile (st_samples st)
  ∧ s_client (st_samples (Initialize E app st).2) = s_client (st_samples st)
  ∧ s_server (st_samples (Initialize E app st).2) = s_server (st_samples st).
Proof.
  split; [|split; [|split]].
  - unfold Initialize. unfold mbind at 1, M_bind at 1, bind at 1. simpl.
    match goal with
    | |- s_name (st_samples (?m ?s).2) = _ =>
        assert (Hkeep : steps (keeps s_name) m)
          by (unfold readSampleConfig; steps_walk; try steps_leaf);
        exact (Hkeep s)
    end.
  - intros appPath Hpath.
    change (Initialize E app)
      with (modifySamples (set_name app);;
            appPath ← call (EvAppCacheFolder app)
                           (fun tr => env_appCacheFolder E tr app) ≫= orFail;
            modifySamples (set_repo appPath);;
            syncAndParse E app appPath).
    unfold mbind, M_bind. unfold bind at 1 2 3 4, call, modifySamples. simpl.
    rewrite Hpath. simpl.
    assert (Hkeep : steps (keeps s_repo) (syncAndParse E app appPath))
      by (unfold syncAndParse, readSampleConfig; steps_walk; try steps_leaf).
    match goal with
    | |- s_repo (st_samples (syncAndParse E app appPath ?s).2) = _ =>
        exact (Hkeep s)
    end.
  - intros e Hpath.
    unfold Initialize, mbind, M_bind, bind, call, modifySamples. simpl.
    by rewrite Hpath.
  - pose proof (Initialize_keeps s_Profile app ltac:(done) ltac:(done) ltac:(done) st).
    pose proof (Initialize_keeps s_client app ltac:(done) ltac:(done) ltac:(done) st).
    pose proof (Initialize_keeps s_server app ltac:(done) ltac:(done) ltac:(done) st).
    done.
Qed.
End InitializeBranches.


Lemma readSampleConfig_errors_witness :
  readSampleConfig (freshEnv None) "/cache/accept-a-payment"
    (startState emptyProfile (manifestOf [] []))
  = (Err "file does not exist",
     logEvent (EvReadFile "/cache/accept-a-payment/.cli.json")
       (startState emptyProfile (manifestOf [] []))).
Proof.
  apply (proj1 (readSampleConfig_errors (freshEnv None) "/cache/accept-a-payment"
    (startState emptyProfile (manifestOf [] []))) "file does not exist" eq_refl).
Defined.

Lemma Initialize_records_name_and_repo_witness :
  s_repo (st_samples (Initialize (freshEnv (Some "repository not found"))
            "accept-a-payment" (startState emptyProfile (manifestOf [] []))).2)
  = "/cache/accept-a-payment"
  ∧ Initialize homelessEnv "accept-a-payment"
      (startState emptyProfile (manifestOf [] []))
    = (Err "$HOME is not defined",
       logEvent (EvAppCacheFolder "accept-a-payment")
         (withSamples (set_name "accept-a-payment")
            (startState emptyProfile (manifestOf [] [])))).
Proof.
  split.
  - apply (proj1 (proj2 (Initialize_records_name_and_repo
      (freshEnv (Some "repository not found")) "accept-a-payment"
      (startState emptyProfile (manifestOf [] []))))
      "/cache/accept-a-payment" eq_refl).
  - apply (proj1 (proj2 (proj2 (Initialize_records_name_and_repo
      homelessEnv "accept-a-payment"
      (startState emptyProfile (manifestOf [] [])))))
      "$HOME is not defined" eq_refl).
Defined.

(** ** Copy: integrations with a folder of their own, and failures *)

Section CopyMore.
Context (E : Env).

(** For an integration with a name other than [main], a successful
    [Copy] has taken the server and client variants from [<repo>/<name>],
    listed that folder and copied every entry the listing named, then
    listed the repository root and copied every entry of that listing;
    and under collaborators that do not fail [Copy] does succeed. *)
Theorem Copy_integration_subfolder (target : string) (st : State)
    (i : sampleConfigIntegration) :
  s_integration (st_samples st) = Some i →
  sci_Name i ≠ "main" →
  (∀ u st1, Copy E target st = (Ok u, st1) →
     ∃ files1 files2,
       listedBy E i [s_repo (st_samples st); sci_Name i] st target files1 files2
       ∧ st1 = {| st_samples := st_samples st;
                  st_trace := st_trace st
                    ++ copyCallsFrom i [s_repo (st_samples st); sci_Name i]
                                     (st_samples st) target files1 files2 |})
  ∧ (copiesSucceed E →
     ∃ files1 files2,
       listedBy E i [s_repo (st_samples st); sci_Name i] st target files1 files2
       ∧ Copy E target st
         = (Ok tt,
            {| st_samples := st_samples st;
               st_trace := st_trace st
                 ++ copyCallsFrom i [s_repo (st_samples st); sci_Name i]
                                  (st_samples st) target files1 files2 |})).
Proof.
  intros Hchosen Hname.
  assert (Hrun : Copy E target st
                 = copyIntegration E (st_samples st) i (sci_Name i) target st).
  { unfold Copy, mbind, M_bind, bind. simpl. rewrite Hchosen. unfold name.
    by rewrite decide_False. }
  rewrite Hrun. split.
  - intros u st1 Hok. by apply copyIntegration_Ok_listed in Hok.
  - intros Hgood. by apply copyIntegration_succeeds.
Qed.

Lemma copyFiles_steps source target files :
  steps (both (onlyEmits isCopyOrListing) (keeps id))
        (copyFiles E source target files).
Proof.
  induction files as [|file files IH]; simpl.
  - apply steps_ret; typeclasses eauto.
  - steps_walk; try apply IH.
    split; [|done]. apply onlyEmits_logEvent. left. eauto.
Qed.

(** Whatever happens, [Copy] only copies and lists directories, and it
    leaves the [Samples] struct, profile included, as it found it. *)
Theorem Copy_only_copies (target : string) (st : State) :
  onlyEmits isCopyOrListing st (Copy E target st).2
  ∧ st_samples (Copy E target st).2 = st_samples st.
Proof.
  assert (Hsteps : steps (both (onlyEmits isCopyOrListing) (keeps id))
                         (Copy E target)).
  { unfold Copy, copyIntegration.
    steps_walk; try apply copyFiles_steps;
      (split; [|done]); apply onlyEmits_logEvent; unfold isCopyOrListing; eauto. }
  destruct (Hsteps st) as [Hlog Hkeep]. split; [exact Hlog | exact Hkeep].
Qed.

(** The entry loops stop at the first copy that fails: the error is
    returned and no later entry is copied. *)
Theorem copyFiles_stops_at_failure (source : string → string) (target : string)
    (before : list string) (file : string) (after : list string)
    (st st1 : State) (e : error) :
  copyFiles E source target before st = (Ok tt, st1) →
  env_copy E (st_trace st1) (source file) (filepath_Join [target; file]) = Some e →
  copyFiles E source target (before ++ file :: after) st
  = (Err e,
     {| st_samples := st_samples st;
        st_trace := st_trace st
          ++ map (fun f => EvCopy (source f) (filepath_Join [target; f]))
                 (before ++ [file]) |}).
Proof.
  revert st. induction before as [|f before IH]; intros st; simpl.
  - intros [= <-] Hfail.
    unfold mbind, M_bind, bind, call. simpl. by rewrite Hfail.
  - intros (? & sa & [Hcopy ->]%call_orFail__Ok_inv & Hrest)%bind_Ok_inv Hfail.
    unfold mbind, M_bind, bind, call in *. simpl. rewrite Hcopy. simpl.
    rewrite (IH _ Hrest Hfail). simpl. by rewrite <- app_assoc.
Qed.

(** The copy of the server variant comes first; when it fails, [Copy]
    returns the error and does nothing else. *)
Theorem Copy_server_failure (target : string) (st : State)
    (i : sampleConfigIntegration) (e : error) :
  s_integration (st_samples st) = Some i →
  0 < length (sci_Servers i) →
  env_copy E (st_trace st)
    (filepath_Join [s_repo (st_samples st); name i; "server"; s_server (st_samples st)])
    (filepath_Join [target; "server"]) = Some e →
  Copy E target st
  = (Err e,
     logEvent
       (EvCopy (filepath_Join [s_repo (st_samples st); name i; "server";
                               s_server (st_samples st)])
               (filepath_Join [target; "server"])) st).
Proof.
  intros Hchosen Hservers Hfail.
  unfold Copy, copyIntegration, mbind, M_bind, bind, call, hasServers. simpl.
  rewrite Hchosen. rewrite bool_decide_eq_true_2 by done. simpl.
  by rewrite Hfail.
Qed.
End CopyMore.

Lemma Copy_integration_subfolder_witness :
  Copy listingEnv "/home/me/app"
    (selectedState "/cache/sample" (manifestOf [manyVariants] []) manyVariants
                   "react" "ruby")
  = (Ok tt,
     {| st_samples :=
          st_samples (selectedState "/cache/sample" (manifestOf [manyVariants] [])
                                    manyVariants "react" "ruby");
        st_trace := []
          ++ copyCallsFrom manyVariants ["/cache/sample"; "checkout"]
               (st_samples (selectedState "/cache/sample"
                              (manifestOf [manyVariants] []) manyVariants
                              "react" "ruby"))
               "/home/me/app"
               ["README.md"; "package.json"] ["README.md"; "package.json"] |}).
Proof.
  destruct (proj2 (Copy_integration_subfolder listingEnv "/home/me/app"
    (selectedState "/cache/sample" (manifestOf [manyVariants] []) manyVariants
                   "react" "ruby")
    manyVariants eq_refl ltac:(discriminate)))
    as (files1 & files2 & [Hfiles1 Hfiles2] & Hrun).
  - split; [reflexivity|]. intros tr dir. eexists. reflexivity.
  - injection Hfiles1 as <-. injection Hfiles2 as <-. exact Hrun.
Defined.

(** That run: the variants and the entries of [<repo>/checkout], then the
    entries of the root. *)
Example Copy_subfolder_run :
  st_trace (Copy listingEnv "/home/me/app"
              (selectedState "/cache/sample" (manifestOf [manyVariants] [])
                             manyVariants "react" "ruby")).2
  = [ EvCopy "/cache/sample/checkout/server/ruby" "/home/me/app/server";
      EvCopy "/cache/sample/checkout/client/react" "/home/me/app/client";
      EvGetFiles "/cache/sample/checkout";
      EvCopy "/cache/sample/checkout/README.md" "/home/me/app/README.md";
      EvCopy "/cache/sample/checkout/package.json" "/home/me/app/package.json";
      EvGetFiles "/cache/sample";
      EvCopy "/cache/sample/README.md" "/home/me/app/README.md";
      EvCopy "/cache/sample/package.json" "/home/me/app/package.json" ].
Proof. vm_compute. reflexivity. Qed.

Lemma copyFiles_stops_at_failure_witness :
  copyFiles lockedEnv (fun file => filepath_Join ["/cache/sample"; file])
    "/home/me/app" (["LICENSE"] ++ "README.md" :: ["package.json"])
    {| st_samples := samplesOf emptyProfile (manifestOf [] []); st_trace := [] |}
  = (Err "permission denied",
     {| st_samples := samplesOf emptyProfile (manifestOf [] []);
        st_trace := []
          ++ map (fun f => EvCopy (filepath_Join ["/cache/sample"; f])
                                  (filepath_Join ["/home/me/app"; f]))
                 (["LICENSE"] ++ ["README.md"]) |}).
Proof.
  refine (copyFiles_stops_at_failure lockedEnv
    (fun file => filepath_Join ["/cache/sample"; file]) "/home/me/app"
    ["LICENSE"] "README.md" ["package.json"]
    {| st_samples := samplesOf emptyProfile (manifestOf [] []); st_trace := [] |}
    _ "permission denied" _ _).
  - vm_compute. reflexivity.
  - vm_compute. reflexivity.
Defined.

Lemma Copy_server_failure_witness :
  Copy lockedEnv "/home/me/app"
    (selectedState "/cache/sample" (manifestOf [webNode] []) webNode "" "")
  = (Err "permission denied",
     logEvent (EvCopy "/cache/sample/server" "/home/me/app/server")
       (selectedState "/cache/sample" (manifestOf [webNode] []) webNode "" "")).
Proof.
  refine (Copy_server_failure lockedEnv "/home/me/app"
    (selectedState "/cache/sample" (manifestOf [webNode] []) webNode "" "")
    webNode "permission denied" eq_refl _ _).
  - simpl. lia.
  - vm_compute. reflexivity.
Defined.

(** ** ConfigureDotEnv: what is written, and when nothing is *)

Lemma injectResourceIDs_snoc p rrConfigs rc dotenv :
  injectResourceIDs p (rrConfigs ++ [rc]) dotenv
  = if decide (GetStripeSampleResourceID p (rrc_Name rc) = "")
    then injectResourceIDs p rrConfigs dotenv
    else <[rrc_EnvVar rc := GetStripeSampleResourceID p (rrc_Name rc)]>
           (injectResourceIDs p rrConfigs dotenv).
Proof. unfold injectResourceIDs. by rewrite foldl_app. Qed.

Lemma injectResourceIDs_frame p rrConfigs dotenv k :
  Forall (leavesAlone p k) rrConfigs →
  injectResourceIDs p rrConfigs dotenv !! k = dotenv !! k.
Proof.
  induction rrConfigs as [|rc rrConfigs IH] using rev_ind; intros Hall; [done|].
  apply Forall_app in Hall as [Hrest Hrc]. apply Forall_inv in Hrc.
  rewrite injectResourceIDs_snoc. case_decide as Hid; [by apply IH|].
  destruct Hrc as [Hempty|Hvar]; [done|].
  rewrite lookup_insert_ne by done. by apply IH.
Qed.

Lemma injectResourceIDs_recorded p before rc after dotenv :
  GetStripeSampleResourceID p (rrc_Name rc) ≠ "" →
  Forall (leavesAlone p (rrc_EnvVar rc)) after →
  injectResourceIDs p (before ++ rc :: after) dotenv !! rrc_EnvVar rc
  = Some (GetStripeSampleResourceID p (rrc_Name rc)).
Proof.
  intros Hid.
  induction after as [|rc' after IH] using rev_ind; intros Hafter.
  - rewrite injectResourceIDs_snoc, decide_False by done.
    by rewrite lookup_insert_eq.
  - apply Forall_app in Hafter as [Hafter Hrc']. apply Forall_inv in Hrc'.
    rewrite app_comm_cons, app_assoc, injectResourceIDs_snoc.
    case_decide as Hid'; [by apply IH|].
    destruct Hrc' as [Hempty|Hvar]; [done|].
    rewrite lookup_insert_ne by done. by apply IH.
Qed.

Section DotEnv.
Context (E : Env).

Lemma ConfigureDotEnv_Ok_inv sampleLocation st i u st1 :
  s_integration (st_samples st) = Some i →
  0 < length (sci_Servers i) →
  sc_ConfigureDotEnv (s_sampleConfig (st_samples st)) = true →
  ConfigureDotEnv E sampleLocation st = (Ok u, st1) →
  ∃ example publishableKey apiKey deviceName secret,
    dotenvAnswers E sampleLocation st example publishableKey apiKey deviceName secret
    ∧ publishableKey ≠ ""
    ∧ env_dotenvWrite E
        (st_trace st
         ++ [EvOpen (filepath_Join [sampleLocation; ".env.example"]);
             EvDotenvParse (filepath_Join [sampleLocation; ".env.example"]);
             EvGetPublishableKey; EvGetAPIKey false; EvGetDeviceName;
             EvAuthorize apiKey deviceName "webhooks"])
        (injectResourceIDs (s_Profile (st_samples st))
           (sc_RequiredResources (s_sampleConfig (st_samples st)))
           (withReservedKeys publishableKey apiKey secret example))
        (filepath_Join [sampleLocation; "server"; ".env"]) = None
    ∧ st1 = {| st_samples := st_samples st;
               st_trace := st_trace st
                 ++ dotenvCalls sampleLocation apiKey deviceName
                      (injectResourceIDs (s_Profile (st_samples st))
                         (sc_RequiredResources (s_sampleConfig (st_samples st)))
                         (withReservedKeys publishableKey apiKey secret example)) |}.
Proof.
  intros Hchosen Hservers Hflag.
  unfold ConfigureDotEnv. unfold mbind at 1, M_bind at 1, bind at 1. simpl.
  rewrite Hchosen. unfold hasServers.
  rewrite bool_decide_eq_true_2, Hflag by done. simpl.
  intros (? & sa & [Hopen ->]%call_orFail__Ok_inv & Hrest)%bind_Ok_inv.
  apply bind_Ok_inv in Hrest as (example & sb & [Hparse ->]%call_orFail_Ok_inv & Hrest).
  apply bind_Ok_inv in Hrest as (publishableKey & sc & Hkey & Hrest).
  unfold call in Hkey. injection Hkey as Hpk <-.
  simpl in Hpk, Hrest. rewrite <- ?app_assoc in Hpk, Hrest. simpl in Hpk, Hrest.
  case_decide as Hnonempty; [done|].
  apply bind_Ok_inv in Hrest as (apiKey & sd & [HapiKey ->]%call_orFail_Ok_inv & Hrest).
  apply bind_Ok_inv in Hrest as (deviceName & se & [Hdevice ->]%call_orFail_Ok_inv & Hrest).
  apply bind_Ok_inv in Hrest as (secret & sf & [Hsecret ->]%call_orFail_Ok_inv & Hrest).
  apply call_orFail__Ok_inv in Hrest as [Hwrite ->].
  simpl in *. rewrite <- ?app_assoc in *. simpl in *.
  exists example, publishableKey, apiKey, deviceName, secret.
  split; [by repeat split|]. split; [done|]. split; [exact Hwrite|].
  unfold logEvent, dotenvCalls, withReservedKeys. simpl.
  rewrite <- ?app_assoc. done.
Qed.

(** A [ConfigureDotEnv] that returns nil for an integration with servers
    and a manifest that opts in has read the example file, fetched the
    keys and the webhook secret and written one file,
    [<sampleLocation>/server/.env]; the values it writes are the ones the
    collaborators answered with.  In the mapping written, every variable
    of the example that is neither one of the four reserved keys nor the
    variable of a resource on record is as in the example; the four
    reserved keys hold the publishable key, the secret key, the webhook
    secret and [../client], unless a resource on record names the same
    variable; and every resource with an identifier on record has it
    under its variable, the last such resource winning a shared
    variable.  The [Samples] struct is not changed.  Conversely, when the
    collaborators answer, the key is not empty and the write succeeds,
    the method does return nil. *)
Theorem ConfigureDotEnv_written (sampleLocation : string) (st : State)
    (i : sampleConfigIntegration) :
  s_integration (st_samples st) = Some i →
  0 < length (sci_Servers i) →
  sc_ConfigureDotEnv (s_sampleConfig (st_samples st)) = true →
  (∀ u st1, ConfigureDotEnv E sampleLocation st = (Ok u, st1) →
     ∃ example publishableKey apiKey deviceName secret written,
       dotenvAnswers E sampleLocation st example publishableKey apiKey
                     deviceName secret
       ∧ publishableKey ≠ ""
       ∧ written
         = injectResourceIDs (s_Profile (st_samples st))
             (sc_RequiredResources (s_sampleConfig (st_samples st)))
             (withReservedKeys publishableKey apiKey secret example)
       ∧ st1 = {| st_samples := st_samples st;
                  st_trace := st_trace st
                    ++ dotenvCalls sampleLocation apiKey deviceName written |}
       ∧ (∀ k, Forall (leavesAlone (s_Profile (st_samples st)) k)
                      (sc_RequiredResources (s_sampleConfig (st_samples st))) →
               written !! k
               = withReservedKeys publishableKey apiKey secret example !! k)
       ∧ withReservedKeys publishableKey apiKey secret example
           !! "STRIPE_PUBLISHABLE_KEY" = Some publishableKey
       ∧ withReservedKeys publishableKey apiKey secret example
           !! "STRIPE_SECRET_KEY" = Some apiKey
       ∧ withReservedKeys publishableKey apiKey secret example
           !! "STRIPE_WEBHOOK_SECRET" = Some secret
       ∧ withReservedKeys publishableKey apiKey secret example
           !! "STATIC_DIR" = Some "../client"
       ∧ (∀ k, k ≠ "STRIPE_PUBLISHABLE_KEY" → k ≠ "STRIPE_SECRET_KEY" →
               k ≠ "STRIPE_WEBHOOK_SECRET" → k ≠ "STATIC_DIR" →
               withReservedKeys publishableKey apiKey secret example !! k
               = example !! k)
       ∧ (∀ before rrConfig after,
            sc_RequiredResources (s_sampleConfig (st_samples st))
            = before ++ rrConfig :: after →
            GetStripeSampleResourceID (s_Profile (st_samples st)) (rrc_Name rrConfig)
            ≠ "" →
            Forall (leavesAlone (s_Profile (st_samples st)) (rrc_EnvVar rrConfig))
                   after →
            written !! rrc_EnvVar rrConfig
            = Some (GetStripeSampleResourceID (s_Profile (st_samples st))
                                              (rrc_Name rrConfig))))
  ∧ (∀ example publishableKey apiKey deviceName secret,
       dotenvAnswers E sampleLocation st example publishableKey apiKey
                     deviceName secret →
       publishableKey ≠ "" →
       env_dotenvWrite E
         (st_trace st
          ++ [EvOpen (filepath_Join [sampleLocation; ".env.example"]);
              EvDotenvParse (filepath_Join [sampleLocation; ".env.example"]);
              EvGetPublishableKey; EvGetAPIKey false; EvGetDeviceName;
              EvAuthorize apiKey deviceName "webhooks"])
         (injectResourceIDs (s_Profile (st_samples st))
            (sc_RequiredResources (s_sampleConfig (st_samples st)))
            (withReservedKeys publishableKey apiKey secret example))
         (filepath_Join [sampleLocation; "server"; ".env"]) = None →
       ConfigureDotEnv E sampleLocation st
       = (Ok tt,
          {| st_samples := st_samples st;
             st_trace := st_trace st
               ++ dotenvCalls sampleLocation apiKey deviceName
                    (injectResourceIDs (s_Profile (st_samples st))
                       (sc_RequiredResources (s_sampleConfig (st_samples st)))
                       (withReservedKeys publishableKey apiKey secret example)) |})).
Proof.
  intros Hchosen Hservers Hflag. split.
  - intros u st1 Hrun.
    destruct (ConfigureDotEnv_Ok_inv _ _ _ _ _ Hchosen Hservers Hflag Hrun)
      as (example & publishableKey & apiKey & deviceName & secret
          & Hanswers & Hpk & _ & ->).
    eexists example, publishableKey, apiKey, deviceName, secret, _.
    split; [exact Hanswers|]. split; [exact Hpk|]. split; [reflexivity|].
    split; [reflexivity|].
    split; [intros k Hk; by apply injectResourceIDs_frame|].
    unfold withReservedKeys.
    split; [by rewrite !lookup_insert_ne, lookup_insert_eq by done|].
    split; [by rewrite !lookup_insert_ne, lookup_insert_eq by done|].
    split; [by rewrite !lookup_insert_ne, lookup_insert_eq by done|].
    split; [by rewrite lookup_insert_eq|].
    split; [intros k ????; by rewrite !lookup_insert_ne by done|].
    intros before rc after -> Hid Hafter. by apply injectResourceIDs_recorded.
  - intros example publishableKey apiKey deviceName secret
      (Hopen & Hparse & Hkey & HapiKey & Hdevice & Hsecret) Hpk Hwrite.
    unfold ConfigureDotEnv, mbind, M_bind, bind, call, logEvent, hasServers.
    simpl. rewrite Hchosen. rewrite bool_decide_eq_true_2, Hflag by done. simpl.
    rewrite Hopen. simpl. rewrite Hparse. simpl.
    rewrite <- ?app_assoc. simpl. rewrite Hkey.
    rewrite decide_False by done. simpl.
    rewrite HapiKey. simpl. rewrite <- ?app_assoc. simpl.
    rewrite Hdevice. simpl. rewrite <- ?app_assoc. simpl.
    rewrite Hsecret. simpl. rewrite <- ?app_assoc. simpl.
    unfold withReservedKeys in Hwrite. rewrite Hwrite. simpl.
    unfold dotenvCalls, withReservedKeys. rewrite <- ?app_assoc. done.
Qed.

(** Without a publishable key nothing is composed: the method returns an
    error right after asking for the key, before the secret key, the
    device name and the authorization are asked for and before any file
    is written. *)
Theorem ConfigureDotEnv_needs_publishable_key (sampleLocation : string)
    (st : State) (i : sampleConfigIntegration) (example : gmap string string) :
  s_integration (st_samples st) = Some i →
  0 < length (sci_Servers i) →
  sc_ConfigureDotEnv (s_sampleConfig (st_samples st)) = true →
  env_open E (st_trace st) (filepath_Join [sampleLocation; ".env.example"]) = None →
  env_dotenvParse E
    (st_trace st ++ [EvOpen (filepath_Join [sampleLocation; ".env.example"])])
    (filepath_Join [sampleLocation; ".env.example"]) = inl example →
  env_getPublishableKey E
    (st_trace st ++ [EvOpen (filepath_Join [sampleLocation; ".env.example"]);
                     EvDotenvParse (filepath_Join [sampleLocation; ".env.example"])])
  = "" →
  ConfigureDotEnv E sampleLocation st
  = (Err "we could not set the publishable key in the .env file; please set this manually or login again to set it automatically next time",
     {| st_samples := st_samples st;
        st_trace := st_trace st
          ++ [EvOpen (filepath_Join [sampleLocation; ".env.example"]);
              EvDotenvParse (filepath_Join [sampleLocation; ".env.example"]);
              EvGetPublishableKey] |}).
Proof.
  intros Hchosen Hservers Hflag Hopen Hparse Hkey.
  unfold ConfigureDotEnv, mbind, M_bind, bind, call, logEvent, hasServers. simpl.
  rewrite Hchosen. rewrite bool_decide_eq_true_2, Hflag by done. simpl.
  rewrite Hopen. simpl. rewrite Hparse. simpl.
  rewrite <- !app_assoc. simpl. rewrite Hkey. simpl. done.
Qed.

(** An example file that cannot be opened or parsed is returned as the
    error, with no key asked for and nothing written. *)
Theorem ConfigureDotEnv_example_errors (sampleLocation : string)
    (st : State) (i : sampleConfigIntegration) :
  s_integration (st_samples st) = Some i →
  0 < length (sci_Servers i) →
  sc_ConfigureDotEnv (s_sampleConfig (st_samples st)) = true →
  (∀ e,
     env_open E (st_trace st) (filepath_Join [sampleLocation; ".env.example"])
     = Some e →
     ConfigureDotEnv E sampleLocation st
     = (Err e, logEvent (EvOpen (filepath_Join [sampleLocation; ".env.example"])) st))
  ∧ (∀ e,
       env_open E (st_trace st) (filepath_Join [sampleLocation; ".env.example"])
       = None →
       env_dotenvParse E
         (st_trace st ++ [EvOpen (filepath_Join [sampleLocation; ".env.example"])])
         (filepath_Join [sampleLocation; ".env.example"]) = inr e →
       ConfigureDotEnv E sampleLocation st
       = (Err e,
          {| st_samples := st_samples st;
             st_trace := st_trace st
               ++ [EvOpen (filepath_Join [sampleLocation; ".env.example"]);
                   EvDotenvParse (filepath_Join [sampleLocation; ".env.example"])] |})).
Proof.
  intros Hchosen Hservers Hflag. split.
  - intros e Hopen.
    unfold ConfigureDotEnv, mbind, M_bind, bind, call, hasServers. simpl.
    rewrite Hchosen. rewrite bool_decide_eq_true_2, Hflag by done. simpl.
    by rewrite Hopen.
  - intros e Hopen Hparse.
    unfold ConfigureDotEnv, mbind, M_bind, bind, call, logEvent, hasServers. simpl.
    rewrite Hchosen. rewrite bool_decide_eq_true_2, Hflag by done. simpl.
    rewrite Hopen. simpl. rewrite Hparse. simpl. by rewrite <- app_assoc.
Qed.
End DotEnv.

Lemma ConfigureDotEnv_written_witness :
  ConfigureDotEnv exampleEnv "/home/me/app"
    (chosenState basicRecorded (manifestOf [webNode] [basicRef; proRef]) webNode)
  = (Ok tt,
     {| st_samples :=
          st_samples (chosenState basicRecorded
                        (manifestOf [webNode] [basicRef; proRef]) webNode);
        st_trace := []
          ++ dotenvCalls "/home/me/app" "sk_test_123" "laptop"
               (injectResourceIDs basicRecorded [basicRef; proRef]
                  (withReservedKeys "pk_test_123" "sk_test_123" "whsec_123"
                     (<["PORT" := "4242"]>
                        (<["STRIPE_SECRET_KEY" := "sk_12345"]> ∅)))) |}).
Proof.
  refine (proj2 (ConfigureDotEnv_written exampleEnv "/home/me/app"
    (chosenState basicRecorded (manifestOf [webNode] [basicRef; proRef]) webNode)
    webNode eq_refl _ eq_refl)
    (<["PORT" := "4242"]> (<["STRIPE_SECRET_KEY" := "sk_12345"]> ∅))
    "pk_test_123" "sk_test_123" "laptop" "whsec_123" _ _ eq_refl).
  - simpl. lia.
  - repeat split.
  - discriminate.
Defined.

(** The mapping of that run: the stale secret key of the example is
    replaced, the port is kept, the basic price is injected and the pro
    price, never created, is left out. *)
Example ConfigureDotEnv_written_run :
  st_trace (ConfigureDotEnv exampleEnv "/home/me/app"
     (chosenState basicRecorded (manifestOf [webNode] [basicRef; proRef]) webNode)).2
  = dotenvCalls "/home/me/app" "sk_test_123" "laptop"
      (<["BASIC" := "price_123"]>
         (<["STATIC_DIR" := "../client"]>
            (<["STRIPE_WEBHOOK_SECRET" := "whsec_123"]>
               (<["STRIPE_SECRET_KEY" := "sk_test_123"]>
                  (<["STRIPE_PUBLISHABLE_KEY" := "pk_test_123"]>
                     (<["PORT" := "4242"]> ∅)))))).
Proof. vm_compute. reflexivity. Qed.

Lemma ConfigureDotEnv_needs_publishable_key_witness :
  ConfigureDotEnv (freshEnv None) "/home/me/app"
    (chosenState emptyProfile (manifestOf [webNode] []) webNode)
  = (Err "we could not set the publishable key in the .env file; please set this manually or login again to set it automatically next time",
     {| st_samples :=
          st_samples (chosenState emptyProfile (manifestOf [webNode] []) webNode);
        st_trace := [EvOpen "/home/me/app/.env.example";
                     EvDotenvParse "/home/me/app/.env.example";
                     EvGetPublishableKey] |}).
Proof.
  refine (ConfigureDotEnv_needs_publishable_key (freshEnv None) "/home/me/app"
    (chosenState emptyProfile (manifestOf [webNode] []) webNode) webNode ∅
    eq_refl _ eq_refl eq_refl eq_refl eq_refl).
  simpl. lia.
Defined.

Lemma ConfigureDotEnv_example_errors_witness :
  ConfigureDotEnv noExampleEnv "/home/me/app"
    (chosenState emptyProfile (manifestOf [webNode] []) webNode)
  = (Err "file does not exist",
     logEvent (EvOpen "/home/me/app/.env.example")
       (chosenState emptyProfile (manifestOf [webNode] []) webNode)).
Proof.
  refine (proj1 (ConfigureDotEnv_example_errors noExampleEnv "/home/me/app"
    (chosenState emptyProfile (manifestOf [webNode] []) webNode) webNode
    eq_refl _ eq_refl) "file does not exist" eq_refl).
  simpl. lia.
Defined.

(** * Properties of the gRPC middleware *)

Section MiddlewareProperties.
Context {TelemetryClient EventMetadata Stream Req Resp : Type}.
Context (NewEventMetadata : EventMetadata).
Context (SetMerchant : string → EventMetadata → EventMetadata).
Context (setCommandPath : string → EventMetadata → EventMetadata).
Context (showReq : Req → string).

(** [authorize] lets a request through exactly when its context carries
    incoming metadata with an entry for [sec-x-stripe-cli], whatever the
    values of the entry, even none; without metadata it answers
    InvalidArgument and without the header Unauthenticated. *)
Theorem authorize_spec (ctx : @rpcContext TelemetryClient EventMetadata) :
  (authorize ctx = None ↔
     ∃ md, ctx_incoming ctx = Some md ∧ is_Some (md !! "sec-x-stripe-cli"))
  ∧ (ctx_incoming ctx = None →
     authorize ctx
     = Some (StatusError InvalidArgument "Retrieving metadata failed"))
  ∧ (∀ md, ctx_incoming ctx = Some md → md !! "sec-x-stripe-cli" = None →
       authorize ctx
       = Some (StatusError Unauthenticated
                           "sec-x-stripe-cli header is not supplied")).
Proof.
  unfold authorize, requiredHeader. split; [|split].
  - split.
    + destruct (ctx_incoming ctx) as [md|]; [|done].
      destruct (md !! "sec-x-stripe-cli") eqn:Hheader; [|done].
      intros _. exists md. split; [done|]. by rewrite Hheader.
    + intros (md & -> & [values ->]). done.
  - by intros ->.
  - intros md -> ->. done.
Qed.

(** The telemetry context is built whether or not the account identifier
    can be read: it carries the service's telemetry client and fresh event
    metadata with the merchant [GetAccountID] returned and the method as
    command path, and it keeps the incoming metadata, so a request that
    was authorized stays authorized. *)
Lemma initializeTelemetryContext_spec (ctx : @rpcContext TelemetryClient EventMetadata) (methodName : string)
    (server : RPCService) :
  let newCtx := initializeTelemetryContext NewEventMetadata SetMerchant
                  setCommandPath ctx methodName server in
  ctx_incoming newCtx = ctx_incoming ctx
  ∧ ctx_telemetryClient newCtx = Some (rpc_TelemetryClient server)
  ∧ ctx_eventMetadata newCtx
    = Some (setCommandPath methodName
              (SetMerchant (rpc_GetAccountID server).1 NewEventMetadata))
  ∧ authorize newCtx = authorize ctx.
Proof. done. Qed.

(** The unary interceptor calls the handler only for an authorized
    request: otherwise it returns a nil response and the authorization
    error, whatever the handler and whatever the server value is; an
    authorized request is handed to the handler unchanged, under the
    telemetry context, and the handler's answer is returned as it is. *)
Theorem serverUnaryInterceptor_gates (ctx : @rpcContext TelemetryClient EventMetadata) (req : Req)
    (info : UnaryServerInfo)
    (handler : @rpcContext TelemetryClient EventMetadata → Req
               → option Resp * option rpcError) :
  (∀ err, authorize ctx = Some err →
     (serverUnaryInterceptor NewEventMetadata SetMerchant setCommandPath showReq
        ctx req info handler).2
     = Returned (None, Some err))
  ∧ (∀ server, authorize ctx = None → usi_Server info = IsRPCService server →
       (serverUnaryInterceptor NewEventMetadata SetMerchant setCommandPath showReq
          ctx req info handler).2
       = Returned (handler
                     (initializeTelemetryContext NewEventMetadata SetMerchant
                        setCommandPath ctx (usi_FullMethod info) server)
                     req))
  ∧ (authorize ctx = None → usi_Server info = NotRPCService →
       (serverUnaryInterceptor NewEventMetadata SetMerchant setCommandPath showReq
          ctx req info handler).2
       = Panicked interfaceConversion).
Proof.
  unfold serverUnaryInterceptor. simpl. split; [|split].
  - by intros err ->.
  - by intros server -> ->.
  - by intros -> ->.
Qed.

(** The stream interceptor does the same for streams: an unauthorized
    stream gets the authorization error and the handler is not called; an
    authorized one reaches the handler wrapped, with the telemetry context
    as its [Context] and the transport of the original stream. *)
Theorem serverStreamInterceptor_gates (srv : anyServer) (stream : ServerStream)
    (info : StreamServerInfo)
    (handler : anyServer → ServerStream → option rpcError) :
  (∀ err, authorize (stream_Context stream) = Some err →
     (serverStreamInterceptor NewEventMetadata SetMerchant setCommandPath
        srv stream info handler).2
     = Returned (Some err))
  ∧ (∀ server, authorize (stream_Context stream) = None →
       srv = IsRPCService server →
       ∃ wrapped : @ServerStream TelemetryClient EventMetadata Stream,
         (serverStreamInterceptor NewEventMetadata SetMerchant setCommandPath
            srv stream info handler).2
         = Returned (handler srv wrapped)
         ∧ stream_Context wrapped
           = initializeTelemetryContext NewEventMetadata SetMerchant
               setCommandPath (stream_Context stream) (ssi_FullMethod info) server
         ∧ stream_transport wrapped = stream_transport stream
         ∧ authorize (stream_Context wrapped) = None)
  ∧ (authorize (stream_Context stream) = None → srv = NotRPCService →
       (serverStreamInterceptor NewEventMetadata SetMerchant setCommandPath
          srv stream info handler).2
       = Panicked interfaceConversion).
Proof.
  unfold serverStreamInterceptor. simpl. split; [|split].
  - by intros err ->.
  - intros server Hauth ->. rewrite Hauth.
    eexists. split; [reflexivity|]. split; [reflexivity|]. split; [reflexivity|].
    exact Hauth.
  - by intros -> ->.
Qed.
End MiddlewareProperties.

Lemma authorize_spec_witness :
  authorize (incomingContext (Some {[ "sec-x-stripe-cli" := [] ]})) = None
  ∧ authorize (incomingContext (Some {[ "Sec-X-Stripe-CLI" := ["1"] ]}))
    = Some (StatusError Unauthenticated "sec-x-stripe-cli header is not supplied").
Proof.
  split.
  - apply (proj1 (authorize_spec
      (incomingContext (Some {[ "sec-x-stripe-cli" := [] ]})))).
    exists {[ "sec-x-stripe-cli" := [] ]}. split; [reflexivity|].
    exists []. by vm_compute.
  - apply (proj2 (proj2 (authorize_spec
      (incomingContext (Some {[ "Sec-X-Stripe-CLI" := ["1"] ]}))))
      {[ "Sec-X-Stripe-CLI" := ["1"] ]}); reflexivity.
Defined.

Lemma serverUnaryInterceptor_gates_witness :
  (serverUnaryInterceptor ([] : list string)
     (fun merchant md => md ++ ["merchant=" +:+ merchant])
     (fun path md => md ++ ["path=" +:+ path])
     (fun req : string => req)
     (incomingContext None) "ping"
     {| usi_Server := NotRPCService; usi_FullMethod := "/rpc.StripeCLI/Version" |}
     (fun _ req => (Some ("pong" : string), None))).2
  = Returned (None, Some (StatusError InvalidArgument "Retrieving metadata failed"))
  ∧ (serverUnaryInterceptor ([] : list string)
       (fun merchant md => md ++ ["merchant=" +:+ merchant])
       (fun path md => md ++ ["path=" +:+ path])
       (fun req : string => req)
       (incomingContext (Some {[ "sec-x-stripe-cli" := ["1"] ]})) "ping"
       {| usi_Server := IsRPCService anonymousService;
          usi_FullMethod := "/rpc.StripeCLI/Version" |}
       (fun ctx req => (Some (String.concat "," (default [] (ctx_eventMetadata ctx))),
                        None))).2
    = Returned (Some "merchant=,path=/rpc.StripeCLI/Version", None).
Proof.
  split.
  - apply (proj1 (serverUnaryInterceptor_gates ([] : list string)
      (fun merchant md => md ++ ["merchant=" +:+ merchant])
      (fun path md => md ++ ["path=" +:+ path])
      (fun req : string => req)
      (incomingContext None) "ping"
      {| usi_Server := NotRPCService; usi_FullMethod := "/rpc.StripeCLI/Version" |}
      (fun _ req => (Some ("pong" : string), None)))).
    reflexivity.
  - apply (proj1 (proj2 (serverUnaryInterceptor_gates ([] : list string)
      (fun merchant md => md ++ ["merchant=" +:+ merchant])
      (fun path md => md ++ ["path=" +:+ path])
      (fun req : string => req)
      (incomingContext (Some {[ "sec-x-stripe-cli" := ["1"] ]})) "ping"
      {| usi_Server := IsRPCService anonymousService;
         usi_FullMethod := "/rpc.StripeCLI/Version" |}
      (fun ctx req => (Some (String.concat "," (default [] (ctx_eventMetadata ctx))),
                       None)))) anonymousService); reflexivity.
Defined.

Lemma serverStreamInterceptor_gates_witness :
  (serverStreamInterceptor ([] : list string)
     (fun merchant md => md ++ ["merchant=" +:+ merchant])
     (fun path md => md ++ ["path=" +:+ path])
     (IsRPCService anonymousService)
     {| stream_Context := incomingContext (Some ∅); stream_transport := tt |}
     {| ssi_FullMethod := "/rpc.StripeCLI/Listen" |}
     (fun _ _ => None)).2
  = Returned (Some (StatusError Unauthenticated
                                "sec-x-stripe-cli header is not supplied")).
Proof.
  apply (proj1 (serverStreamInterceptor_gates ([] : list string)
    (fun merchant md => md ++ ["merchant=" +:+ merchant])
    (fun path md => md ++ ["path=" +:+ path])
    (IsRPCService anonymousService)
    {| stream_Context := incomingContext (Some ∅); stream_transport := tt |}
    {| ssi_FullMethod := "/rpc.StripeCLI/Listen" |}
    (fun _ _ => None))).
  reflexivity.
Defined.
